(** * Document data extractor: a shallow embedding of [src/data_extractor.py]

    The extractor receives an already opened document object (PyMuPDF,
    PyPDF2, python-docx or python-pptx) and projects it to lists of plain
    records.  Python objects are duck typed: the code probes them with
    [hasattr], so every probed attribute is modelled as an [attr] that may
    be missing.  Python [str] values are modelled as [string], each
    character standing for one code point below 256. *)

From Stdlib Require Import ZArith NArith List Ascii String Bool Lia.
From Stdlib Require Import DecimalString.
From stdpp Require Import base list strings gmap sets.

Import ListNotations.
Local Open Scope string_scope.
Local Open Scope list_scope.

(** ** Python strings *)

Module PyStr.

Definition chr (n : nat) : ascii := ascii_of_nat n.

Definition nl : string := String (chr 10) "".

(** [str.isspace] on one character (also the class [\s] of [re] for a
    [str] pattern): TAB..CR, FS..US, SPACE, NEL and NBSP. *)
Definition isspace (c : ascii) : bool :=
  let n := nat_of_ascii c in
  (((9 <=? n) && (n <=? 13)) || ((28 <=? n) && (n <=? 32))
   || (n =? 133) || (n =? 160))%nat.

(** Line boundaries of [str.splitlines]: LF, VT, FF, CR, FS, GS, RS, NEL. *)
Definition is_linebreak (c : ascii) : bool :=
  let n := nat_of_ascii c in
  (((10 <=? n) && (n <=? 13)) || ((28 <=? n) && (n <=? 30))
   || (n =? 133))%nat.

(** Truth value of a [str]: non-empty. *)
Definition nonempty (s : string) : bool :=
  match s with EmptyString => false | String _ _ => true end.

Fixpoint lstrip (s : string) : string :=
  match s with
  | EmptyString => EmptyString
  | String c r => if isspace c then lstrip r else s
  end.

Fixpoint rstrip (s : string) : string :=
  match s with
  | EmptyString => EmptyString
  | String c r =>
      match rstrip r with
      | EmptyString => if isspace c then EmptyString else String c EmptyString
      | r' => String c r'
      end
  end.

(** [s.strip()] *)
Definition strip (s : string) : string := lstrip (rstrip s).

(** [sep.join(l)] *)
Fixpoint join (sep : string) (l : list string) : string :=
  match l with
  | [] => ""
  | [x] => x
  | x :: r => x +:+ sep +:+ join sep r
  end.

(** [s.splitlines()]: CR LF counts as one boundary and a final boundary
    opens no further line. *)
Fixpoint splitlines (s : string) : list string :=
  match s with
  | EmptyString => []
  | String c r =>
      if is_linebreak c then
        match r with
        | String d r' =>
            if ((nat_of_ascii c =? 13) && (nat_of_ascii d =? 10))%nat
            then "" :: splitlines r'
            else "" :: splitlines r
        | EmptyString => [""]
        end
      else
        match splitlines r with
        | [] => [String c ""]
        | l :: ls => String c l :: ls
        end
  end.

Fixpoint last_char (s : string) : option ascii :=
  match s with
  | EmptyString => None
  | String c EmptyString => Some c
  | String _ r => last_char r
  end.

(** [needle in s] *)
Fixpoint contains (needle s : string) : bool :=
  String.prefix needle s
  || match s with
     | EmptyString => false
     | String _ r => contains needle r
     end.

(** [re.sub(r"\s+", " ", s)] *)
Fixpoint collapse_ws (s : string) : string :=
  match s with
  | EmptyString => EmptyString
  | String c r =>
      if isspace c then
        match r with
        | String d _ => if isspace d then collapse_ws r
                        else String " " (collapse_ws r)
        | EmptyString => " "
        end
      else String c (collapse_ws r)
  end.

(** A string that [strip] leaves as it is. *)
Definition trimmed (s : string) : Prop := lstrip s = s /\ rstrip s = s.

(** [str(n)] for a natural number *)
Definition of_nat (n : nat) : string :=
  NilZero.string_of_uint (Nat.to_uint n).

End PyStr.

(** ** Text reflow heuristic ([merge_lines], lines 7-22) *)

Module Reflow.
Import PyStr.

(** The character class of the pattern: full stop, exclamation mark,
    question mark, colon, double quote (34) and single quote (39). *)
Definition is_terminal (c : ascii) : bool :=
  let n := nat_of_ascii c in
  ((n =? 46) || (n =? 33) || (n =? 63) || (n =? 58) || (n =? 34)
   || (n =? 39))%nat.

(** [\s*$] matched at the start of [s]: some whitespace, then the end of
    the string or a last line feed. *)
Fixpoint ws_then_end (s : string) : bool :=
  match s with
  | EmptyString => true
  | String c r =>
      ((nat_of_ascii c =? 10)%nat && negb (nonempty r))
      || (isspace c && ws_then_end r)
  end.

(** The whole pattern, class then [\s*$], matched at the start of [s]. *)
Definition match_here (s : string) : bool :=
  match s with
  | EmptyString => false
  | String c r => is_terminal c && ws_then_end r
  end.

(** [re.search] of that pattern in [s] is not [None]: the pattern
    matches at some position. *)
Fixpoint re_search_terminal (s : string) : bool :=
  match_here s
  || match s with
     | EmptyString => false
     | String _ r => re_search_terminal r
     end.

(** One iteration of the [for line in lines] loop on (merged, buffer). *)
Definition merge_step (st : list string * string) (line : string)
  : list string * string :=
  let '(merged, buffer) := st in
  if negb (nonempty buffer) then (merged, line)
  else if re_search_terminal buffer then (merged ++ [buffer], line)
  else (merged, buffer +:+ " " +:+ line).

Definition merge_lines (raw_text : string) : string :=
  let lines :=
    map strip (List.filter (fun line => nonempty (strip line))
                           (splitlines raw_text)) in
  let '(merged, buffer) := fold_left merge_step lines ([], "") in
  let merged := if nonempty buffer then merged ++ [buffer] else merged in
  join (nl +:+ nl) merged.

(** *** The heuristic as the specification words it *)

(** "ends in one of the terminal punctuation characters, optionally
    followed by trailing whitespace" *)
Definition ends_terminal (s : string) : bool :=
  match last_char (rstrip s) with
  | Some c => is_terminal c
  | None => false
  end.

(** "accumulate lines into a growing buffer; flush the buffer into a
    completed unit whenever the buffer currently ends in terminal
    punctuation; otherwise keep appending the next line to the buffer
    separated by a single space" *)
Definition reflow_step (st : list string * string) (line : string)
  : list string * string :=
  let '(units, buffer) := st in
  let buffer := if nonempty buffer then buffer +:+ " " +:+ line else line in
  if ends_terminal buffer then (units ++ [buffer], "") else (units, buffer).

Definition merge_lines_spec (raw_text : string) : string :=
  let lines := List.filter nonempty (map strip (splitlines raw_text)) in
  let '(units, buffer) := fold_left reflow_step lines ([], "") in
  let units := if nonempty buffer then units ++ [buffer] else units in
  join (nl +:+ nl) units.

(** The loop of the code and the loop of the specification, in step:
    the code holds a finished buffer back until the next line arrives. *)
Definition in_step (code spec : list string * string) : Prop :=
  if ends_terminal (snd code)
  then snd spec = "" /\ fst spec = fst code ++ [snd code]
  else snd spec = snd code /\ fst spec = fst code.

End Reflow.

(** ** Python values, attributes and exceptions *)

(** A value the extractor only inspects for [None] or truth and otherwise
    passes through.  [PyObj] stands for any other object (a float, an enum
    member, an [RGBColor]), identified by its rendering. *)
Inductive pyval :=
| PyNone
| PyBool (b : bool)
| PyInt (n : Z)
| PyStr (s : string)
| PyObj (repr : string).

Definition truthy (v : pyval) : bool :=
  match v with
  | PyNone => false
  | PyBool b => b
  | PyInt n => negb (n =? 0)%Z
  | PyStr s => PyStr.nonempty s
  | PyObj _ => true
  end.

(** [str(v)] *)
Definition py_str (v : pyval) : string :=
  match v with
  | PyNone => "None"
  | PyBool true => "True"
  | PyBool false => "False"
  | PyInt n => NilZero.string_of_int (Z.to_int n)
  | PyStr s => s
  | PyObj r => r
  end.

(** [v if v is not None else d] *)
Definition if_not_none (v d : pyval) : pyval :=
  match v with PyNone => d | _ => v end.

(** An attribute of a duck-typed object: [hasattr] is false on [Missing]. *)
Inductive attr (A : Type) :=
| Missing
| Has (a : A).
Arguments Missing {A}.
Arguments Has {A} a.

Definition hasattr {A} (x : attr A) : bool :=
  match x with Missing => false | Has _ => true end.

(** [getattr(obj, name, default)] *)
Definition getattr {A} (x : attr A) (d : A) : A :=
  match x with Missing => d | Has a => a end.

Inductive exn :=
| ValueError (msg : string)
| AttributeError (msg : string)
| IndexError (msg : string)
| OtherError (msg : string).

Definition exn_str (e : exn) : string :=
  match e with
  | ValueError m | AttributeError m | IndexError m | OtherError m => m
  end.

Inductive result (A : Type) :=
| Ok (a : A)
| Raise (e : exn).
Arguments Ok {A} a.
Arguments Raise {A} e.

Definition bind {A B} (r : result A) (k : A -> result B) : result B :=
  match r with Ok a => k a | Raise e => Raise e end.

Notation "'let!' x ':=' r 'in' k" := (bind r (fun x => k))
  (at level 10, x name, r at level 100, k at level 200).

(** Reading an attribute that must be there: [obj.name]. *)
Definition read {A} (what : string) (x : attr A) : result A :=
  match x with
  | Has a => Ok a
  | Missing => Raise (AttributeError ("object has no attribute " +:+ what))
  end.

(** An attribute that is a property, probed with [hasattr] outside any
    [try]: [hasattr] answers false when the getter raises
    [AttributeError] and lets every other exception of the getter
    through (python-pptx raises [NotImplementedError] from [shape_type]
    for a shape it does not recognise).  [Fails] carries the rendering
    of that exception. *)
Inductive property (A : Type) :=
| Gets (a : attr A)
| Fails (msg : string).
Arguments Gets {A} a.
Arguments Fails {A} msg.

(** [hasattr(obj, name)], with the value when it answers true. *)
Definition probe {A} (p : property A) : result (attr A) :=
  match p with
  | Gets a => Ok a
  | Fails msg => Raise (OtherError msg)
  end.

(** A loop whose body may raise: the first exception leaves the loop. *)
Fixpoint mapM {A B} (f : A -> result B) (l : list A) : result (list B) :=
  match l with
  | [] => Ok []
  | x :: r => let! y := f x in let! ys := mapM f r in Ok (y :: ys)
  end.

(** [try: body except Exception: pass] around a body that yields the
    records it appended. *)
Definition try_pass {A} (r : result (list A)) : list A :=
  match r with Ok l => l | Raise _ => [] end.

(** [enumerate(l)] with the 1-based number the code derives from it. *)
Definition enumerate1 {A} (l : list A) : list (nat * A) :=
  combine (seq 1 (List.length l)) l.

(** ** [base64.b64encode(...).decode("utf-8")] *)

Module Base64.

Definition alphabet : string :=
  "ABCDEFGHIJKLMNOPQRSTUVWXYZabcdefghijklmnopqrstuvwxyz0123456789+/".

Definition digit (n : N) : ascii :=
  match String.get (N.to_nat n) alphabet with
  | Some c => c
  | None => "="%char
  end.

Fixpoint b64encode (bs : list Byte.byte) : string :=
  match bs with
  | [] => ""
  | [a] =>
      let n := Byte.to_N a in
      String (digit (n / 4)) (String (digit ((n mod 4) * 16)) "==")
  | [a; b] =>
      let n := (Byte.to_N a * 256 + Byte.to_N b)%N in
      String (digit (n / 1024))
        (String (digit ((n / 16) mod 64))
           (String (digit ((n mod 16) * 4)) "="))
  | a :: b :: c :: r =>
      let n := (Byte.to_N a * 65536 + Byte.to_N b * 256 + Byte.to_N c)%N in
      String (digit (n / 262144))
        (String (digit ((n / 4096) mod 64))
           (String (digit ((n / 64) mod 64))
              (String (digit (n mod 64)) (b64encode r))))
  end%N.

End Base64.

(** ** The document objects *)

(** *** Runs, fonts and paragraphs (python-docx and python-pptx) *)

(** A [Length] is an [int] subclass counting EMU, so a zero length is
    false; [pt] is its size in points. *)
Record Length := { emu : Z; pt : pyval }.

Definition length_truthy (l : option Length) : bool :=
  match l with
  | Some l => negb (emu l =? 0)%Z
  | None => false
  end.

Record ColorFormat := { rgb : attr pyval }.

Record Font := {
  font_name : attr pyval;
  font_size : option Length;
  font_bold : pyval;
  font_italic : pyval;
  font_underline : pyval;
  font_color : option ColorFormat;
  font_highlight_color : attr pyval }.

Record Run := {
  run_text : string;
  run_font : option Font;
  run_bold : pyval;
  run_italic : pyval;
  run_underline : pyval }.

(** A paragraph of a flow document; [para_style] holds [str(para.style)]. *)
Record Paragraph := {
  para_text : string;
  para_style : attr string;
  para_alignment : attr pyval;
  para_runs : attr (list Run) }.

(** A paragraph of a text frame on a slide. *)
Record TextParagraph := {
  tp_text : string;
  tp_alignment : pyval;
  tp_runs : list Run }.

Record TextFrame := { tf_paragraphs : list TextParagraph }.

(** A table: [table_style] is [str(table.style)] when the style is set,
    [table_rows] the text of [row.cells] for each of [table.rows]. *)
Record Table := {
  table_style : option string;
  table_rows : list (list string) }.

(** *** Shapes of a slide *)

Inductive MSO_SHAPE_TYPE :=
| AUTO_SHAPE | FREEFORM | GROUP | LINE | MEDIA | PICTURE | PLACEHOLDER
| TABLE | TEXT_BOX | CHART.

Inductive MSO_FILL :=
| FILL_BACKGROUND | FILL_GRADIENT | FILL_GROUP | FILL_PATTERNED
| FILL_PICTURE | FILL_SOLID | FILL_TEXTURED.

Definition is_PICTURE (t : MSO_SHAPE_TYPE) : bool :=
  match t with PICTURE => true | _ => false end.

Definition is_FILL_PICTURE (t : option MSO_FILL) : bool :=
  match t with Some FILL_PICTURE => true | _ => false end.

Record Image := {
  img_blob : list Byte.byte;
  img_ext : pyval;
  img_width : pyval;
  img_height : pyval }.

(** [fill.type] is read outside any [try]. *)
Record Fill := {
  fill_type : attr (option MSO_FILL);
  fill_picture : result Image }.

Record ImagePart := {
  ip_blob : list Byte.byte;
  ip_ext : attr pyval }.

Record Part := { related_parts : attr (gmap string ImagePart) }.

Record ClickAction := { hyperlink : attr pyval }.

(** A shape as the extractor sees it.  [shape_blips] is
    [shape.element.xpath(".//a:blip")] with the embed id of each hit;
    attribute reads made under a [try] are [result]s, and the three
    attributes the image flattener probes outside its [try] blocks are
    properties. *)
#[warnings="-register-all"]
Inductive Shape := mkShape {
  shape_id : attr pyval;
  shape_left : attr pyval;
  shape_top : attr pyval;
  shape_width : attr pyval;
  shape_height : attr pyval;
  shape_text_frame : attr (option TextFrame);
  shape_text : attr string;
  shape_click_action : result (attr (option ClickAction));
  shape_type : property MSO_SHAPE_TYPE;
  shape_fill : property Fill;
  shape_image : result Image;
  shape_shapes : property (list Shape);
  shape_blips : result (list (option string));
  shape_part : result Part;
  shape_has_table : result bool;
  shape_table : result Table }.

Record Rel := {
  rel_reltype : string;
  rel_rId : string;
  rel_target_part : result ImagePart }.

Record Slide := {
  slide_shapes : list Shape;
  slide_rels : list Rel }.

(** *** Pages of a PyMuPDF document *)

(** A span dictionary: [None] is a key that is not there. *)
Record Span := {
  span_text : option string;
  span_font : option string;
  span_size : option pyval;
  span_bbox : option (list pyval);
  span_flags : option pyval;
  span_origin : option pyval;
  span_color : option pyval;
  span_other : list (string * pyval) }.

Record Line := { line_spans : option (list Span) }.

Record Block := {
  block_type : option pyval;
  block_lines : option (list Line) }.

Record Link := {
  link_uri : option string;
  link_from : option (list pyval);
  link_kind : option pyval }.

(** One entry of [page.get_images(full=True)] with what
    [document.extract_image(xref)] returns for it. *)
Record PdfImageRef := {
  pi_xref : pyval;
  pi_image : option (list Byte.byte);
  pi_width : pyval;
  pi_height : pyval;
  pi_ext : pyval }.

Record MuPage := {
  page_number : nat;
  page_rotation : pyval;
  page_rect : list pyval;
  page_blocks : option (list Block);
  page_links : list Link;
  page_images : list PdfImageRef }.

(** A page of the alternate reader: [extract_text()] may be missing and
    may raise. *)
Record PlainPage := { pp_extract_text : attr (result string) }.

(** *** Inline and floating pictures of a flow document *)

Record InlineShape := {
  is_embed : result string;
  is_related_parts : gmap string (list Byte.byte);
  is_name : option string;
  is_width : pyval;
  is_height : pyval }.

Record Drawing := { dr_blips : list (option string) }.

(** *** The opened document

    Every capability marker the four operations probe is an [attr].
    [doc_getitem] is [document[i]]; [doc_drawings] is
    [document.element.xpath("//w:drawing")] behind [hasattr(document,
    "element")]. *)
Record Document := {
  doc_page_count : attr nat;
  doc_metadata : list (string * string);
  doc_getitem : list MuPage;
  doc_pages : attr (list PlainPage);
  doc_paragraphs : attr (list Paragraph);
  doc_inline_shapes : attr (list InlineShape);
  doc_drawings : attr (result (list Drawing));
  doc_related_parts : gmap string (list Byte.byte);
  doc_tables : attr (list Table);
  doc_slides : attr (list Slide) }.

(** *** The environment of a call

    [fitz] tells whether [import fitz] succeeds; [pdfplumber] is [None]
    when [import pdfplumber] fails and otherwise what
    [pdfplumber.open(filepath).pages] gives for the file of the call. *)
Record PlumberPage := {
  pl_text_layout : result (option string);
  pl_table : result (option (list (list (option string)))) }.

Record Env := {
  fitz : bool;
  pdfplumber : option (result (list PlumberPage)) }.

(** ** Output records *)

Record run_data := {
  rd_text : string;
  rd_font : pyval;
  rd_size : pyval;
  rd_bold : pyval;
  rd_italic : pyval;
  rd_underline : pyval;
  rd_color : pyval;
  rd_highlight : attr pyval }.

Record para_data := {
  pd_text : string;
  pd_style : option string;
  pd_alignment : pyval;
  pd_runs : list run_data }.

Record slide_para := {
  sp_text : string;
  sp_alignment : pyval;
  sp_runs : list run_data }.

(** [sd_paragraphs] and [sd_text] are keys that may be absent. *)
Record shape_data := {
  sd_shape_id : pyval;
  sd_left : pyval;
  sd_top : pyval;
  sd_width : pyval;
  sd_height : pyval;
  sd_paragraphs : attr (list slide_para);
  sd_text : attr string }.

Record span_meta := {
  sm_text : string;
  sm_font : string;
  sm_size : pyval;
  sm_bbox : list pyval;
  sm_flags : pyval;
  sm_origin : pyval;
  sm_color : pyval;
  sm_bold : bool;
  sm_italic : bool;
  sm_additional : list (string * pyval) }.

Inductive text_record :=
| DocumentMetadata (meta : list (string * string))
| PdfLine (page : nat) (rotation : pyval) (dimensions : list pyval)
          (line_text : string) (spans : list span_meta)
| PageText (page : nat) (text : string)
| ParaText (p : para_data)
| SlideText (slide : nat) (shapes : list shape_data).

Inductive link_record :=
| PdfLink (page : nat) (uri : string) (rect : list pyval) (kind : pyval)
| PageUrl (page : nat) (uri : string) (contents : string)
| ParaLink (text url : string)
| SlideLink (slide : nat) (text url : string).

Inductive image_record :=
| PdfImage (page : nat) (xref format width height : pyval) (blob : string)
| InlineImage (index : nat) (filename blob : string) (width height : pyval)
| FloatingImage (floating_index : nat) (rId blob : string)
| SlideImage (slide : nat) (image_id : pyval) (blob : string)
             (format width height : pyval)
| RelImage (slide : nat) (rId : string) (format : pyval) (blob : string).

Inductive table_record :=
| DocTable (table_index : nat) (style : string) (data : list (list string))
           (rows columns : nat)
| SlideTable (table_index : nat) (style : string) (slide : nat)
             (data : list (list string)) (rows columns : nat)
| PageTable (page : nat) (style : string)
            (data : list (list (option string))) (rows columns : nat)
| Warning (msg : string).

(** ** Style inference ([infer_font_style], lines 25-30) *)

Definition infer_font_style (font_name : string) : bool * bool :=
  if negb (PyStr.nonempty font_name) then (false, false)
  else (PyStr.contains "Bold" font_name,
        PyStr.contains "Italic" font_name
        || PyStr.contains "Oblique" font_name).

(** ** Text extraction ([DataExtractor.extract_text], lines 64-293) *)

Module Text.
Import PyStr.

Definition unsupported : exn :=
  ValueError "Unsupported file type for text extraction".

(** *** Page-stream, PyMuPDF (lines 74-134) *)

Definition span_record (span : Span) : span_meta :=
  let '(bold, italic) := infer_font_style (default "" (span_font span)) in
  {| sm_text := default "" (span_text span);
     sm_font := default "" (span_font span);
     sm_size := default (PyInt 0) (span_size span);
     sm_bbox := default [] (span_bbox span);
     sm_flags := default PyNone (span_flags span);
     sm_origin := default PyNone (span_origin span);
     sm_color := default PyNone (span_color span);
     sm_bold := bold;
     sm_italic := italic;
     sm_additional := span_other span |}.

Definition line_records (page : MuPage) (line : Line) : list text_record :=
  let spans := default [] (line_spans line) in
  let line_text :=
    join " " (map (fun span => strip (default "" (span_text span))) spans) in
  let line_text := strip (collapse_ws line_text) in
  if negb (nonempty line_text) then []
  else [PdfLine (page_number page + 1) (page_rotation page)
                (page_rect page) line_text (map span_record spans)].

Definition block_records (page : MuPage) (block : Block)
  : list text_record :=
  match block_type block with
  | Some (PyInt 0) | Some (PyBool false) =>
      flat_map (line_records page) (default [] (block_lines block))
  | _ => []
  end.

Definition page_records (page : MuPage) : list text_record :=
  flat_map (block_records page) (default [] (page_blocks page)).

(** [document[i]] *)
Definition getitem (document : Document) (i : nat) : result MuPage :=
  match nth_error (doc_getitem document) i with
  | Some page => Ok page
  | None => Raise (IndexError "page not in document")
  end.

Definition mupdf_text (document : Document) (page_count : nat)
  : result (list text_record) :=
  let! per_page :=
    mapM (fun i => let! page := getitem document i in Ok (page_records page))
         (seq 0 page_count) in
  Ok (DocumentMetadata (doc_metadata document) :: concat per_page).

(** *** Page-stream, alternate backend (lines 135-169) *)

(** The body of [with pdfplumber.open(filepath) as pdf]: the records
    appended before an exception, and whether one was raised. *)
Fixpoint plumber_text (i : nat) (pages : list PlumberPage)
  : list text_record * bool :=
  match pages with
  | [] => ([], false)
  | page :: rest =>
      match pl_text_layout page with
      | Raise _ => ([], true)
      | Ok text =>
          let text :=
            match text with
            | Some t => if nonempty t then strip (collapse_ws t) else ""
            | None => ""
            end in
          let '(recs, raised) := plumber_text (S i) rest in
          (PageText (i + 1) text :: recs, raised)
      end
  end.

(** One page through [extract_text()] and the reflow heuristic, with
    the error text in place of an exception. *)
Definition raw_page_text (page : PlainPage) : string :=
  match pp_extract_text page with
  | Missing => Reflow.merge_lines ""
  | Has (Ok raw_text) => Reflow.merge_lines raw_text
  | Has (Raise ex) => "Error extracting text: " +:+ exn_str ex
  end.

Definition raw_text_records (pages : list PlainPage) : list text_record :=
  map (fun '(n, page) => PageText n (raw_page_text page)) (enumerate1 pages).

Definition plain_text (env : Env) (pages : list PlainPage)
  : list text_record :=
  match pdfplumber env with
  | Some opened =>
      let '(recs, raised) :=
        match opened with
        | Ok pdf_pages => plumber_text 0 pdf_pages
        | Raise _ => ([], true)
        end in
      if raised then recs ++ raw_text_records pages else recs
  | None => raw_text_records pages
  end.

(** *** Flow document (lines 170-210) *)

Definition docx_run_data (run : Run) : run_data :=
  {| rd_text := run_text run;
     rd_font :=
       match run_font run with
       | Some font =>
           match font_name font with
           | Has name => name
           | Missing => PyStr "DefaultFont"
           end
       | None => PyStr "DefaultFont"
       end;
     rd_size :=
       match run_font run with
       | Some font =>
           match font_size font with
           | Some size =>
               if length_truthy (font_size font) then pt size else PyInt 11
           | None => PyInt 11
           end
       | None => PyInt 11
       end;
     rd_bold := if_not_none (run_bold run) (PyBool false);
     rd_italic := if_not_none (run_italic run) (PyBool false);
     rd_underline := if_not_none (run_underline run) (PyBool false);
     rd_color :=
       match run_font run with
       | Some font =>
           match font_color font with
           | Some color =>
               match rgb color with
               | Has c => c
               | Missing => PyStr "000000"
               end
           | None => PyStr "000000"
           end
       | None => PyStr "000000"
       end;
     rd_highlight :=
       Has match run_font run with
           | Some font => getattr (font_highlight_color font) PyNone
           | None => PyNone
           end |}.

Definition docx_para_data (para : Paragraph) : para_data :=
  {| pd_text := if nonempty (para_text para) then strip (para_text para)
                else "";
     pd_style := match para_style para with
                 | Has s => Some s
                 | Missing => None
                 end;
     pd_alignment := getattr (para_alignment para) PyNone;
     pd_runs := match para_runs para with
                | Has runs => map docx_run_data runs
                | Missing => []
                end |}.

Definition docx_text (paragraphs : list Paragraph) : list text_record :=
  map (fun para => ParaText (docx_para_data para)) paragraphs.

(** *** Slide deck (lines 211-291) *)

Definition pptx_run_data (run : Run) : result run_data :=
  let! font :=
    match run_font run with
    | Some font =>
        let! name := read "name" (font_name font) in
        Ok (if truthy name then name else PyStr "DefaultFont")
    | None => Ok (PyStr "DefaultFont")
    end in
  Ok {| rd_text := run_text run;
        rd_font := font;
        rd_size :=
          match run_font run with
          | Some font =>
              match font_size font with
              | Some size =>
                  if length_truthy (font_size font) then pt size
                  else PyNone
              | None => PyNone
              end
          | None => PyNone
          end;
        rd_bold :=
          match run_font run with
          | Some font => if_not_none (font_bold font) (PyBool false)
          | None => PyBool false
          end;
        rd_italic :=
          match run_font run with
          | Some font => if_not_none (font_italic font) (PyBool false)
          | None => PyBool false
          end;
        rd_underline :=
          match run_font run with
          | Some font => if_not_none (font_underline font) (PyBool false)
          | None => PyBool false
          end;
        rd_color :=
          match run_font run with
          | Some font =>
              match font_color font with
              | Some color => getattr (rgb color) PyNone
              | None => PyNone
              end
          | None => PyNone
          end;
        rd_highlight := Missing |}.

(** One paragraph of a text frame: its runs are read first, then it is
    kept when its trimmed text is not empty. *)
Definition pptx_para (para : TextParagraph) : result (list slide_para) :=
  let! runs := mapM pptx_run_data (tp_runs para) in
  let para_text := strip (tp_text para) in
  Ok (if nonempty para_text
      then [{| sp_text := para_text;
               sp_alignment := tp_alignment para;
               sp_runs := runs |}]
      else []).

(** The [unique_paras] loop, [seen] being [seen_texts]. *)
Fixpoint unique_paras (seen : gset string) (paragraphs : list slide_para)
  : list slide_para :=
  match paragraphs with
  | [] => []
  | para :: rest =>
      if decide (sp_text para ∈ seen) then unique_paras seen rest
      else para :: unique_paras ({[sp_text para]} ∪ seen) rest
  end.

Definition pptx_shape_data (shape : Shape) : result shape_data :=
  let base paragraphs text :=
    {| sd_shape_id := getattr (shape_id shape) PyNone;
       sd_left := getattr (shape_left shape) PyNone;
       sd_top := getattr (shape_top shape) PyNone;
       sd_width := getattr (shape_width shape) PyNone;
       sd_height := getattr (shape_height shape) PyNone;
       sd_paragraphs := paragraphs;
       sd_text := text |} in
  match shape_text_frame shape with
  | Has (Some text_frame) =>
      let! paragraphs := mapM pptx_para (tf_paragraphs text_frame) in
      let unique := unique_paras ∅ (concat paragraphs) in
      Ok (base (Has unique) (Has (strip (join " " (map sp_text unique)))))
  | _ =>
      match shape_text shape with
      | Has text =>
          Ok (if nonempty text then base Missing (Has (strip text))
              else base Missing Missing)
      | Missing => Ok (base Missing Missing)
      end
  end.

(** [if "text" in shape_data and shape_data["text"]] *)
Definition has_text (sd : shape_data) : bool :=
  match sd_text sd with
  | Has text => nonempty text
  | Missing => false
  end.

Definition pptx_slide (i : nat) (slide : Slide)
  : result (list text_record) :=
  let! shapes := mapM pptx_shape_data (slide_shapes slide) in
  let slide_items := List.filter has_text shapes in
  Ok (match slide_items with
      | [] => []
      | _ => [SlideText i slide_items]
      end).

Definition pptx_text (slides : list Slide) : result (list text_record) :=
  let! per_slide :=
    mapM (fun '(i, slide) => pptx_slide i slide) (enumerate1 slides) in
  Ok (concat per_slide).

(** *** Variant dispatch *)

Definition extract_text (env : Env) (document : Document)
  : result (list text_record) :=
  let is_mupdf := fitz env && hasattr (doc_page_count document) in
  if is_mupdf then
    let! page_count := read "page_count" (doc_page_count document) in
    mupdf_text document page_count
  else
    match doc_pages document with
    | Has pages => Ok (plain_text env pages)
    | Missing =>
        match doc_paragraphs document with
        | Has paragraphs => Ok (docx_text paragraphs)
        | Missing =>
            match doc_slides document with
            | Has slides => pptx_text slides
            | Missing => Raise unsupported
            end
        end
    end.

End Text.

(** ** Link extraction ([DataExtractor.extract_links], lines 295-380) *)

Module Links.
Import PyStr.

Definition unsupported : exn :=
  ValueError "Unsupported file type for link extraction".

(** *** Page-stream, PyMuPDF (lines 304-323) *)

(** The body of [for link in link_list] on (seen_pdf_links, links). *)
Definition link_step (i : nat)
    (st : gset (nat * string) * list link_record) (link : Link)
  : gset (nat * string) * list link_record :=
  let '(seen, links) := st in
  let uri := default "" (link_uri link) in
  if nonempty uri then
    if decide ((i, uri) ∈ seen) then st
    else ({[(i, uri)]} ∪ seen,
          links ++ [PdfLink (i + 1) uri (default [] (link_from link))
                            (default (PyStr "") (link_kind link))])
  else st.

Fixpoint mupdf_pages (document : Document) (indices : list nat)
    (st : gset (nat * string) * list link_record)
  : result (gset (nat * string) * list link_record) :=
  match indices with
  | [] => Ok st
  | i :: rest =>
      let! page := Text.getitem document i in
      mupdf_pages document rest (fold_left (link_step i) (page_links page) st)
  end.

Definition mupdf_links (document : Document) (page_count : nat)
  : result (list link_record) :=
  let! st := mupdf_pages document (seq 0 page_count) (∅, []) in
  Ok (snd st).

(** *** Page-stream, alternate backend (lines 324-352) *)

(** The longest prefix without whitespace, and what follows it. *)
Fixpoint span_nonspace (s : string) : string * string :=
  match s with
  | EmptyString => ("", "")
  | String c r =>
      if isspace c then ("", s)
      else let '(m, rest) := span_nonspace r in (String c m, rest)
  end.

Fixpoint strip_prefix (p s : string) : option string :=
  match p, s with
  | EmptyString, _ => Some s
  | String a p', String b s' =>
      if Ascii.eqb a b then strip_prefix p' s' else None
  | String _ _, EmptyString => None
  end.

(** The pattern matched at the start of [s]: a scheme, then at least
    one character that is not whitespace, as many as there are. *)
Definition url_here (s : string) : option string :=
  let after scheme :=
    match strip_prefix scheme s with
    | Some r =>
        let m := fst (span_nonspace r) in
        if nonempty m then Some (scheme +:+ m) else None
    | None => None
    end in
  match after "https://" with
  | Some url => Some url
  | None => after "http://"
  end.

(** Matches from left to right without overlap: after a match the scan
    resumes behind it ([skip] characters further). *)
Fixpoint findall_from (skip : nat) (s : string) : list string :=
  match s with
  | EmptyString => []
  | String _ r =>
      match skip with
      | S k => findall_from k r
      | O =>
          match url_here s with
          | Some url => url :: findall_from (String.length url - 1) r
          | None => findall_from 0 r
          end
      end
  end.

(** [re.findall] of the URL pattern. *)
Definition findall_urls (text : string) : list string :=
  findall_from 0 text.

Definition url_records (page : nat) (text : string) : list link_record :=
  map (fun url => PageUrl page url "") (findall_urls text).

(** The body of [with pdfplumber.open(filepath) as pdf] up to the first
    exception, which ends it silently. *)
Fixpoint plumber_links (i : nat) (pages : list PlumberPage)
  : list link_record :=
  match pages with
  | [] => []
  | page :: rest =>
      match pl_text_layout page with
      | Raise _ => []
      | Ok text =>
          url_records (i + 1) (default "" text) ++ plumber_links (S i) rest
      end
  end.

Definition raw_page_links (i : nat) (page : PlainPage) : list link_record :=
  match pp_extract_text page with
  | Missing => url_records i (Reflow.merge_lines "")
  | Has (Ok raw_text) => url_records i (Reflow.merge_lines raw_text)
  | Has (Raise _) => []
  end.

Definition plain_links (env : Env) (pages : list PlainPage)
  : list link_record :=
  match pdfplumber env with
  | Some (Ok pdf_pages) => plumber_links 0 pdf_pages
  | Some (Raise _) => []
  | None => flat_map (fun '(i, page) => raw_page_links i page)
                     (enumerate1 pages)
  end.

(** *** Flow document (lines 353-356) *)

Definition docx_links (paragraphs : list Paragraph) : list link_record :=
  flat_map (fun para =>
              if contains "http" (para_text para)
              then [ParaLink (strip (para_text para))
                             (strip (para_text para))]
              else [])
           paragraphs.

(** *** Slide deck (lines 357-377) *)

(** The hyperlink of a shape and its text, when the shape has a click
    action with a hyperlink; an exception skips the shape. *)
Definition shape_link (shape : Shape) : option (string * string) :=
  match shape_click_action shape with
  | Ok (Has (Some click_action)) =>
      let hyperlink := getattr (hyperlink click_action) PyNone in
      if truthy hyperlink then
        let url := strip (py_str hyperlink) in
        let text :=
          match shape_text shape with
          | Has t => if nonempty t then strip t else ""
          | Missing => ""
          end in
        Some (url, text)
      else None
  | _ => None
  end.

(** The body of [for shape in slide.shapes] on (seen_links, links). *)
Definition shape_step (i : nat)
    (st : gset (string * string) * list link_record) (shape : Shape)
  : gset (string * string) * list link_record :=
  let '(seen, links) := st in
  match shape_link shape with
  | Some (url, text) =>
      if nonempty url && negb (bool_decide ((url, text) ∈ seen))
      then ({[(url, text)]} ∪ seen, links ++ [SlideLink i text url])
      else st
  | None => st
  end.

Definition slide_step
    (st : gset (string * string) * list link_record) (s : nat * Slide)
  : gset (string * string) * list link_record :=
  fold_left (shape_step (fst s)) (slide_shapes (snd s)) st.

Definition pptx_links (slides : list Slide) : list link_record :=
  snd (fold_left slide_step (enumerate1 slides) (∅, [])).

(** *** Variant dispatch *)

Definition extract_links (env : Env) (document : Document)
  : result (list link_record) :=
  let is_mupdf := fitz env && hasattr (doc_page_count document) in
  if is_mupdf then
    let! page_count := read "page_count" (doc_page_count document) in
    mupdf_links document page_count
  else
    match doc_pages document with
    | Has pages => Ok (plain_links env pages)
    | Missing =>
        match doc_paragraphs document with
        | Has paragraphs => Ok (docx_links paragraphs)
        | Missing =>
            match doc_slides document with
            | Has slides => Ok (pptx_links slides)
            | Missing => Raise unsupported
            end
        end
    end.

End Links.

(** ** Image extraction (lines 33-57 and 382-545) *)

Module Images.
Import PyStr Base64.

Definition unsupported : exn :=
  ValueError "Unsupported file type for image extraction".

(** *** Slide deck: relationship scan ([extract_images_from_rels]) *)

Definition rel_images (idx : nat) (rel : Rel) : list image_record :=
  if contains "image" (rel_reltype rel) then
    try_pass
      (let! image_part := rel_target_part rel in
       Ok [RelImage idx (rel_rId rel)
                    (getattr (ip_ext image_part) (PyStr "unknown"))
                    (b64encode (ip_blob image_part))])
  else [].

Definition extract_images_from_rels (slides : list Slide)
  : list image_record :=
  flat_map (fun '(idx, slide) => flat_map (rel_images idx) (slide_rels slide))
           (enumerate1 slides).

(** *** Slide deck: shape-tree flattener
    ([_extract_ppt_images_from_shape], lines 382-446) *)

(** The record both picture branches append. *)
Definition picture_record (shape : Shape) (slide_index : nat)
    (image : result Image) : list image_record :=
  try_pass
    (let! image := image in
     let! image_id := read "shape_id" (shape_id shape) in
     Ok [SlideImage slide_index image_id (b64encode (img_blob image))
                    (img_ext image) (img_width image) (img_height image)]).

(** The first [if ... elif ...]: the shape is a picture, or else its
    fill is one.  Both tests stand outside the [try] blocks. *)
(** [hasattr(shape, "shape_type") and shape.shape_type == PICTURE] *)
Definition is_picture (shape : Shape) : result bool :=
  let! shape_type := probe (shape_type shape) in
  Ok (match shape_type with
      | Has t => is_PICTURE t
      | Missing => false
      end).

(** [hasattr(shape, "fill") and shape.fill.type == MSO_FILL.PICTURE],
    with the fill when the test holds. *)
Definition picture_fill (shape : Shape) : result (option Fill) :=
  let! fill := probe (shape_fill shape) in
  match fill with
  | Has fill =>
      let! type := read "type" (fill_type fill) in
      Ok (if is_FILL_PICTURE type then Some fill else None)
  | Missing => Ok None
  end.

Definition picture_images (shape : Shape) (slide_index : nat)
  : result (list image_record) :=
  let! picture := is_picture shape in
  if picture
  then Ok (picture_record shape slide_index (shape_image shape))
  else
    let! fill := picture_fill shape in
    Ok (match fill with
        | Some fill => picture_record shape slide_index (fill_picture fill)
        | None => []
        end).

(** The [else] of [if hasattr(shape, "shapes")]: the first blip of the
    markup, resolved through the related parts. *)
Definition blip_images (shape : Shape) (slide_index : nat)
  : list image_record :=
  try_pass
    (let! blips := shape_blips shape in
     match blips with
     | [] => Ok []
     | blip :: _ =>
         match blip with
         | Some rId =>
             if nonempty rId then
               let! part := shape_part shape in
               match related_parts part with
               | Has parts =>
                   match parts !! rId with
                   | Some image_part =>
                       Ok [SlideImage slide_index
                             (getattr (shape_id shape) PyNone)
                             (b64encode (ip_blob image_part))
                             (getattr (ip_ext image_part) (PyStr "unknown"))
                             PyNone PyNone]
                   | None => Ok []
                   end
               | Missing => Ok []
               end
             else Ok []
         | None => Ok []
         end
     end).

(** [hasattr(shape, "shapes")] stands outside the [try] blocks too, and
    an exception of a child leaves the loop over the children. *)
Fixpoint extract_ppt_images_from_shape (shape : Shape) (slide_index : nat)
  : result (list image_record) :=
  let! images := picture_images shape slide_index in
  match shape_shapes shape with
  | Gets (Has shapes) =>
      let! extracted :=
        mapM (fun subshape =>
                extract_ppt_images_from_shape subshape slide_index)
             shapes in
      Ok (images ++ concat extracted)
  | Gets Missing => Ok (images ++ blip_images shape slide_index)
  | Fails msg => Raise (OtherError msg)
  end.

(** The slide-deck branch of [extract_images] (lines 533-544). *)
Definition pptx_images (slides : list Slide) : result (list image_record) :=
  let! per_slide :=
    mapM (fun '(i, slide) =>
            let! per_shape :=
              mapM (fun shape => extract_ppt_images_from_shape shape i)
                   (slide_shapes slide) in
            Ok (concat per_shape))
         (enumerate1 slides) in
  Ok (match concat per_slide with
      | [] => extract_images_from_rels slides
      | images => images
      end).

(** *** Page-stream, PyMuPDF (lines 457-482) *)

Definition pdf_image (i : nat) (img : PdfImageRef) : image_record :=
  let encoded_blob :=
    match pi_image img with
    | Some image_bytes => b64encode image_bytes
    | None => ""
    end in
  PdfImage (i + 1) (pi_xref img) (pi_ext img) (pi_width img)
           (pi_height img) encoded_blob.

Definition mupdf_images (document : Document) (page_count : nat)
  : result (list image_record) :=
  let! per_page :=
    mapM (fun i =>
            let! page := Text.getitem document i in
            Ok (map (pdf_image i) (page_images page)))
         (seq 0 page_count) in
  Ok (concat per_page).

(** *** Page-stream, alternate backend (lines 483-493): the file is
    opened and nothing is read from it. *)
Definition plain_images (env : Env) (pages : list PlainPage)
  : list image_record := [].

(** *** Flow document (lines 494-532) *)

Definition inline_image (i : nat) (shape : InlineShape)
  : list image_record :=
  try_pass
    (let! embed := is_embed shape in
     match is_related_parts shape !! embed with
     | Some image_blob =>
         Ok [InlineImage i (default ("Image" +:+ of_nat i) (is_name shape))
                         (b64encode image_blob)
                         (is_width shape) (is_height shape)]
     | None => Raise (OtherError "KeyError")
     end).

Definition floating_image (document : Document) (i : nat)
    (drawing : Drawing) : list image_record :=
  try_pass
    (match dr_blips drawing with
     | [] => Raise (IndexError "list index out of range")
     | blip :: _ =>
         match blip with
         | Some rId =>
             match doc_related_parts document !! rId with
             | Some image_blob =>
                 Ok [FloatingImage i rId (b64encode image_blob)]
             | None => Raise (OtherError "KeyError")
             end
         | None => Raise (OtherError "KeyError")
         end
     end).

Definition docx_images (document : Document)
    (inline_shapes : list InlineShape) : list image_record :=
  flat_map (fun '(i, shape) => inline_image i shape)
           (enumerate1 inline_shapes)
  ++ match doc_drawings document with
     | Has drawings =>
         try_pass
           (let! drawings := drawings in
            Ok (flat_map (fun '(i, drawing) =>
                            floating_image document i drawing)
                         (enumerate1 drawings)))
     | Missing => []
     end.

(** *** Variant dispatch *)

Definition extract_images (env : Env) (document : Document)
  : result (list image_record) :=
  let is_mupdf := fitz env && hasattr (doc_page_count document) in
  if is_mupdf then
    let! page_count := read "page_count" (doc_page_count document) in
    mupdf_images document page_count
  else
    match doc_pages document with
    | Has pages => Ok (plain_images env pages)
    | Missing =>
        match doc_inline_shapes document with
        | Has inline_shapes => Ok (docx_images document inline_shapes)
        | Missing =>
            match doc_slides document with
            | Has slides => pptx_images slides
            | Missing => Raise unsupported
            end
        end
    end.

End Images.

(** ** Table extraction ([DataExtractor.extract_tables], lines 547-637) *)

Module Tables.
Import PyStr.

Definition unsupported : exn :=
  ValueError "Unsupported file type for table extraction".

(** [len(table_data[0]) if table_data and table_data[0] else 0] *)
Definition columns {A} (table_data : list (list A)) : nat :=
  match table_data with
  | [] => 0
  | first :: _ =>
      match first with
      | [] => 0
      | _ => List.length first
      end
  end.

(** [[cell.text.strip() for cell in row.cells]] for each row *)
Definition grid (table : Table) : list (list string) :=
  map (fun row => map strip row) (table_rows table).

(** *** Flow document (lines 550-567) *)

Definition docx_table (i : nat) (table : Table) : table_record :=
  let table_style := default "DefaultTableStyle" (table_style table) in
  let table_data := grid table in
  DocTable i table_style table_data (List.length table_data)
           (columns table_data).

Definition docx_tables (tables : list Table) : list table_record :=
  map (fun '(i, table) => docx_table i table) (enumerate1 tables).

(** *** Slide deck (lines 568-596) *)

(** The table of a shape, when [has_table] is true and neither it nor
    [table] raises. *)
Definition shape_grid (shape : Shape) : option (list (list string)) :=
  match shape_has_table shape with
  | Ok true =>
      match shape_table shape with
      | Ok table => Some (grid table)
      | Raise _ => None
      end
  | _ => None
  end.

(** The body of [for shape in slide.shapes] on (table_counter, tables). *)
Definition shape_step (i : nat) (st : nat * list table_record)
    (shape : Shape) : nat * list table_record :=
  let '(table_counter, tables) := st in
  match shape_grid shape with
  | Some table_data =>
      match table_data with
      | [] => st
      | _ =>
          (table_counter + 1,
           tables ++ [SlideTable table_counter "DefaultPPTTable" i
                                 table_data (List.length table_data)
                                 (columns table_data)])
      end
  | None => st
  end.

Definition slide_step (st : nat * list table_record) (s : nat * Slide)
  : nat * list table_record :=
  fold_left (shape_step (fst s)) (slide_shapes (snd s)) st.

Definition pptx_tables (slides : list Slide) : list table_record :=
  snd (fold_left slide_step (enumerate1 slides) (1, [])).

(** *** Page-stream (lines 597-634) *)

(** The loop over [pdf.pages]: the tables appended before an
    exception, and the exception if one was raised. *)
Fixpoint plumber_tables (i : nat) (pages : list PlumberPage)
  : list table_record * option exn :=
  match pages with
  | [] => ([], None)
  | page :: rest =>
      match pl_table page with
      | Raise e => ([], Some e)
      | Ok table_data =>
          let here :=
            match table_data with
            | Some (r :: rs) =>
                let table_data := r :: rs in
                [PageTable (i + 1) "N/A" table_data
                           (List.length table_data) (columns table_data)]
            | _ => []
            end in
          let '(recs, raised) := plumber_tables (S i) rest in
          (here ++ recs, raised)
      end
  end.

Definition error_warning (e : exn) : table_record :=
  Warning ("Error extracting tables with pdfplumber: " +:+ exn_str e).

Definition pdf_tables (env : Env) : list table_record :=
  match pdfplumber env with
  | Some (Ok pdf_pages) =>
      match plumber_tables 0 pdf_pages with
      | (recs, Some e) => recs ++ [error_warning e]
      | ([], None) => [Warning "No tables found with pdfplumber."]
      | (recs, None) => recs
      end
  | Some (Raise e) => [error_warning e]
  | None =>
      [Warning ("pdfplumber not installed. "
                +:+ "Install pdfplumber for PDF table extraction.")]
  end.

(** *** Variant dispatch *)

Definition extract_tables (env : Env) (document : Document)
  : result (list table_record) :=
  match doc_tables document with
  | Has tables => Ok (docx_tables tables)
  | Missing =>
      match doc_slides document with
      | Has slides => Ok (pptx_tables slides)
      | Missing =>
          if hasattr (doc_page_count document) then Ok (pdf_tables env)
          else Raise unsupported
      end
  end.

End Tables.

(** ** The variant dispatcher as the specification words it

    "testing, in a fixed priority order, for capability markers
    characteristic of each variant ...  The first match wins". *)

Inductive variant :=
| PageStream
| AlternatePageStream
| FlowDocument
| SlideDeck.

(** The first variant of a priority list whose marker is there. *)
Fixpoint first_match (order : list (variant * bool)) : option variant :=
  match order with
  | [] => None
  | (v, marker) :: rest => if marker then Some v else first_match rest
  end.

(** "page-count-like property, then page-collection property, then
    paragraph-collection property, then slide-collection property" *)
Definition spec_order (document : Document) : list (variant * bool) :=
  [ (PageStream, hasattr (doc_page_count document));
    (AlternatePageStream, hasattr (doc_pages document));
    (FlowDocument, hasattr (doc_paragraphs document));
    (SlideDeck, hasattr (doc_slides document)) ].

(** The strategy of each operation for a variant, [None] being the
    "unsupported type" error. *)
Module Strategy.

Definition text (env : Env) (document : Document) (v : option variant)
  : result (list text_record) :=
  match v with
  | Some PageStream =>
      let! page_count := read "page_count" (doc_page_count document) in
      Text.mupdf_text document page_count
  | Some AlternatePageStream =>
      let! pages := read "pages" (doc_pages document) in
      Ok (Text.plain_text env pages)
  | Some FlowDocument =>
      let! paragraphs := read "paragraphs" (doc_paragraphs document) in
      Ok (Text.docx_text paragraphs)
  | Some SlideDeck =>
      let! slides := read "slides" (doc_slides document) in
      Text.pptx_text slides
  | None => Raise Text.unsupported
  end.

Definition links (env : Env) (document : Document) (v : option variant)
  : result (list link_record) :=
  match v with
  | Some PageStream =>
      let! page_count := read "page_count" (doc_page_count document) in
      Links.mupdf_links document page_count
  | Some AlternatePageStream =>
      let! pages := read "pages" (doc_pages document) in
      Ok (Links.plain_links env pages)
  | Some FlowDocument =>
      let! paragraphs := read "paragraphs" (doc_paragraphs document) in
      Ok (Links.docx_links paragraphs)
  | Some SlideDeck =>
      let! slides := read "slides" (doc_slides document) in
      Ok (Links.pptx_links slides)
  | None => Raise Links.unsupported
  end.

Definition images (env : Env) (document : Document) (v : option variant)
  : result (list image_record) :=
  match v with
  | Some PageStream =>
      let! page_count := read "page_count" (doc_page_count document) in
      Images.mupdf_images document page_count
  | Some AlternatePageStream =>
      let! pages := read "pages" (doc_pages document) in
      Ok (Images.plain_images env pages)
  | Some FlowDocument =>
      let! inline_shapes :=
        read "inline_shapes" (doc_inline_shapes document) in
      Ok (Images.docx_images document inline_shapes)
  | Some SlideDeck =>
      let! slides := read "slides" (doc_slides document) in
      Images.pptx_images slides
  | None => Raise Images.unsupported
  end.

Definition tables (env : Env) (document : Document) (v : option variant)
  : result (list table_record) :=
  match v with
  | Some PageStream =>
      let! _ := read "page_count" (doc_page_count document) in
      Ok (Tables.pdf_tables env)
  | Some AlternatePageStream =>
      Raise Tables.unsupported
  | Some FlowDocument =>
      let! tables := read "tables" (doc_tables document) in
      Ok (Tables.docx_tables tables)
  | Some SlideDeck =>
      let! slides := read "slides" (doc_slides document) in
      Ok (Tables.pptx_tables slides)
  | None => Raise Tables.unsupported
  end.

End Strategy.

(** The priority orders the four operations follow. *)
Definition text_order (env : Env) (document : Document)
  : list (variant * bool) :=
  [ (PageStream, fitz env && hasattr (doc_page_count document));
    (AlternatePageStream, hasattr (doc_pages document));
    (FlowDocument, hasattr (doc_paragraphs document));
    (SlideDeck, hasattr (doc_slides document)) ].

Definition images_order (env : Env) (document : Document)
  : list (variant * bool) :=
  [ (PageStream, fitz env && hasattr (doc_page_count document));
    (AlternatePageStream, hasattr (doc_pages document));
    (FlowDocument, hasattr (doc_inline_shapes document));
    (SlideDeck, hasattr (doc_slides document)) ].

Definition tables_order (document : Document) : list (variant * bool) :=
  [ (FlowDocument, hasattr (doc_tables document));
    (SlideDeck, hasattr (doc_slides document));
    (PageStream, hasattr (doc_page_count document)) ].

(** "Matches none of the variant capability markers": none of the
    four markers of the dispatcher contract. *)
Definition no_capability_marker (document : Document) : Prop :=
  doc_page_count document = Missing
  /\ doc_pages document = Missing
  /\ doc_paragraphs document = Missing
  /\ doc_slides document = Missing.

(** "Each of the four extraction operations raises an explicit
    unsupported type error". *)
Definition all_unsupported (env : Env) (document : Document) : Prop :=
  Text.extract_text env document = Raise Text.unsupported
  /\ Links.extract_links env document = Raise Links.unsupported
  /\ Images.extract_images env document = Raise Images.unsupported
  /\ Tables.extract_tables env document = Raise Tables.unsupported.

(** The dispatcher contract read for all four operations at once: each
    follows [spec_order]. *)
Definition same_order_dispatch (env : Env) (document : Document) : Prop :=
  let v := first_match (spec_order document) in
  Text.extract_text env document = Strategy.text env document v
  /\ Links.extract_links env document = Strategy.links env document v
  /\ Images.extract_images env document = Strategy.images env document v
  /\ Tables.extract_tables env document = Strategy.tables env document v.

(** ** Table records as the specification words them *)

(** "the width of the first row, or 0 if the grid is empty" *)
Definition first_row_width {A} (data : list (list A)) : nat :=
  match data with
  | [] => 0
  | first :: _ => List.length first
  end.

Definition table_counts (r : table_record) : Prop :=
  match r with
  | DocTable _ _ data rows columns
  | SlideTable _ _ _ data rows columns =>
      rows = List.length data /\ columns = first_row_width data
  | PageTable _ _ data rows columns =>
      rows = List.length data /\ columns = first_row_width data
  | Warning _ => True
  end.

(** The grid of a record is the grid of a table of the document: cell by
    cell the trimmed text in the two container formats, and the grid of
    the backend itself for a page. *)
Definition table_source (env : Env) (document : Document)
    (r : table_record) : Prop :=
  match r with
  | DocTable _ _ data _ _ =>
      exists tables table,
        doc_tables document = Has tables /\ table ∈ tables
        /\ data = map (map PyStr.strip) (table_rows table)
  | SlideTable _ _ _ data _ _ =>
      exists slides slide shape table,
        doc_slides document = Has slides /\ slide ∈ slides
        /\ shape ∈ slide_shapes slide /\ shape_table shape = Ok table
        /\ data = map (map PyStr.strip) (table_rows table)
  | PageTable _ _ data _ _ =>
      exists pages page,
        pdfplumber env = Some (Ok pages) /\ page ∈ pages
        /\ pl_table page = Ok (Some data)
  | Warning _ => True
  end.

(** What holds of a table record: its counts and its source. *)
Definition table_record_ok (env : Env) (document : Document)
    (r : table_record) : Prop :=
  table_counts r /\ table_source env document r.

(** ** The shape-tree flattener as the specification words it

    "If the shape is a group, recurse into each child and concatenate
    results; in this case the picture checks and the raw-markup fallback
    are both skipped.  If the shape is itself a picture, or its fill is a
    picture, produce a record.  Otherwise scan the underlying markup." *)
Fixpoint flatten_spec (shape : Shape) (slide_index : nat)
  : result (list image_record) :=
  match shape_shapes shape with
  | Gets (Has shapes) =>
      let! extracted :=
        mapM (fun subshape => flatten_spec subshape slide_index) shapes in
      Ok (concat extracted)
  | Gets Missing =>
      let! picture := Images.is_picture shape in
      let! fill := Images.picture_fill shape in
      if picture || bool_decide (is_Some fill)
      then Images.picture_images shape slide_index
      else Ok (Images.blip_images shape slide_index)
  | Fails msg => Raise (OtherError msg)
  end.

(** A record of the raw-markup fallback: no width and no height. *)
Definition without_size (slide_index : nat) (r : image_record) : Prop :=
  exists image_id blob format,
    r = SlideImage slide_index image_id blob format PyNone PyNone.

(** A record of the given slide. *)
Definition on_slide (slide_index : nat) (r : image_record) : Prop :=
  exists image_id blob format width height,
    r = SlideImage slide_index image_id blob format width height.

(** The image the picture checks take: that of the shape when its type
    is PICTURE, or else that of its fill when the fill is a picture. *)
Definition picture_source (shape : Shape) : option (result Image) :=
  match shape_type shape with
  | Gets (Has PICTURE) => Some (shape_image shape)
  | _ =>
      match shape_fill shape with
      | Gets (Has fill) =>
          if is_FILL_PICTURE (getattr (fill_type fill) None)
          then Some (fill_picture fill) else None
      | _ => None
      end
  end.

(** The record of the picture checks: one record when the image and the
    shape id can be read. *)
Definition picture_part (shape : Shape) (slide_index : nat)
  : list image_record :=
  match picture_source shape, shape_id shape with
  | Some (Ok image), Has image_id =>
      [SlideImage slide_index image_id (Base64.b64encode (img_blob image))
                  (img_ext image) (img_width image) (img_height image)]
  | _, _ => []
  end.

(** "Scan the shape's underlying markup for an embedded-image
    reference, resolve it through the shape's part relationship table":
    the part the first blip of the markup embeds. *)
Definition markup_image (shape : Shape) : option ImagePart :=
  match shape_blips shape, shape_part shape with
  | Ok (Some rId :: _), Ok part =>
      if PyStr.nonempty rId
      then match related_parts part with
           | Has parts => parts !! rId
           | Missing => None
           end
      else None
  | _, _ => None
  end.

(** The record of the raw-markup fallback: "slide index, shape id (if
    available), encoded payload, and format (or unknown); width/height
    are null". *)
Definition fallback_part (shape : Shape) (slide_index : nat)
  : list image_record :=
  match markup_image shape with
  | Some image_part =>
      [SlideImage slide_index (getattr (shape_id shape) PyNone)
                  (Base64.b64encode (ip_blob image_part))
                  (getattr (ip_ext image_part) (PyStr "unknown"))
                  PyNone PyNone]
  | None => []
  end.

(** The reads of one shape that stand outside the [try] blocks go
    through: the type, the fill and its type unless the shape is a
    picture, and the child collection. *)
Definition picture_reads_succeed (shape : Shape) : bool :=
  match shape_type shape with
  | Fails _ => false
  | Gets (Has PICTURE) => true
  | Gets _ =>
      match shape_fill shape with
      | Fails _ => false
      | Gets (Has fill) => hasattr (fill_type fill)
      | Gets Missing => true
      end
  end.

Definition own_reads_succeed (shape : Shape) : bool :=
  picture_reads_succeed shape
  && match shape_shapes shape with
     | Fails _ => false
     | Gets _ => true
     end.

(** The same for every shape of the tree. *)
Fixpoint readable (shape : Shape) : bool :=
  own_reads_succeed shape
  && match shape_shapes shape with
     | Gets (Has shapes) => forallb readable shapes
     | _ => true
     end.

(** An exception that escapes the flattener: never a [ValueError]. *)
Definition escaped (e : exn) : Prop :=
  exists msg, e = OtherError msg \/ e = AttributeError msg.

(** ** Slide text records as the specification words them *)

(** The trimmed text of a paragraph of a text frame. *)
Definition trimmed_text (para : TextParagraph) : string :=
  PyStr.strip (tp_text para).

(** "Suppresses duplicate paragraph text within one shape": the
    paragraphs whose trimmed text is not empty and is the text of no
    earlier paragraph, [seen] being the texts met before. *)
Fixpoint first_occurrences (seen : list string)
    (paragraphs : list TextParagraph) : list TextParagraph :=
  match paragraphs with
  | [] => []
  | para :: rest =>
      if PyStr.nonempty (trimmed_text para)
         && negb (bool_decide (trimmed_text para ∈ seen))
      then para :: first_occurrences (trimmed_text para :: seen) rest
      else first_occurrences seen rest
  end.

(** The record of a paragraph: its trimmed text, its alignment and the
    records of its own runs, in order. *)
Definition paragraph_record (para : TextParagraph) (p : slide_para) : Prop :=
  sp_text p = trimmed_text para
  /\ sp_alignment p = tp_alignment para
  /\ Forall2 (fun run rd => Text.pptx_run_data run = Ok rd)
             (tp_runs para) (sp_runs p)
  /\ map rd_text (sp_runs p) = map run_text (tp_runs para).

(** The text a shape resolves to: "the de-duplicated paragraph texts
    joined by single spaces" when the shape has a text container, and
    otherwise its own text, trimmed. *)
Definition resolved_text (shape : Shape) : string :=
  match shape_text_frame shape with
  | Has (Some text_frame) =>
      PyStr.join " " (map trimmed_text
                          (first_occurrences [] (tf_paragraphs text_frame)))
  | _ =>
      match shape_text shape with
      | Has text => PyStr.strip text
      | Missing => ""
      end
  end.

(** "Shapes that resolve to no non-empty text are dropped." *)
Definition survives (shape : Shape) : bool :=
  PyStr.nonempty (resolved_text shape).

(** "Slides that end up with no surviving shapes are omitted." *)
Definition has_survivor (p : nat * Slide) : bool :=
  existsb survives (slide_shapes (snd p)).

(** The record of a surviving shape: its geometry, the text it resolves
    to and, for a text container, one paragraph record for each first
    occurrence, in order. *)
Definition shape_record (shape : Shape) (sd : shape_data) : Prop :=
  sd_shape_id sd = getattr (shape_id shape) PyNone
  /\ sd_left sd = getattr (shape_left shape) PyNone
  /\ sd_top sd = getattr (shape_top shape) PyNone
  /\ sd_width sd = getattr (shape_width shape) PyNone
  /\ sd_height sd = getattr (shape_height shape) PyNone
  /\ sd_text sd = Has (resolved_text shape)
  /\ match shape_text_frame shape with
     | Has (Some text_frame) =>
         exists unique,
           sd_paragraphs sd = Has unique
           /\ Forall2 paragraph_record
                      (first_occurrences [] (tf_paragraphs text_frame))
                      unique
     | _ => sd_paragraphs sd = Missing
     end.

(** The record of the slide numbered [fst p]: its surviving shapes, in
    order. *)
Definition slide_record (p : nat * Slide) (r : text_record) : Prop :=
  exists shapes,
    r = SlideText (fst p) shapes
    /\ Forall2 shape_record
               (List.filter survives (slide_shapes (snd p))) shapes.

(** Every run of the deck can be read: a font object has a [name]. *)
Definition run_named (run : Run) : Prop :=
  match run_font run with
  | Some font => font_name font <> Missing
  | None => True
  end.

Definition shape_named (shape : Shape) : Prop :=
  match shape_text_frame shape with
  | Has (Some text_frame) =>
      Forall (fun para => Forall run_named (tp_runs para))
             (tf_paragraphs text_frame)
  | _ => True
  end.

Definition fonts_named (slides : list Slide) : Prop :=
  Forall (fun slide => Forall shape_named (slide_shapes slide)) slides.

(** ** Run formatting as the specification words it *)

(** The size of a run in points, when it is not "absent". *)
Definition set_size (run : Run) : option pyval :=
  match run_font run with
  | Some font =>
      match font_size font with
      | Some size => if length_truthy (font_size font) then Some (pt size)
                     else None
      | None => None
      end
  | None => None
  end.

(** The colour of a run, when its font has a colour exposing [rgb]. *)
Definition set_color (run : Run) : option pyval :=
  match run_font run with
  | Some font =>
      match font_color font with
      | Some color => match rgb color with Has c => Some c | Missing => None end
      | None => None
      end
  | None => None
  end.

(** The run has no font object, or a font with a non-empty name. *)
Definition font_named_or_missing (run : Run) : Prop :=
  match run_font run with
  | Some font => exists name, font_name font = Has name /\ truthy name = true
  | None => True
  end.

(** The flags the slide-deck path reads, on the font of the run. *)
Definition font_flag (flag : Font -> pyval) (run : Run) : pyval :=
  match run_font run with
  | Some font => flag font
  | None => PyNone
  end.

(** ** Link records as the specification words them *)







(** ** Sample objects *)

Module Samples.

Definition empty_document : Document :=
  {| doc_page_count := Missing;
     doc_metadata := [];
     doc_getitem := [];
     doc_pages := Missing;
     doc_paragraphs := Missing;
     doc_inline_shapes := Missing;
     doc_drawings := Missing;
     doc_related_parts := ∅;
     doc_tables := Missing;
     doc_slides := Missing |}.

(** A handle with a table collection and an inline-shape collection
    and none of the four capability markers. *)
Definition tables_only : Document :=
  {| doc_page_count := Missing;
     doc_metadata := [];
     doc_getitem := [];
     doc_pages := Missing;
     doc_paragraphs := Missing;
     doc_inline_shapes := Has [];
     doc_drawings := Missing;
     doc_related_parts := ∅;
     doc_tables := Has [];
     doc_slides := Missing |}.

Definition no_backend : Env := {| fitz := false; pdfplumber := None |}.

Definition fitz_only : Env := {| fitz := true; pdfplumber := None |}.

Definition no_attribute : exn := AttributeError "no such attribute".

(** A shape with nothing on it. *)
Definition bare_shape : Shape :=
  {| shape_id := Missing;
     shape_left := Missing;
     shape_top := Missing;
     shape_width := Missing;
     shape_height := Missing;
     shape_text_frame := Missing;
     shape_text := Missing;
     shape_click_action := Ok Missing;
     shape_type := Gets Missing;
     shape_fill := Gets Missing;
     shape_image := Raise no_attribute;
     shape_shapes := Gets Missing;
     shape_blips := Raise no_attribute;
     shape_part := Raise no_attribute;
     shape_has_table := Raise no_attribute;
     shape_table := Raise no_attribute |}.

(** The table shape of the test suite. *)
Definition table_shape : Shape :=
  {| shape_id := Has (PyInt 102);
     shape_left := Has (PyInt 50);
     shape_top := Has (PyInt 50);
     shape_width := Has (PyInt 300);
     shape_height := Has (PyInt 150);
     shape_text_frame := Missing;
     shape_text := Missing;
     shape_click_action := Ok Missing;
     shape_type := Gets Missing;
     shape_fill := Gets Missing;
     shape_image := Raise no_attribute;
     shape_shapes := Gets Missing;
     shape_blips := Raise no_attribute;
     shape_part := Raise no_attribute;
     shape_has_table := Ok true;
     shape_table :=
       Ok {| table_style := None;
             table_rows := [["Name"; "Grade"; "Remark"];
                            ["Alice"; "X"; "Good"]] |} |}.

(** A handle with both a page count and a slide collection. *)
Definition paged_deck : Document :=
  {| doc_page_count := Has 0;
     doc_metadata := [];
     doc_getitem := [];
     doc_pages := Missing;
     doc_paragraphs := Missing;
     doc_inline_shapes := Missing;
     doc_drawings := Missing;
     doc_related_parts := ∅;
     doc_tables := Missing;
     doc_slides := Has [{| slide_shapes := [table_shape];
                           slide_rels := [] |}] |}.

(** A document of the alternate reader with one page. *)
Definition one_plain_page (raw_text : string) : Document :=
  {| doc_page_count := Missing;
     doc_metadata := [];
     doc_getitem := [];
     doc_pages := Has [{| pp_extract_text := Has (Ok raw_text) |}];
     doc_paragraphs := Missing;
     doc_inline_shapes := Missing;
     doc_drawings := Missing;
     doc_related_parts := ∅;
     doc_tables := Missing;
     doc_slides := Missing |}.

(** A shape with a hyperlink click action. *)
Definition link_shape (url : string) (text : attr string) : Shape :=
  {| shape_id := Has (PyInt 7);
     shape_left := Missing;
     shape_top := Missing;
     shape_width := Missing;
     shape_height := Missing;
     shape_text_frame := Missing;
     shape_text := text;
     shape_click_action := Ok (Has (Some {| hyperlink := Has (PyStr url) |}));
     shape_type := Gets Missing;
     shape_fill := Gets Missing;
     shape_image := Raise no_attribute;
     shape_shapes := Gets Missing;
     shape_blips := Raise no_attribute;
     shape_part := Raise no_attribute;
     shape_has_table := Ok false;
     shape_table := Raise no_attribute |}.

(** A run of python-docx on which no formatting is set. *)
Definition unformatted_run (text : string) : Run :=
  {| run_text := text;
     run_font :=
       Some {| font_name := Has PyNone;
               font_size := None;
               font_bold := PyNone;
               font_italic := PyNone;
               font_underline := PyNone;
               font_color := Some {| rgb := Has PyNone |};
               font_highlight_color := Has PyNone |};
     run_bold := PyNone;
     run_italic := PyNone;
     run_underline := PyNone |}.

Definition unformatted_paragraph : Paragraph :=
  {| para_text := "Hello";
     para_style := Has "Normal";
     para_alignment := Has PyNone;
     para_runs := Has [unformatted_run "Hello"] |}.

Definition flow (paragraphs : list Paragraph) : Document :=
  {| doc_page_count := Missing;
     doc_metadata := [];
     doc_getitem := [];
     doc_pages := Missing;
     doc_paragraphs := Has paragraphs;
     doc_inline_shapes := Has [];
     doc_drawings := Missing;
     doc_related_parts := ∅;
     doc_tables := Has [];
     doc_slides := Missing |}.

(** A run in a named font, with no size and no colour set. *)
Definition arial_run (text : string) (bold : pyval) : Run :=
  {| run_text := text;
     run_font :=
       Some {| font_name := Has (PyStr "Arial");
               font_size := None;
               font_bold := bold;
               font_italic := PyNone;
               font_underline := PyNone;
               font_color := Some {| rgb := Missing |};
               font_highlight_color := Has PyNone |};
     run_bold := bold;
     run_italic := PyNone;
     run_underline := PyNone |}.

Definition text_shape (paragraphs : list TextParagraph) : Shape :=
  {| shape_id := Has (PyInt 101);
     shape_left := Has (PyInt 100);
     shape_top := Has (PyInt 100);
     shape_width := Has (PyInt 500);
     shape_height := Has (PyInt 200);
     shape_text_frame := Has (Some {| tf_paragraphs := paragraphs |});
     shape_text := Missing;
     shape_click_action := Ok Missing;
     shape_type := Gets (Has TEXT_BOX);
     shape_fill := Gets Missing;
     shape_image := Raise no_attribute;
     shape_shapes := Gets Missing;
     shape_blips := Ok [];
     shape_part := Raise no_attribute;
     shape_has_table := Ok false;
     shape_table := Raise no_attribute |}.

(** One shape with the same text twice, in bold the first time. *)
Definition twice_shape : Shape :=
  text_shape
    [ {| tp_text := "Title"; tp_alignment := PyInt 1;
         tp_runs := [arial_run "Title" (PyBool true)] |};
      {| tp_text := "   "; tp_alignment := PyNone; tp_runs := [] |};
      {| tp_text := " Title "; tp_alignment := PyNone;
         tp_runs := [arial_run " Title " PyNone] |};
      {| tp_text := "Body"; tp_alignment := PyNone;
         tp_runs := [arial_run "Body" PyNone] |} ].

(** The shape survives on the first slide next to two shapes without
    text; the second slide has no text at all. *)
Definition titled_deck : list Slide :=
  [ {| slide_shapes :=
         [text_shape [ {| tp_text := "  "; tp_alignment := PyNone;
                          tp_runs := [] |} ];
          twice_shape;
          bare_shape];
       slide_rels := [] |};
    {| slide_shapes := [bare_shape; table_shape]; slide_rels := [] |};
    {| slide_shapes := [link_shape "http://a.b" (Has " note ")];
       slide_rels := [] |} ].

(** A flow document with one table of ragged rows. *)
Definition ragged_tables : Document :=
  {| doc_page_count := Missing;
     doc_metadata := [];
     doc_getitem := [];
     doc_pages := Missing;
     doc_paragraphs := Has [];
     doc_inline_shapes := Has [];
     doc_drawings := Missing;
     doc_related_parts := ∅;
     doc_tables :=
       Has [ {| table_style := None;
                table_rows := [[" a "; "b"; "c"]; ["d"]; []] |};
             {| table_style := Some "Grid"; table_rows := [] |} ];
     doc_slides := Missing |}.

Definition jpeg : list Byte.byte := [Byte.xff; Byte.xd8; Byte.xff].

(** A picture as python-pptx presents it: the markup of the shape
    holds a blip whose embed id resolves through the part. *)
Definition picture_shape : Shape :=
  {| shape_id := Has (PyInt 302);
     shape_left := Has (PyInt 100);
     shape_top := Has (PyInt 100);
     shape_width := Has (PyInt 400);
     shape_height := Has (PyInt 300);
     shape_text_frame := Missing;
     shape_text := Missing;
     shape_click_action := Ok Missing;
     shape_type := Gets (Has PICTURE);
     shape_fill := Gets Missing;
     shape_image :=
       Ok {| img_blob := jpeg; img_ext := PyStr "jpeg";
             img_width := PyInt 400; img_height := PyInt 300 |};
     shape_shapes := Gets Missing;
     shape_blips := Ok [Some "rId2"];
     shape_part :=
       Ok {| related_parts :=
               Has {[ "rId2" := {| ip_blob := jpeg;
                                   ip_ext := Has (PyStr "jpeg") |} ]} |};
     shape_has_table := Ok false;
     shape_table := Raise no_attribute |}.

(** A group holding the picture and an empty shape. *)
Definition group_shape : Shape :=
  {| shape_id := Has (PyInt 9);
     shape_left := Missing;
     shape_top := Missing;
     shape_width := Missing;
     shape_height := Missing;
     shape_text_frame := Missing;
     shape_text := Missing;
     shape_click_action := Raise no_attribute;
     shape_type := Gets (Has GROUP);
     shape_fill := Gets Missing;
     shape_image := Raise no_attribute;
     shape_shapes := Gets (Has [picture_shape; bare_shape]);
     shape_blips := Ok [Some "rId2"];
     shape_part := Raise no_attribute;
     shape_has_table := Ok false;
     shape_table := Raise no_attribute |}.

(** A shape whose [shape_type] getter raises, as python-pptx does for
    a shape that is neither placeholder, freeform, auto shape nor text
    box. *)
Definition unrecognised_shape : Shape :=
  {| shape_id := Has (PyInt 11);
     shape_left := Missing;
     shape_top := Missing;
     shape_width := Missing;
     shape_height := Missing;
     shape_text_frame := Missing;
     shape_text := Missing;
     shape_click_action := Ok Missing;
     shape_type := Fails "Shape instance of unrecognized shape type";
     shape_fill := Gets Missing;
     shape_image := Raise no_attribute;
     shape_shapes := Gets Missing;
     shape_blips := Ok [];
     shape_part := Raise no_attribute;
     shape_has_table := Ok false;
     shape_table := Raise no_attribute |}.

Definition deck (slides : list Slide) : Document :=
  {| doc_page_count := Missing;
     doc_metadata := [];
     doc_getitem := [];
     doc_pages := Missing;
     doc_paragraphs := Missing;
     doc_inline_shapes := Missing;
     doc_drawings := Missing;
     doc_related_parts := ∅;
     doc_tables := Missing;
     doc_slides := Has slides |}.


End Samples.

(** ** Further notions used to state what the extractor keeps *)

(** The [table_index] entry of a table record, when it has one. *)
Definition table_index_of (r : table_record) : option nat :=
  match r with
  | DocTable i _ _ _ _ | SlideTable i _ _ _ _ _ => Some i
  | PageTable _ _ _ _ _ | Warning _ => None
  end.

(** A slide-deck table record: the fixed style, a slide of the deck and
    a grid that is not empty. *)
Definition slide_table_ok (slides : list Slide) (r : table_record) : Prop :=
  exists table_index slide data,
    r = SlideTable table_index "DefaultPPTTable" slide data
                   (List.length data) (first_row_width data)
    /\ data <> [] /\ 1 <= slide <= List.length slides.

(** The grid pdfplumber finds on a page, when it is not empty. *)
Definition page_grid (page : PlumberPage)
  : option (list (list (option string))) :=
  match pl_table page with
  | Ok (Some (row :: rows)) => Some (row :: rows)
  | _ => None
  end.

Definition has_grid (p : nat * PlumberPage) : bool :=
  match page_grid (snd p) with Some _ => true | None => false end.

(** The table record of the page numbered [fst p]. *)
Definition page_table_record (p : nat * PlumberPage) (r : table_record)
  : Prop :=
  exists data,
    page_grid (snd p) = Some data
    /\ r = PageTable (fst p) "N/A" data
                     (List.length data) (first_row_width data).

(** The table records of the first [k] pages: one for each page with a
    grid, in page order. *)
Definition tables_of_pages (pdf_pages : list PlumberPage) (k : nat)
    (tables : list table_record) : Prop :=
  Forall2 page_table_record
          (List.filter has_grid (enumerate1 (firstn k pdf_pages)))
          tables.

(** What table extraction answers for a page-stream document, by what
    pdfplumber does. *)
Definition page_stream_answer (env : Env)
    (tables warnings : list table_record) : Prop :=
  match pdfplumber env with
  | None =>
      tables = []
      /\ warnings
         = [Warning ("pdfplumber not installed. "
                     +:+ "Install pdfplumber for PDF table extraction.")]
  | Some (Raise e) =>
      tables = []
      /\ warnings
         = [Warning ("Error extracting tables with pdfplumber: "
                     +:+ exn_str e)]
  | Some (Ok pdf_pages) =>
      exists k,
        k <= List.length pdf_pages
        /\ Forall (fun page => exists grid, pl_table page = Ok grid)
                  (firstn k pdf_pages)
        /\ tables_of_pages pdf_pages k tables
        /\ match nth_error pdf_pages k with
           | None =>
               warnings
               = match tables with
                 | [] => [Warning "No tables found with pdfplumber."]
                 | _ => []
                 end
           | Some page =>
               exists e,
                 pl_table page = Raise e
                 /\ warnings
                    = [Warning ("Error extracting tables with pdfplumber: "
                                +:+ exn_str e)]
           end
  end.

(** A flow-document table record against its table. *)
Definition doc_table_of (table : Table) (r : table_record) : Prop :=
  exists table_index,
    r = DocTable table_index
                 (default "DefaultTableStyle" (table_style table))
                 (map (map PyStr.strip) (table_rows table))
                 (List.length (table_rows table))
                 (first_row_width (table_rows table)).

Module MoreSamples.

(** A PyMuPDF handle of two pages without content. *)
Definition blank_page (number : nat) : MuPage :=
  {| page_number := number;
     page_rotation := PyInt 0;
     page_rect := [PyInt 0; PyInt 0; PyInt 612; PyInt 792];
     page_blocks := None;
     page_links := [];
     page_images := [] |}.

Definition mupdf (pages : list MuPage) : Document :=
  {| doc_page_count := Has (List.length pages);
     doc_metadata := [("title", "Fake PDF")];
     doc_getitem := pages;
     doc_pages := Missing;
     doc_paragraphs := Missing;
     doc_inline_shapes := Missing;
     doc_drawings := Missing;
     doc_related_parts := ∅;
     doc_tables := Missing;
     doc_slides := Missing |}.

(** pdfplumber finds a table on the second of three pages and fails on
    the third. *)
Definition plumber_fails_late : Env :=
  {| fitz := true;
     pdfplumber :=
       Some (Ok [ {| pl_text_layout := Ok (Some "one  page");
                     pl_table := Ok None |};
                  {| pl_text_layout := Ok None;
                     pl_table := Ok (Some [[Some "a"; None]; [Some "b"]]) |};
                  {| pl_text_layout := Raise (OtherError "bad page");
                     pl_table := Raise (OtherError "bad page") |} ]) |}.

End MoreSamples.

(** ** Further notions on strings *)

Module PyText.

(** [needle] occurs in [s]. *)
Definition is_substring (needle s : string) : Prop :=
  exists before after, s = before +:+ needle +:+ after.

(** Every character of [s] passes the test. *)
Fixpoint all_chars (test : ascii -> bool) (s : string) : bool :=
  match s with
  | EmptyString => true
  | String c r => test c && all_chars test r
  end.

Definition no_space (s : string) : bool :=
  all_chars (fun c => negb (PyStr.isspace c)) s.

Definition no_linebreak (s : string) : bool :=
  all_chars (fun c => negb (PyStr.is_linebreak c)) s.

(** The characters of [s] that are not whitespace, in order. *)
Fixpoint visible (s : string) : string :=
  match s with
  | EmptyString => EmptyString
  | String c r => if PyStr.isspace c then visible r else String c (visible r)
  end.

(** An absolute web address as the link pattern matches it: a scheme,
    then at least one character, and no whitespace. *)
Definition is_url (uri : string) : Prop :=
  (exists rest, rest <> ""
                /\ (uri = "http://" +:+ rest \/ uri = "https://" +:+ rest))
  /\ no_space uri = true.

End PyText.

(** ** Link records and their sources *)

(** The text the alternate backend scans for page number [page]. *)
Definition scanned_text (env : Env) (pages : list PlainPage) (page : nat)
    (text : string) : Prop :=
  match pdfplumber env with
  | None =>
      exists p, nth_error pages (page - 1) = Some p
                /\ match pp_extract_text p with
                   | Missing => text = Reflow.merge_lines ""
                   | Has (Ok raw_text) => text = Reflow.merge_lines raw_text
                   | Has (Raise _) => False
                   end
  | Some (Ok pdf_pages) =>
      exists p layout, nth_error pdf_pages (page - 1) = Some p
                       /\ pl_text_layout p = Ok layout
                       /\ text = default "" layout
  | Some (Raise _) => False
  end.

(** A link record of the alternate backend. *)
Definition page_url_ok (env : Env) (pages : list PlainPage) (r : link_record)
  : Prop :=
  exists page uri,
    r = PageUrl page uri "" /\ PyText.is_url uri /\ 1 <= page
    /\ exists text, scanned_text env pages page text
                    /\ PyText.is_substring uri text.

(** A link record of a flow document. *)
Definition para_link_ok (paragraphs : list Paragraph) (r : link_record)
  : Prop :=
  exists para,
    para ∈ paragraphs
    /\ r = ParaLink (PyStr.strip (para_text para)) (PyStr.strip (para_text para))
    /\ PyText.is_substring "http" (PyStr.strip (para_text para)).

(** A link record of a PyMuPDF document of [page_count] pages. *)
Definition pdf_link_ok (page_count : nat) (r : link_record) : Prop :=
  exists page uri rect kind,
    r = PdfLink page uri rect kind /\ uri <> "" /\ 1 <= page <= page_count.

(** A link record of a slide deck whose slide number is below [bound]. *)
Definition slide_link_below (bound : nat) (r : link_record) : Prop :=
  exists slide text url,
    r = SlideLink slide text url
    /\ url <> "" /\ PyStr.trimmed url /\ PyStr.trimmed text
    /\ 1 <= slide < bound.

(** What the PyMuPDF link loop keeps true of (seen_pdf_links, links) in
    a document of [page_count] pages: the records are well formed and
    every key seen has its record. *)
Definition pdf_links_kept (page_count : nat)
    (st : gset (nat * string) * list link_record) : Prop :=
  Forall (pdf_link_ok page_count) (snd st)
  /\ forall i uri, (i, uri) ∈ fst st ->
       exists rect kind, PdfLink (i + 1) uri rect kind ∈ snd st.

(** The same for the slide loop, the slides below [bound] being done. *)
Definition slide_links_kept (bound : nat)
    (st : gset (string * string) * list link_record) : Prop :=
  Forall (slide_link_below bound) (snd st)
  /\ forall url text, (url, text) ∈ fst st ->
       exists slide, SlideLink slide text url ∈ snd st.

Module LinkSamples.

Definition link (uri : option string) : Link :=
  {| link_uri := uri; link_from := Some [PyInt 0; PyInt 0]; link_kind := None |}.

Definition linked_page (number : nat) (links : list Link) : MuPage :=
  {| page_number := number;
     page_rotation := PyInt 0;
     page_rect := [];
     page_blocks := None;
     page_links := links;
     page_images := [] |}.

(** Two pages: the first repeats an address and has links without one. *)
Definition linked_pdf : Document :=
  MoreSamples.mupdf
    [ linked_page 0 [link (Some "http://a.b"); link (Some "");
                     link (Some "http://a.b"); link None];
      linked_page 1 [link (Some "http://a.b")] ].

End LinkSamples.

(** ** Image records and their sources *)





(** The bytes an inline picture resolves to: the related part its blip
    embeds. *)
Definition inline_payload (shape : InlineShape) : option (list Byte.byte) :=
  match is_embed shape with
  | Ok embed => is_related_parts shape !! embed
  | Raise _ => None
  end.

(** The record of the inline picture at place [fst p]. *)
Definition inline_record (p : nat * InlineShape) (r : image_record) : Prop :=
  exists image_blob,
    inline_payload (snd p) = Some image_blob
    /\ r = InlineImage (fst p)
                       (default ("Image" +:+ PyStr.of_nat (fst p))
                                (is_name (snd p)))
                       (Base64.b64encode image_blob)
                       (is_width (snd p)) (is_height (snd p)).

(** The relationship id and the bytes a drawing resolves to: the part of
    the document its first blip embeds. *)
Definition floating_payload (document : Document) (drawing : Drawing)
  : option (string * list Byte.byte) :=
  match dr_blips drawing with
  | Some rId :: _ =>
      match doc_related_parts document !! rId with
      | Some image_blob => Some (rId, image_blob)
      | None => None
      end
  | _ => None
  end.

(** The record of the drawing at place [fst p]. *)
Definition floating_record (document : Document) (p : nat * Drawing)
    (r : image_record) : Prop :=
  exists rId image_blob,
    floating_payload document (snd p) = Some (rId, image_blob)
    /\ r = FloatingImage (fst p) rId (Base64.b64encode image_blob).

(** The payload of an image record. *)
Definition image_blob (r : image_record) : string :=
  match r with
  | PdfImage _ _ _ _ _ blob => blob
  | InlineImage _ _ blob _ _ => blob
  | FloatingImage _ _ blob => blob
  | SlideImage _ _ blob _ _ _ => blob
  | RelImage _ _ _ blob => blob
  end.

(** A record of the PyMuPDF image loop: an image reference of one of the
    first [page_count] pages, with the number of that page and the bytes
    of the image encoded (nothing, when there are no bytes). *)
Definition pdf_image_ok (document : Document) (page_count : nat)
    (r : image_record) : Prop :=
  exists i page img,
    i < page_count
    /\ nth_error (doc_getitem document) i = Some page
    /\ img ∈ page_images page
    /\ r = PdfImage (i + 1) (pi_xref img) (pi_ext img) (pi_width img)
                    (pi_height img)
                    (Base64.b64encode (default [] (pi_image img))).

(** ** More sample inputs: images *)

Module ImageSamples.

Definition picture (xref : Z) (bytes : option (list Byte.byte))
  : PdfImageRef :=
  {| pi_xref := PyInt xref; pi_image := bytes;
     pi_width := PyInt 1; pi_height := PyInt 1; pi_ext := PyStr "png" |}.

Definition page_with (images : list PdfImageRef) : MuPage :=
  {| page_number := 0; page_rotation := PyInt 0; page_rect := [];
     page_blocks := Some []; page_links := []; page_images := images |}.

(** An inline picture whose related parts hold one part. *)
Definition inline (name : option string) (embed : result string)
  : InlineShape :=
  {| is_embed := embed;
     is_related_parts := {[ "rId1" := [Byte.x4d; Byte.x61; Byte.x6e] ]};
     is_name := name;
     is_width := PyInt 10;
     is_height := PyInt 20 |}.

End ImageSamples.

(** ** Text records and their sources *)

Module PyNorm.

(** Every whitespace character of [s] is a plain space that is followed
    by a character that is not whitespace, or by nothing. *)
Fixpoint single_spaced (s : string) : bool :=
  match s with
  | EmptyString => true
  | String c r =>
      (if PyStr.isspace c
       then Ascii.eqb c " "
            && match r with
               | String d _ => negb (PyStr.isspace d)
               | EmptyString => true
               end
       else true)
      && single_spaced r
  end.

(** What [re.sub(r"\s+", " ", s).strip()] leaves: words separated by
    single spaces. *)
Definition normalised (s : string) : Prop :=
  PyStr.trimmed s /\ single_spaced s = true.

End PyNorm.

(** The page or slide number of a text record. *)
Definition text_page (r : text_record) : option nat :=
  match r with
  | PdfLine page _ _ _ _ => Some page
  | PageText page _ => Some page
  | SlideText slide _ => Some slide
  | DocumentMetadata _ | ParaText _ => None
  end.

(** A line record of a PyMuPDF document of [page_count] pages: a line
    of a block of one of these pages whose type equals 0 (as [False]
    does), with the page's own number, the words of the spans and one
    span record for each span. *)
Definition pdf_line_ok (document : Document) (page_count : nat)
    (r : text_record) : Prop :=
  exists i page block line line_text,
    let spans := default [] (line_spans line) in
    i < page_count
    /\ nth_error (doc_getitem document) i = Some page
    /\ block ∈ default [] (page_blocks page)
    /\ (block_type block = Some (PyInt 0)
        \/ block_type block = Some (PyBool false))
    /\ line ∈ default [] (block_lines block)
    /\ r = PdfLine (page_number page + 1) (page_rotation page)
                   (page_rect page) line_text (map Text.span_record spans)
    /\ line_text <> ""
    /\ PyNorm.normalised line_text
    /\ PyText.visible line_text
       = PyText.visible
           (PyStr.join "" (map (fun span => default "" (span_text span))
                               spans)).



(** ** More sample inputs: text *)

Module TextSamples.

Definition span (text : string) (font : string) : Span :=
  {| span_text := Some text; span_font := Some font;
     span_size := Some (PyInt 12); span_bbox := None; span_flags := None;
     span_origin := None; span_color := None; span_other := [] |}.

Definition text_line (spans : list Span) : Line :=
  {| line_spans := Some spans |}.

(** A page with a two-span line, a blank line and an image block. *)
Definition text_page : MuPage :=
  {| page_number := 0;
     page_rotation := PyInt 0;
     page_rect := [PyInt 0; PyInt 0; PyInt 612; PyInt 792];
     page_blocks :=
       Some [ {| block_type := Some (PyInt 0);
                 block_lines :=
                   Some [ text_line [ span " Hello," "Times-Bold";
                                      span "  wide   world " "Times" ];
                          text_line [ span "   " "Times" ] ] |};
              {| block_type := Some (PyInt 1); block_lines := None |} ];
     page_links := [];
     page_images := [] |}.



End TextSamples.

(** ** The units of the reflow heuristic *)

Module ReflowUnits.
Import PyStr.

(** A line as the loop of [merge_lines] sees it, and a unit as it leaves
    it: not empty, trimmed and without a line boundary. *)
Definition good_line (l : string) : Prop :=
  l <> "" /\ trimmed l /\ PyText.no_linebreak l = true.

(** The first statement of [merge_lines]. *)
Definition lines_of (raw_text : string) : list string :=
  map strip (List.filter (fun line => nonempty (strip line))
                         (splitlines raw_text)).

(** [merged] when the function returns. *)
Definition units_of (raw_text : string) : list string :=
  let '(merged, buffer) :=
    fold_left Reflow.merge_step (lines_of raw_text) ([], "") in
  if nonempty buffer then merged ++ [buffer] else merged.

(** What the loop keeps true of (merged, buffer). *)
Definition units_kept (st : list string * string) : Prop :=
  Forall good_line (fst st)
  /\ Forall (fun u => Reflow.re_search_terminal u = true) (fst st)
  /\ (snd st = "" \/ good_line (snd st))
  /\ (snd st = "" -> fst st = []).

End ReflowUnits.

(** * File loaders and the entry point: [src/fileloader.py] and
    [src/main.py] *)

Module PyPath.
Import PyStr.

(** [str.lower] on one code point below 256: the capitals of ASCII and
    of Latin-1 (not the multiplication sign, 215). *)
Definition lower_char (c : ascii) : ascii :=
  let n := nat_of_ascii c in
  if (((65 <=? n) && (n <=? 90))
      || ((192 <=? n) && (n <=? 222) && negb (n =? 215)))%nat
  then chr (n + 32) else c.

(** [s.lower()] *)
Fixpoint lower (s : string) : string :=
  match s with
  | EmptyString => EmptyString
  | String c r => String (lower_char c) (lower r)
  end.

(** [s.endswith(suffix)] *)
Fixpoint endswith (s suffix : string) : bool :=
  (s =? suffix)%string
  || match s with
     | EmptyString => false
     | String _ r => endswith r suffix
     end.

End PyPath.

Module Loader.
Import PyPath.

Inductive loader := PDFLoader | DOCXLoader | PPTLoader.

Definition class_name (l : loader) : string :=
  match l with
  | PDFLoader => "PDFLoader"
  | DOCXLoader => "DOCXLoader"
  | PPTLoader => "PPTLoader"
  end.

(** [validate_file] of the three loaders; [endswith] with a pair of
    suffixes accepts either. *)
Definition validate_file (l : loader) (filepath : string) : bool :=
  match l with
  | PDFLoader => endswith (lower filepath) ".pdf"
  | DOCXLoader => endswith (lower filepath) ".docx"
  | PPTLoader =>
      endswith (lower filepath) ".ppt" || endswith (lower filepath) ".pptx"
  end.

Definition invalid_type (l : loader) : exn :=
  ValueError ("Invalid file type for " +:+ class_name l).

(** [FileNotFoundError(f"File not found: {filepath}")] *)
Definition not_found (filepath : string) : exn :=
  OtherError ("File not found: " +:+ filepath).

Section Files.

(** [os.path.exists], and the constructors of the three libraries
    ([fitz.open], [Document], [Presentation]), which may raise. *)
Variable path_exists : string -> bool.
Variable open_document : loader -> string -> result Document.

Definition load_file (l : loader) (filepath : string) : result Document :=
  if negb (validate_file l filepath) then Raise (invalid_type l)
  else if negb (path_exists filepath) then Raise (not_found filepath)
  else open_document l filepath.

End Files.

(** The loader [process_file] constructs for a path. *)
Definition choose_loader (filepath : string) : result loader :=
  if endswith (lower filepath) ".pdf" then Ok PDFLoader
  else if endswith (lower filepath) ".docx" then Ok DOCXLoader
  else if endswith (lower filepath) ".ppt"
          || endswith (lower filepath) ".pptx" then Ok PPTLoader
  else Raise (ValueError "Unsupported file type.").

End Loader.

(** * SQL storage: the rows of [SQLStorage.store_data]
    ([src/storage.py], lines 129-172) *)

Module Sql.

(** A value held by a record: a scalar or a list. *)
Inductive field :=
| Scalar (v : pyval)
| ListOf (l : list pyval).

Definition none : field := Scalar PyNone.
Definition int (n : nat) : field := Scalar (PyInt (Z.of_nat n)).
Definition str (s : string) : field := Scalar (PyStr s).

Definition field_truthy (f : field) : bool :=
  match f with
  | Scalar v => truthy v
  | ListOf l => match l with [] => false | _ :: _ => true end
  end.

(** [a or b] *)
Definition py_or (a b : field) : field := if field_truthy a then a else b.

(** [d.get(key, default)] *)
Fixpoint get (d : list (string * field)) (key : string) (default : field)
  : field :=
  match d with
  | [] => default
  | (k, v) :: rest => if (k =? key)%string then v else get rest key default
  end.

(** The dict each link record stands for
    ([data_extractor.py], lines 314-321, 336-338, 349, 356 and 374). *)
Definition link_dict (r : link_record) : list (string * field) :=
  match r with
  | PdfLink page uri rect kind =>
      [("page", int page); ("uri", str uri); ("rect", ListOf rect);
       ("kind", Scalar kind)]
  | PageUrl page uri contents =>
      [("page", int page); ("uri", str uri); ("contents", str contents)]
  | ParaLink text url => [("text", str text); ("url", str url)]
  | SlideLink slide text url =>
      [("slide", int slide); ("text", str text); ("url", str url)]
  end.

(** The dict each image record stands for
    ([data_extractor.py], lines 47-54, 387-396, 402-411, 432-443,
    472-481, 500-508 and 522-528). *)
Definition image_dict (r : image_record) : list (string * field) :=
  match r with
  | PdfImage page xref format width height blob =>
      [("page", int page); ("xref", Scalar xref); ("format", Scalar format);
       ("width", Scalar width); ("height", Scalar height);
       ("blob", str blob)]
  | InlineImage index filename blob width height =>
      [("index", int index); ("filename", str filename); ("blob", str blob);
       ("width", Scalar width); ("height", Scalar height)]
  | FloatingImage floating_index rId blob =>
      [("floating_index", int floating_index); ("rId", str rId);
       ("blob", str blob)]
  | SlideImage slide image_id blob format width height =>
      [("slide", int slide); ("image_id", Scalar image_id);
       ("blob", str blob); ("format", Scalar format);
       ("width", Scalar width); ("height", Scalar height)]
  | RelImage slide rId format blob =>
      [("slide", int slide); ("rId", str rId); ("format", Scalar format);
       ("blob", str blob)]
  end.

(** The parameters of the INSERT for one link (lines 140-147):
    page_or_slide, text, url. *)
Definition link_row (link : list (string * field)) : field * field * field :=
  let page_or_slide :=
    py_or (py_or (get link "page" none) (get link "slide" none)) none in
  let link_text :=
    py_or (get link "text" (str "")) (get link "contents" (str "")) in
  let url := py_or (get link "url" none) (get link "uri" none) in
  (page_or_slide, link_text, url).

(** The parameters of the INSERT for one image (lines 149-158):
    page_or_slide, name, format, width, height. *)
Definition image_row (image : list (string * field))
  : field * field * field * field * field :=
  let page_or_slide :=
    py_or (py_or (get image "page" none) (get image "slide" none)) none in
  let name :=
    py_or (py_or (get image "name" none) (get image "image_id" none)) none in
  let fmt := get image "format" none in
  let width := get image "width" none in
  let height := get image "height" none in
  (page_or_slide, name, fmt, width, height).

(** The rows the two loops insert, in order. *)
Definition link_rows (data : list link_record)
  : list (field * field * field) :=
  map (fun link => link_row (link_dict link)) data.

Definition image_rows (data : list image_record)
  : list (field * field * field * field * field) :=
  map (fun image => image_row (image_dict image)) data.

End Sql.

(** What every link record has: an address, and a page or slide number
    from 1 unless it comes from a flow document. *)
Definition link_addressed (r : link_record) : Prop :=
  match r with
  | PdfLink page uri _ _ => 1 <= page /\ uri <> ""
  | PageUrl page uri contents => 1 <= page /\ uri <> "" /\ contents = ""
  | ParaLink text url => url <> "" /\ text = url
  | SlideLink slide text url => 1 <= slide /\ url <> ""
  end.

(** The row of a link record: the page or slide number of the record,
    NULL for a paragraph of a flow document; the text of the record,
    empty for a page-stream link; the address of the record. *)
Definition link_row_ok (r : link_record)
    (row : Sql.field * Sql.field * Sql.field) : Prop :=
  match r with
  | PdfLink page uri _ _ | PageUrl page uri _ =>
      row = (Sql.int page, Sql.str "", Sql.str uri)
      /\ 1 <= page /\ uri <> ""
  | ParaLink text url =>
      row = (Sql.none, Sql.str text, Sql.str url) /\ url <> ""
  | SlideLink slide text url =>
      row = (Sql.int slide, Sql.str text, Sql.str url)
      /\ 1 <= slide /\ url <> ""
  end.

(** The text of a paragraph record of a flow document. *)
Definition para_record_text (r : text_record) : option string :=
  match r with
  | ParaText p => Some (pd_text p)
  | _ => None
  end.

(** ** Properties of the string helpers *)

Module PyStrFacts.
Import PyStr.

Lemma nonempty_false s : nonempty s = false -> s = "".
Proof. destruct s; [reflexivity | discriminate]. Qed.

Lemma nonempty_true s : nonempty s = true <-> s <> "".
Proof. destruct s; simpl; split; congruence. Qed.

Lemma filter_map_comm {A B} (f : A -> B) (p : B -> bool) (l : list A) :
  List.filter p (map f l) = map f (List.filter (fun x => p (f x)) l).
Proof.
  induction l as [|x l IH]; simpl; [reflexivity|].
  destruct (p (f x)); simpl; now rewrite IH.
Qed.

Lemma last_char_cons c s :
  s <> "" -> last_char (String c s) = last_char s.
Proof. destruct s; [congruence | reflexivity]. Qed.

Lemma lstrip_length s : String.length (lstrip s) <= String.length s.
Proof.
  induction s as [|c r IH]; simpl; [lia|].
  destruct (isspace c); simpl; lia.
Qed.

Lemma lstrip_fixed_head c r : lstrip (String c r) = String c r -> isspace c = false.
Proof.
  simpl. destruct (isspace c); [|reflexivity].
  intros H. pose proof (lstrip_length r) as Hl. rewrite H in Hl.
  simpl in Hl. lia.
Qed.

Lemma lstrip_idempotent s : lstrip (lstrip s) = lstrip s.
Proof.
  induction s as [|c r IH]; simpl; [reflexivity|].
  destruct (isspace c) eqn:Ec; [exact IH|]. simpl. now rewrite Ec.
Qed.

Lemma rstrip_fixed_tail c r : rstrip (String c r) = String c r -> rstrip r = r.
Proof.
  simpl. destruct (rstrip r) eqn:Er.
  - destruct (isspace c); [discriminate|]. now intros [= <-].
  - now intros [= <-].
Qed.

Lemma rstrip_lstrip_fixed s : rstrip s = s -> rstrip (lstrip s) = lstrip s.
Proof.
  induction s as [|c r IH]; simpl lstrip; [auto|].
  intros H. destruct (isspace c); [|exact H].
  apply IH. now apply rstrip_fixed_tail in H.
Qed.

Lemma rstrip_idempotent s : rstrip (rstrip s) = rstrip s.
Proof.
  induction s as [|c r IH]; simpl; [reflexivity|].
  destruct (rstrip r) eqn:Er.
  - destruct (isspace c) eqn:Ec; simpl; [reflexivity | now rewrite Ec].
  - simpl in *. now rewrite IH.
Qed.

Lemma strip_trimmed s : trimmed (strip s).
Proof.
  unfold trimmed, strip. split.
  - apply lstrip_idempotent.
  - apply rstrip_lstrip_fixed, rstrip_idempotent.
Qed.

Lemma trimmed_strip s : trimmed s -> strip s = s.
Proof. intros [Hl Hr]. unfold strip. now rewrite Hr. Qed.

Lemma lstrip_app a b : a <> "" -> lstrip a = a -> lstrip (a +:+ b) = a +:+ b.
Proof.
  destruct a as [|c r]; [congruence|]. intros _ H.
  apply lstrip_fixed_head in H. simpl. now rewrite H.
Qed.

Lemma app_nonempty_r a b : b <> "" -> a +:+ b <> "".
Proof. destruct a; simpl; [auto | discriminate]. Qed.

Lemma rstrip_app a b : b <> "" -> rstrip b = b -> rstrip (a +:+ b) = a +:+ b.
Proof.
  intros Hb Hr. induction a as [|c r IH]; [exact Hr|].
  change (String c r +:+ b) with (String c (r +:+ b)).
  cbn [rstrip]. rewrite IH.
  destruct (r +:+ b) eqn:E; [|reflexivity].
  exfalso. apply (app_nonempty_r r b Hb E).
Qed.

(** Trimmed non-empty pieces joined by single spaces are trimmed. *)
Lemma join_trimmed (l : list string) :
  Forall (fun t => trimmed t /\ t <> "") l -> trimmed (join " " l).
Proof.
  induction 1 as [|x l [[Hl Hr] Hx] Hrest IH]; [split; reflexivity|].
  destruct l as [|y l]; [split; assumption|].
  change (join " " (x :: y :: l)) with (x +:+ " " +:+ join " " (y :: l)).
  assert (Hne : join " " (y :: l) <> "").
  { apply Forall_cons in Hrest as [[_ Hy] _].
    destruct l; simpl; [exact Hy|].
    destruct y; [congruence | discriminate]. }
  destruct IH as [_ IHr]. split.
  - now apply lstrip_app.
  - apply rstrip_app.
    + apply (app_nonempty_r " " _ Hne).
    + now apply (rstrip_app " ").
Qed.

Lemma strip_join (l : list string) :
  Forall (fun t => trimmed t /\ t <> "") l ->
  strip (join " " l) = join " " l.
Proof. intros H. apply trimmed_strip, join_trimmed, H. Qed.

Lemma join_nonempty (x : string) (l : list string) :
  x <> "" -> join " " (x :: l) <> "".
Proof.
  intros Hx. destruct l; simpl; [exact Hx|].
  destruct x; [congruence | discriminate].
Qed.

End PyStrFacts.

(** ** Loops and the exception monad *)

Module LoopFacts.

(** An invariant of the accumulator survives a [for] loop. *)
Lemma fold_left_invariant {S A} (f : S -> A -> S) (I : S -> Prop)
    (l : list A) :
  (forall s a, a ∈ l -> I s -> I (f s a)) ->
  forall s, I s -> I (fold_left f l s).
Proof.
  induction l as [|x l IH]; intros Hf s Hs; simpl; [exact Hs|].
  apply IH.
  - intros s' a Ha. apply Hf. now right.
  - apply Hf; [left | exact Hs].
Qed.

Lemma elem_of_enumerate1 {A} (l : list A) i x :
  (i, x) ∈ enumerate1 l -> x ∈ l.
Proof.
  unfold enumerate1. rewrite !list_elem_of_In. apply in_combine_r.
Qed.

Lemma elem_of_concat {A} (x : A) (ls : list (list A)) :
  x ∈ concat ls <-> exists l, x ∈ l /\ l ∈ ls.
Proof.
  rewrite list_elem_of_In, in_concat. split.
  - intros (l & Hl & Hx). exists l. now rewrite !list_elem_of_In.
  - intros (l & Hx & Hl). exists l. now rewrite <- !list_elem_of_In.
Qed.

Lemma mapM_Ok {A B} (f : A -> result B) (l : list A) (out : list B) :
  mapM f l = Ok out -> Forall2 (fun x y => f x = Ok y) l out.
Proof.
  revert out. induction l as [|x l IH]; simpl; intros out H.
  - injection H as <-. constructor.
  - destruct (f x) as [y|] eqn:Hx; [|discriminate H]. simpl in H.
    destruct (mapM f l) as [ys|]; [|discriminate H]. simpl in H.
    injection H as <-. constructor; auto.
Qed.

Lemma mapM_total {A B} (f : A -> result B) (l : list A) :
  Forall (fun x => exists y, f x = Ok y) l -> exists out, mapM f l = Ok out.
Proof.
  induction 1 as [|x l [y Hy] _ [ys Hys]]; simpl; [eauto|].
  rewrite Hy, Hys. simpl. eauto.
Qed.

End LoopFacts.

Module ReflowFacts.
Import PyStr PyStrFacts Reflow.

Lemma terminal_not_space c : is_terminal c = true -> isspace c = false.
Proof.
  destruct c as [[] [] [] [] [] [] [] []]; vm_compute; congruence.
Qed.

Lemma linefeed_is_space c : (nat_of_ascii c =? 10)%nat = true -> isspace c = true.
Proof.
  destruct c as [[] [] [] [] [] [] [] []]; vm_compute; congruence.
Qed.

(** [\s*$] succeeds exactly on strings made of whitespace only. *)
Lemma ws_then_end_rstrip s : ws_then_end s = true <-> rstrip s = "".
Proof.
  induction s as [|c r IH]; simpl; [tauto|].
  destruct (rstrip r) eqn:Er.
  - assert (Hr : ws_then_end r = true) by now apply IH.
    rewrite Hr, andb_true_r.
    destruct (isspace c) eqn:Ec.
    + rewrite orb_true_r. tauto.
    + rewrite orb_false_r. split; [|discriminate].
      intros H. apply andb_true_iff in H as [H _].
      apply linefeed_is_space in H. congruence.
  - assert (Hr : ws_then_end r = false).
    { destruct (ws_then_end r); [|reflexivity].
      assert (String a s = "") by now apply IH. discriminate. }
    rewrite Hr, andb_false_r, orb_false_r.
    split; [|discriminate].
    intros H. apply andb_true_iff in H as [_ H].
    destruct r; [discriminate Er | discriminate H].
Qed.

Lemma search_all_space s : rstrip s = "" -> re_search_terminal s = false.
Proof.
  induction s as [|c r IH]; simpl; [reflexivity|].
  destruct (rstrip r) eqn:Er; [|discriminate].
  destruct (isspace c) eqn:Ec; [|discriminate].
  intros _. rewrite IH by reflexivity.
  destruct (is_terminal c) eqn:Et; [|reflexivity].
  apply terminal_not_space in Et. congruence.
Qed.

(** The regular-expression test of the code is the suffix test of the
    specification. *)
Lemma re_search_ends_terminal s : re_search_terminal s = ends_terminal s.
Proof.
  unfold ends_terminal.
  induction s as [|c r IH]; [reflexivity|].
  cbn [re_search_terminal match_here rstrip].
  destruct (rstrip r) eqn:Er.
  - rewrite (search_all_space r Er), orb_false_r.
    assert (Hr : ws_then_end r = true) by now apply ws_then_end_rstrip.
    rewrite Hr, andb_true_r.
    destruct (isspace c) eqn:Ec; simpl; [|reflexivity].
    destruct (is_terminal c) eqn:Et; [|reflexivity].
    apply terminal_not_space in Et. congruence.
  - assert (Hr : ws_then_end r = false).
    { destruct (ws_then_end r) eqn:E; [|reflexivity].
      apply ws_then_end_rstrip in E. congruence. }
    rewrite Hr, andb_false_r, orb_false_l, IH.
    now rewrite (last_char_cons c (String a s)).
Qed.

Lemma ends_terminal_empty : ends_terminal "" = false.
Proof. reflexivity. Qed.

Lemma step_in_step code spec line :
  in_step code spec -> in_step (merge_step code line) (reflow_step spec line).
Proof.
  destruct code as [m b], spec as [u b']. unfold in_step. simpl.
  rewrite re_search_ends_terminal.
  destruct (ends_terminal b) eqn:Eb.
  - intros [-> ->]. simpl.
    destruct (nonempty b) eqn:Nb; simpl.
    + destruct (ends_terminal line); simpl; auto.
    + apply nonempty_false in Nb. subst b. discriminate Eb.
  - intros [-> ->].
    destruct (nonempty b) eqn:Nb; simpl.
    + destruct (ends_terminal (b +:+ " " +:+ line)); simpl; auto.
    + destruct (ends_terminal line); simpl; auto.
Qed.

Lemma loop_in_step lines : forall code spec,
  in_step code spec ->
  in_step (fold_left merge_step lines code) (fold_left reflow_step lines spec).
Proof.
  induction lines as [|l lines IH]; intros code spec H; simpl; [exact H|].
  apply IH, step_in_step, H.
Qed.

End ReflowFacts.

(** ** The embedding on the inputs of the test suite *)

Example merge_lines_sample :
  Reflow.merge_lines
    ("Hello" +:+ PyStr.nl +:+ "  world.  " +:+ PyStr.nl +:+ PyStr.nl
     +:+ "Next" +:+ PyStr.nl +:+ "line")
  = "Hello world." +:+ PyStr.nl +:+ PyStr.nl +:+ "Next line".
Proof. reflexivity. Qed.

Example splitlines_sample :
  PyStr.splitlines
    ("a" +:+ String (PyStr.chr 13) PyStr.nl +:+ PyStr.nl +:+ "b" +:+ PyStr.nl)
  = ["a"; ""; "b"].
Proof. reflexivity. Qed.

Example findall_urls_sample :
  Links.findall_urls "see https://a.b/c, http://d and http:// or https://"
  = ["https://a.b/c,"; "http://d"].
Proof. reflexivity. Qed.

Example b64encode_sample :
  Base64.b64encode [Byte.x66; Byte.x61; Byte.x6b; Byte.x65] = "ZmFrZQ==".
Proof. reflexivity. Qed.

Example infer_font_style_sample :
  infer_font_style "Helvetica-BoldOblique" = (true, true)
  /\ infer_font_style "" = (false, false).
Proof. split; reflexivity. Qed.

(** The slide-deck table of the test suite: two rows, three columns. *)
Example ppt_table_sample :
  Tables.extract_tables Samples.no_backend
    (Samples.deck [{| slide_shapes := [Samples.bare_shape;
                                       Samples.table_shape];
                      slide_rels := [] |}])
  = Ok [SlideTable 1 "DefaultPPTTable" 1
          [["Name"; "Grade"; "Remark"]; ["Alice"; "X"; "Good"]] 2 3].
Proof. reflexivity. Qed.

(** ** The text reflow heuristic *)

(** C9: for every input string, [merge_lines] computes what the text
    reflow heuristic describes: the trimmed non-empty lines are gathered
    in a buffer, the buffer is closed as a unit when it ends in one of
    the terminal punctuation characters (with optional trailing
    whitespace), otherwise the next line is appended after one space, the
    last buffer is flushed, and the units are joined by a blank line. *)
Theorem merge_lines_refines_spec (raw_text : string) :
  Reflow.merge_lines raw_text = Reflow.merge_lines_spec raw_text.
Proof.
  unfold Reflow.merge_lines, Reflow.merge_lines_spec.
  rewrite PyStrFacts.filter_map_comm.
  set (lines := map PyStr.strip _).
  pose proof (ReflowFacts.loop_in_step lines ([], "") ([], "")) as H.
  destruct (fold_left Reflow.merge_step lines ([], "")) as [m b].
  destruct (fold_left Reflow.reflow_step lines ([], "")) as [u b'].
  unfold Reflow.in_step in H. simpl in H.
  specialize (H (conj eq_refl eq_refl)).
  destruct (Reflow.ends_terminal b) eqn:Eb.
  - destruct H as [-> ->]. simpl.
    destruct (PyStr.nonempty b) eqn:Nb; [reflexivity|].
    apply PyStrFacts.nonempty_false in Nb. subst b. discriminate Eb.
  - destruct H as [-> ->]. reflexivity.
Qed.

(** ** Variant dispatch *)

(** C2 (as stated) fails: a handle with none of the four capability
    markers that has a table collection and an inline-shape collection
    gets an empty result, not the error, from table extraction and from
    image extraction. *)
Lemma markerless_handle_gets_results :
  no_capability_marker Samples.tables_only
  /\ Tables.extract_tables Samples.no_backend Samples.tables_only = Ok []
  /\ Images.extract_images Samples.no_backend Samples.tables_only = Ok []
  /\ ~ all_unsupported Samples.no_backend Samples.tables_only.
Proof.
  split; [repeat split|]. split; [reflexivity|]. split; [reflexivity|].
  intros (_ & _ & _ & H). discriminate H.
Qed.

(** C2 (amended): on a handle with none of the four capability markers,
    text extraction and link extraction raise their unsupported-type
    error; image extraction raises it exactly when the handle has no
    inline-shape collection either, and table extraction exactly when it
    has no table collection either: with these collections they run the
    flow-document strategy and return its result. *)
Theorem unsupported_handle_raises (env : Env) (document : Document) :
  no_capability_marker document ->
  Text.extract_text env document = Raise Text.unsupported
  /\ Links.extract_links env document = Raise Links.unsupported
  /\ match doc_inline_shapes document with
     | Missing =>
         Images.extract_images env document = Raise Images.unsupported
     | Has inline_shapes =>
         Images.extract_images env document
         = Ok (Images.docx_images document inline_shapes)
     end
  /\ match doc_tables document with
     | Missing =>
         Tables.extract_tables env document = Raise Tables.unsupported
     | Has tables =>
         Tables.extract_tables env document = Ok (Tables.docx_tables tables)
     end.
Proof.
  intros (Hpc & Hpages & Hparas & Hslides).
  unfold Text.extract_text, Links.extract_links, Images.extract_images,
    Tables.extract_tables.
  rewrite Hpc, Hpages, Hparas, Hslides. simpl. rewrite andb_false_r.
  split; [reflexivity|]. split; [reflexivity|].
  split; [now destruct (doc_inline_shapes document)|].
  now destruct (doc_tables document).
Qed.

(** The handle with no attribute at all: all four raise. *)
Lemma unsupported_handle_raises_witness :
  no_capability_marker Samples.empty_document
  /\ Text.extract_text Samples.fitz_only Samples.empty_document
     = Raise Text.unsupported
  /\ Links.extract_links Samples.fitz_only Samples.empty_document
     = Raise Links.unsupported
  /\ Images.extract_images Samples.fitz_only Samples.empty_document
     = Raise Images.unsupported
  /\ Tables.extract_tables Samples.fitz_only Samples.empty_document
     = Raise Tables.unsupported.
Proof.
  assert (H : no_capability_marker Samples.empty_document)
    by (repeat split; reflexivity).
  split; [exact H|].
  apply (unsupported_handle_raises Samples.fitz_only Samples.empty_document H).
Defined.

(** C10: on a handle with a page collection and no page count, image
    extraction returns the empty list, whatever the pages hold. *)
Theorem alternate_backend_images_empty
    (env : Env) (document : Document) (pages : list PlainPage) :
  doc_pages document = Has pages ->
  doc_page_count document = Missing ->
  Images.extract_images env document = Ok [].
Proof.
  intros Hpages Hpc. unfold Images.extract_images.
  rewrite Hpc, Hpages. simpl. rewrite andb_false_r. reflexivity.
Qed.

(** A one-page document of the alternate reader. *)
Lemma alternate_backend_images_empty_witness :
  let document := Samples.one_plain_page "see http://a.b" in
  doc_pages document = Has [{| pp_extract_text := Has (Ok "see http://a.b") |}]
  /\ doc_page_count document = Missing
  /\ Images.extract_images Samples.fitz_only document = Ok [].
Proof.
  cbv zeta. split; [reflexivity|]. split; [reflexivity|].
  apply (alternate_backend_images_empty Samples.fitz_only
           (Samples.one_plain_page "see http://a.b")
           [{| pp_extract_text := Has (Ok "see http://a.b") |}]);
    reflexivity.
Defined.

(** C1 (as stated) fails: a handle with a page count and a slide
    collection goes to the page-stream strategy in text extraction and
    to the slide-deck strategy in table extraction. *)
Lemma same_order_dispatch_fails :
  first_match (spec_order Samples.paged_deck) = Some PageStream
  /\ Text.extract_text Samples.fitz_only Samples.paged_deck
     = Strategy.text Samples.fitz_only Samples.paged_deck (Some PageStream)
  /\ Tables.extract_tables Samples.fitz_only Samples.paged_deck
     = Strategy.tables Samples.fitz_only Samples.paged_deck (Some SlideDeck)
  /\ ~ same_order_dispatch Samples.fitz_only Samples.paged_deck.
Proof.
  repeat split.
  intros (_ & _ & _ & H). vm_compute in H. discriminate H.
Qed.

(** C1 (amended): each operation tests its own fixed list of markers and
    the first match wins.  Text and link extraction test the page count
    (when PyMuPDF can be imported), the page collection, the paragraph
    collection and the slide collection; image extraction tests the
    inline-shape collection in place of the paragraph collection; table
    extraction tests the table collection, the slide collection and then
    the page count, and never the page collection. *)
Theorem dispatch_orders (env : Env) (document : Document) :
  Text.extract_text env document
  = Strategy.text env document (first_match (text_order env document))
  /\ Links.extract_links env document
     = Strategy.links env document (first_match (text_order env document))
  /\ Images.extract_images env document
     = Strategy.images env document (first_match (images_order env document))
  /\ Tables.extract_tables env document
     = Strategy.tables env document (first_match (tables_order document)).
Proof.
  unfold Text.extract_text, Links.extract_links, Images.extract_images,
    Tables.extract_tables, text_order, images_order, tables_order,
    Strategy.text, Strategy.links, Strategy.images, Strategy.tables.
  destruct (fitz env), (doc_page_count document), (doc_pages document),
    (doc_paragraphs document), (doc_inline_shapes document),
    (doc_tables document), (doc_slides document);
    repeat split; reflexivity.
Qed.

(** ** Table records *)

Module TablesFacts.
Import Tables LoopFacts.

Lemma columns_first_row_width {A} (data : list (list A)) :
  columns data = first_row_width data.
Proof. destruct data as [|[|c first] rest]; reflexivity. Qed.

Section Records.
Variables (env : Env) (document : Document).

Lemma docx_tables_good tables :
  doc_tables document = Has tables ->
  Forall (table_record_ok env document) (docx_tables tables).
Proof.
  intros Hd. unfold docx_tables. apply Forall_forall. intros r Hr.
  apply list_elem_of_fmap in Hr as [[i table] [-> Hin]].
  apply elem_of_enumerate1 in Hin.
  split; simpl.
  - split; [reflexivity | apply columns_first_row_width].
  - exists tables, table. auto.
Qed.

Lemma pptx_shape_step_good slides slide shape i st :
  doc_slides document = Has slides ->
  slide ∈ slides -> shape ∈ slide_shapes slide ->
  Forall (table_record_ok env document) (snd st) -> Forall (table_record_ok env document) (snd (shape_step i st shape)).
Proof.
  intros Hd Hslide Hshape Hst. destruct st as [counter tables].
  unfold shape_step, shape_grid.
  destruct (shape_has_table shape) as [[|]|]; try exact Hst.
  destruct (shape_table shape) as [table|] eqn:Ht; try exact Hst.
  destruct (grid table) as [|first rest] eqn:Hg; [exact Hst|].
  simpl. apply Forall_app. split; [exact Hst|].
  apply Forall_cons. split; [|constructor].
  split; simpl.
  - split; [reflexivity|]. destruct first; reflexivity.
  - exists slides, slide, shape, table. rewrite <- Hg. auto.
Qed.

Lemma pptx_tables_good slides :
  doc_slides document = Has slides ->
  Forall (table_record_ok env document) (pptx_tables slides).
Proof.
  intros Hd. unfold pptx_tables.
  apply (fold_left_invariant slide_step (fun st => Forall (table_record_ok env document) (snd st)));
    [|constructor].
  intros st [i slide] Hin Hst. unfold slide_step. simpl.
  apply elem_of_enumerate1 in Hin.
  apply (fold_left_invariant (shape_step i)
           (fun st => Forall (table_record_ok env document) (snd st))); [|exact Hst].
  intros st' shape Hshape. now apply (pptx_shape_step_good slides slide).
Qed.

Lemma plumber_tables_good all_pages pages : forall i,
  pdfplumber env = Some (Ok all_pages) ->
  (forall page, page ∈ pages -> page ∈ all_pages) ->
  Forall (table_record_ok env document) (fst (plumber_tables i pages)).
Proof.
  induction pages as [|page rest IH]; intros i He Hsub; simpl;
    [constructor|].
  destruct (pl_table page) as [table_data|] eqn:Hp; [|constructor].
  specialize (IH (S i) He (fun p Hin => Hsub p (list_elem_of_further _ _ _ Hin))).
  destruct (plumber_tables (S i) rest) as [recs raised]. simpl in *.
  apply Forall_app. split; [|exact IH].
  destruct table_data as [[|r rs]|]; try constructor; [|constructor].
  split; simpl.
  - split; reflexivity || (destruct r; reflexivity).
  - exists all_pages, page. repeat split; [exact He| |exact Hp].
    apply Hsub. left.
Qed.

Lemma pdf_tables_good : Forall (table_record_ok env document) (pdf_tables env).
Proof.
  unfold pdf_tables.
  destruct (pdfplumber env) as [[pages|e]|] eqn:He.
  - pose proof (plumber_tables_good pages pages 0 He (fun _ H => H)) as H.
    destruct (plumber_tables 0 pages) as [recs [e|]]; simpl in H.
    + assert (Hw : Forall (table_record_ok env document) (recs ++ [error_warning e])).
      { apply Forall_app. split; [exact H | repeat constructor]. }
      destruct recs; exact Hw.
    + destruct recs; [repeat constructor | exact H].
  - repeat constructor.
  - repeat constructor.
Qed.

End Records.

End TablesFacts.

(** C8: every table record returned by table extraction, in any variant,
    has [rows] equal to the number of rows of its grid and [columns]
    equal to the length of the first row (0 for an empty grid), and its
    grid is the grid of the source table row by row and cell by cell,
    with no cell added or removed. *)
Theorem table_records_counts
    (env : Env) (document : Document) (tables : list table_record) :
  Tables.extract_tables env document = Ok tables ->
  Forall (table_record_ok env document) tables.
Proof.
  unfold Tables.extract_tables. intros H.
  destruct (doc_tables document) as [|ts] eqn:Ht.
  - destruct (doc_slides document) as [|slides] eqn:Hs.
    + destruct (hasattr (doc_page_count document)); [|discriminate H].
      injection H as <-. apply TablesFacts.pdf_tables_good.
    + injection H as <-. now apply TablesFacts.pptx_tables_good.
  - injection H as <-. now apply TablesFacts.docx_tables_good.
Qed.

(** ** Link records *)

Module LinksFacts.
Import Links LoopFacts.







End LinksFacts.




(** ** The shape-tree flattener *)

Module ImagesFacts.
Import Images.

(** Induction on a shape tree: the property may be assumed of the
    children of a group. *)
Lemma Shape_tree_ind (P : Shape -> Prop) :
  (forall shape,
      (forall shapes,
          shape_shapes shape = Gets (Has shapes) -> Forall P shapes) ->
      P shape) ->
  forall shape, P shape.
Proof.
  intros step. fix IH 1. intros shape. apply step.
  destruct shape as [? ? ? ? ? ? ? ? ? ? ? children ? ? ? ?]. simpl.
  intros shapes Heq.
  destruct children as [[|children]|]; try discriminate Heq.
  injection Heq as <-.
  induction children as [|child children IHc]; constructor.
  - apply IH.
  - exact IHc.
Qed.

Lemma unfold_extract shape slide_index :
  extract_ppt_images_from_shape shape slide_index
  = let! images := picture_images shape slide_index in
    match shape_shapes shape with
    | Gets (Has shapes) =>
        let! extracted :=
          mapM (fun subshape =>
                  extract_ppt_images_from_shape subshape slide_index)
               shapes in
        Ok (images ++ concat extracted)
    | Gets Missing => Ok (images ++ blip_images shape slide_index)
    | Fails msg => Raise (OtherError msg)
    end.
Proof. destruct shape; reflexivity. Qed.

Lemma unfold_readable shape :
  readable shape
  = own_reads_succeed shape
    && match shape_shapes shape with
       | Gets (Has shapes) => forallb readable shapes
       | _ => true
       end.
Proof. destruct shape; reflexivity. Qed.

Lemma picture_record_cases shape slide_index image :
  picture_record shape slide_index image
  = match image, shape_id shape with
    | Ok image, Has image_id =>
        [SlideImage slide_index image_id (Base64.b64encode (img_blob image))
                    (img_ext image) (img_width image) (img_height image)]
    | _, _ => []
    end.
Proof.
  unfold picture_record.
  destruct image as [image|]; [|reflexivity].
  destruct (shape_id shape); reflexivity.
Qed.

(** The picture checks give the picture record when their reads go
    through, and otherwise let the exception of the read escape. *)
Lemma picture_images_cases shape slide_index :
  match picture_images shape slide_index with
  | Ok images =>
      picture_reads_succeed shape = true
      /\ images = picture_part shape slide_index
  | Raise e => picture_reads_succeed shape = false /\ escaped e
  end.
Proof.
  unfold picture_images, is_picture, picture_fill, picture_part,
    picture_source, picture_reads_succeed, escaped.
  destruct (shape_type shape) as [[|t]|msg]; simpl; [| |eauto].
  - destruct (shape_fill shape) as [[|fill]|msg]; simpl; [auto| |eauto].
    destruct (fill_type fill) as [|type]; simpl; [eauto|].
    split; [reflexivity|].
    destruct (is_FILL_PICTURE type); [|reflexivity].
    apply picture_record_cases.
  - destruct t; simpl;
      try (split; [reflexivity | apply picture_record_cases]).
    all: destruct (shape_fill shape) as [[|fill]|msg]; simpl;
      [auto| |eauto].
    all: destruct (fill_type fill) as [|type]; simpl; [eauto|].
    all: split; [reflexivity|].
    all: destruct (is_FILL_PICTURE type); [|reflexivity].
    all: apply picture_record_cases.
Qed.

Lemma picture_part_on_slide shape slide_index :
  Forall (on_slide slide_index) (picture_part shape slide_index).
Proof.
  unfold picture_part.
  destruct (picture_source shape) as [[image|]|]; try constructor.
  destruct (shape_id shape); repeat constructor.
  unfold on_slide. eauto 10.
Qed.

Lemma blip_images_cases shape slide_index :
  blip_images shape slide_index = []
  \/ exists image_id blob format,
      blip_images shape slide_index
      = [SlideImage slide_index image_id blob format PyNone PyNone].
Proof.
  unfold blip_images.
  destruct (shape_blips shape) as [[|[rId|] blips]|]; simpl; auto.
  destruct (PyStr.nonempty rId); simpl; auto.
  destruct (shape_part shape) as [part|]; simpl; auto.
  destruct (related_parts part) as [|parts]; simpl; auto.
  destruct (parts !! rId); simpl; eauto 10.
Qed.

Lemma blip_images_fallback shape slide_index :
  blip_images shape slide_index = fallback_part shape slide_index.
Proof.
  unfold blip_images, fallback_part, markup_image.
  destruct (shape_blips shape) as [[|[rId|] blips]|]; simpl;
    try reflexivity; try (now destruct (shape_part shape)).
  destruct (PyStr.nonempty rId); simpl; [|now destruct (shape_part shape)].
  destruct (shape_part shape) as [part|]; simpl; [|reflexivity].
  destruct (related_parts part) as [|parts]; simpl; [reflexivity|].
  now destruct (parts !! rId).
Qed.

Lemma blip_images_without_size shape slide_index :
  Forall (without_size slide_index) (blip_images shape slide_index)
  /\ List.length (blip_images shape slide_index) <= 1.
Proof.
  destruct (blip_images_cases shape slide_index)
    as [->|(image_id & blob & format & ->)]; simpl.
  - split; [constructor | lia].
  - split; [|lia]. repeat constructor. unfold without_size. eauto.
Qed.

Lemma without_size_on_slide slide_index r :
  without_size slide_index r -> on_slide slide_index r.
Proof. intros (i & b & f & ->). unfold on_slide. eauto 10. Qed.

(** The loop over the children, given what holds of each child. *)
Lemma children_cases (P : Shape -> list image_record -> Prop)
    (f : Shape -> result (list image_record)) shapes :
  Forall (fun shape =>
            match f shape with
            | Ok images => readable shape = true /\ P shape images
            | Raise e => readable shape = false /\ escaped e
            end) shapes ->
  match mapM f shapes with
  | Ok extracted =>
      forallb readable shapes = true
      /\ Forall2 (fun shape images => f shape = Ok images /\ P shape images)
                 shapes extracted
  | Raise e => forallb readable shapes = false /\ escaped e
  end.
Proof.
  induction 1 as [|shape shapes Hs _ IH]; simpl; [auto|].
  destruct (f shape) as [images|e] eqn:Hf; simpl.
  - destruct Hs as [Hr Hp]. rewrite Hr. simpl.
    destruct (mapM f shapes) as [extracted|e]; simpl.
    + destruct IH as [Hall H2]. split; [exact Hall|]. now constructor.
    + exact IH.
  - destruct Hs as [Hr He]. now rewrite Hr.
Qed.

(** The flattener returns exactly on the readable trees, and then every
    record carries the slide index. *)
Lemma extract_cases slide_index shape :
  match extract_ppt_images_from_shape shape slide_index with
  | Ok images =>
      readable shape = true /\ Forall (on_slide slide_index) images
  | Raise e => readable shape = false /\ escaped e
  end.
Proof.
  induction shape as [shape IH] using Shape_tree_ind.
  rewrite unfold_extract, unfold_readable. unfold own_reads_succeed.
  pose proof (picture_images_cases shape slide_index) as Hp.
  destruct (picture_images shape slide_index) as [images|e]; simpl.
  - destruct Hp as [-> ->]. simpl.
    destruct (shape_shapes shape) as [[|shapes]|msg]; simpl.
    + split; [reflexivity|]. apply Forall_app. split.
      * apply picture_part_on_slide.
      * eapply Forall_impl;
          [apply blip_images_without_size | apply without_size_on_slide].
    + specialize (IH shapes eq_refl).
      pose proof (children_cases
                    (fun _ images => Forall (on_slide slide_index) images)
                    _ shapes IH) as Hc.
      destruct (mapM _ shapes) as [extracted|e]; simpl; [|exact Hc].
      destruct Hc as [-> H2]. split; [reflexivity|].
      apply Forall_app. split; [apply picture_part_on_slide|].
      clear IH. induction H2 as [|s r ss rs [_ Hr] _ IHr]; simpl;
        [constructor|].
      apply Forall_app. split; assumption.
    + split; [reflexivity|]. unfold escaped. eauto.
  - destruct Hp as [-> He]. now split.
Qed.

Lemma extract_on_slide slide_index shape images :
  extract_ppt_images_from_shape shape slide_index = Ok images ->
  Forall (on_slide slide_index) images.
Proof.
  intros H. pose proof (extract_cases slide_index shape) as Hc.
  rewrite H in Hc. apply Hc.
Qed.

End ImagesFacts.

(** C5 (as stated) fails: a picture whose markup holds a resolvable blip
    yields two records, the second one from the raw-markup fallback,
    where the flattener of the specification yields one. *)
Lemma picture_yields_two_records :
  Images.extract_ppt_images_from_shape Samples.picture_shape 1
  = Ok [SlideImage 1 (PyInt 302) "/9j/" (PyStr "jpeg") (PyInt 400)
                   (PyInt 300);
        SlideImage 1 (PyInt 302) "/9j/" (PyStr "jpeg") PyNone PyNone]
  /\ flatten_spec Samples.picture_shape 1
     = Ok [SlideImage 1 (PyInt 302) "/9j/" (PyStr "jpeg") (PyInt 400)
                      (PyInt 300)]
  /\ Images.extract_ppt_images_from_shape Samples.picture_shape 1
     <> flatten_spec Samples.picture_shape 1.
Proof.
  split; [vm_compute; reflexivity|]. split; [vm_compute; reflexivity|].
  intros H. vm_compute in H. discriminate H.
Qed.

(** C5 (amended): the flattener returns exactly when every read it
    makes outside its [try] blocks goes through, in the shape and in all
    its descendants: the type, the fill and its type unless the shape is
    a picture, and the child collection; otherwise the exception of the
    read escapes, and it is never the unsupported-type error.  When it
    returns, the result begins with the picture record (slide index,
    shape id, encoded payload, format, width, height) when the shape is
    a picture, or else its fill is one, and the image and the shape id
    can be read, groups included; for a group the rest is the
    concatenation of the results of its children, without raw-markup
    fallback; the fallback runs only for shapes that are not groups and
    gives at most one record, with null width and height.  Every record
    carries the slide index. *)
Theorem flattener_structure (shape : Shape) (slide_index : nat) :
  match Images.extract_ppt_images_from_shape shape slide_index with
  | Ok images =>
      readable shape = true
      /\ Forall (on_slide slide_index) images
      /\ exists rest,
          images = picture_part shape slide_index ++ rest
          /\ match shape_shapes shape with
             | Gets (Has shapes) =>
                 exists extracted,
                   Forall2 (fun subshape records =>
                              Images.extract_ppt_images_from_shape
                                subshape slide_index = Ok records)
                           shapes extracted
                   /\ rest = concat extracted
             | Gets Missing =>
                 rest = fallback_part shape slide_index
                 /\ Forall (without_size slide_index) rest
                 /\ List.length rest <= 1
             | Fails _ => False
             end
  | Raise e => readable shape = false /\ escaped e
  end.
Proof.
  pose proof (ImagesFacts.extract_cases slide_index shape) as Hc.
  destruct (Images.extract_ppt_images_from_shape shape slide_index)
    as [images|e] eqn:He; [|exact Hc].
  destruct Hc as [Hr Hon]. split; [exact Hr|]. split; [exact Hon|].
  rewrite ImagesFacts.unfold_extract in He.
  pose proof (ImagesFacts.picture_images_cases shape slide_index) as Hp.
  destruct (Images.picture_images shape slide_index) as [picture|];
    [|discriminate He].
  destruct Hp as [_ ->]. simpl in He.
  destruct (shape_shapes shape) as [[|shapes]|msg]; [| |discriminate He].
  - injection He as <-. eexists. split; [reflexivity|].
    rewrite <- ImagesFacts.blip_images_fallback.
    split; [reflexivity | apply ImagesFacts.blip_images_without_size].
  - destruct (mapM _ shapes) as [extracted|] eqn:Hm; [|discriminate He].
    simpl in He. injection He as <-. eexists. split; [reflexivity|].
    exists extracted. split; [|reflexivity].
    now apply LoopFacts.mapM_Ok in Hm.
Qed.

(** A shape of a type python-pptx does not recognise stops the
    flattener, alone and inside a group. *)
Example unrecognised_shape_escapes :
  Images.extract_ppt_images_from_shape Samples.unrecognised_shape 1
  = Raise (OtherError "Shape instance of unrecognized shape type")
  /\ Images.extract_images Samples.no_backend
       (Samples.deck [{| slide_shapes := [Samples.picture_shape;
                                          Samples.unrecognised_shape];
                         slide_rels := [] |}])
     = Raise (OtherError "Shape instance of unrecognized shape type").
Proof. split; vm_compute; reflexivity. Qed.

(** ** Text records of a slide deck *)

Module TextFacts.
Import PyStr PyStrFacts LoopFacts Text.

(** *** The de-duplication loop *)

Lemma pptx_run_data_text run rd :
  pptx_run_data run = Ok rd -> rd_text rd = run_text run.
Proof.
  unfold pptx_run_data.
  destruct (match run_font run with Some _ => _ | None => _ end);
    [|discriminate].
  simpl. now intros [= <-].
Qed.

Lemma run_records_text runs rds :
  Forall2 (fun run rd => pptx_run_data run = Ok rd) runs rds ->
  map rd_text rds = map run_text runs.
Proof.
  induction 1 as [|run rd runs rds H _ IH]; simpl; [reflexivity|].
  now rewrite (pptx_run_data_text run rd H), IH.
Qed.

Lemma pptx_para_cases para l :
  pptx_para para = Ok l ->
  if nonempty (trimmed_text para)
  then exists p, l = [p] /\ paragraph_record para p
  else l = [].
Proof.
  unfold pptx_para, trimmed_text.
  destruct (mapM pptx_run_data (tp_runs para)) as [runs|] eqn:Hr;
    [|discriminate].
  simpl. apply mapM_Ok in Hr.
  destruct (nonempty (strip (tp_text para))); intros [= <-];
    [|reflexivity].
  eexists. split; [reflexivity|].
  split; [reflexivity|]. split; [reflexivity|]. split; [exact Hr|].
  now apply run_records_text.
Qed.

(** The loop with its set of seen texts keeps the first occurrences. *)
Lemma unique_paras_first_occurrences paragraphs : forall kept seen seen_texts,
  (forall t, t ∈ seen_texts <-> t ∈ seen) ->
  Forall2 (fun para l => pptx_para para = Ok l) paragraphs kept ->
  Forall2 paragraph_record (first_occurrences seen paragraphs)
          (unique_paras seen_texts (concat kept)).
Proof.
  induction paragraphs as [|para rest IH]; intros kept seen seen_texts Hs H;
    inversion H as [|? l ? kept' Hp Hrest]; subst; simpl; [constructor|].
  apply pptx_para_cases in Hp.
  destruct (nonempty (trimmed_text para)); simpl.
  - destruct Hp as (p & -> & Hrec). simpl.
    assert (Htext : sp_text p = trimmed_text para) by apply Hrec.
    destruct (decide (sp_text p ∈ seen_texts)) as [Hin|Hin].
    + rewrite bool_decide_eq_true_2 by (apply Hs; now rewrite <- Htext).
      simpl. now apply IH.
    + rewrite bool_decide_eq_false_2
        by (intros Hin'; apply Hin, Hs; now rewrite Htext).
      simpl. constructor; [exact Hrec|]. apply IH; [|exact Hrest].
      intros t. rewrite elem_of_union, elem_of_singleton, elem_of_cons, Hs.
      now rewrite Htext.
  - subst l. simpl. now apply IH.
Qed.

(** The first occurrences have distinct texts, none of them seen
    before. *)
Lemma first_occurrences_distinct paragraphs : forall seen,
  NoDup (map trimmed_text (first_occurrences seen paragraphs))
  /\ forall t, t ∈ map trimmed_text (first_occurrences seen paragraphs) ->
               t ∉ seen.
Proof.
  induction paragraphs as [|para rest IH]; intros seen; simpl.
  - split; [constructor|]. intros t Ht. now apply elem_of_nil in Ht.
  - destruct (nonempty (trimmed_text para)); simpl; [|apply IH].
    destruct (bool_decide_reflect (trimmed_text para ∈ seen)) as [Hin|Hin];
      simpl; [apply IH|].
    destruct (IH (trimmed_text para :: seen)) as [Hnd Hnew]. split.
    + apply NoDup_cons. split; [|exact Hnd].
      intros Ht. apply (Hnew _ Ht). left.
    + intros t Ht. apply elem_of_cons in Ht as [->|Ht]; [exact Hin|].
      intros Hs. apply (Hnew _ Ht). now right.
Qed.

Lemma first_occurrences_texts paragraphs : forall seen,
  Forall (fun t => trimmed t /\ t <> "")
         (map trimmed_text (first_occurrences seen paragraphs)).
Proof.
  induction paragraphs as [|para rest IH]; intros seen; simpl; [constructor|].
  destruct (nonempty (trimmed_text para)) eqn:Hn; simpl; [|apply IH].
  destruct (bool_decide (trimmed_text para ∈ seen)); simpl; [apply IH|].
  constructor; [|apply IH].
  split; [apply strip_trimmed | now apply nonempty_true].
Qed.

Lemma paragraph_records_texts firsts unique :
  Forall2 paragraph_record firsts unique ->
  map sp_text unique = map trimmed_text firsts.
Proof.
  induction 1 as [|para p firsts unique H _ IH]; simpl; [reflexivity|].
  destruct H as [-> _]. now rewrite IH.
Qed.

(** *** Shapes *)

(** A shape is kept exactly when it resolves to a text that is not
    empty, and then its record is the one of the specification. *)
Lemma pptx_shape_data_cases shape sd :
  pptx_shape_data shape = Ok sd ->
  has_text sd = survives shape
  /\ (survives shape = true -> shape_record shape sd).
Proof.
  unfold pptx_shape_data, survives, shape_record, resolved_text, has_text.
  destruct (shape_text_frame shape) as [|[text_frame|]].
  - destruct (shape_text shape) as [|text]; [intros [= <-]; now split|].
    destruct text as [|c text]; intros [= <-]; simpl; [now split|].
    split; [reflexivity|]. intros _. now repeat split.
  - destruct (mapM pptx_para (tf_paragraphs text_frame)) as [kept|] eqn:Hk;
      [|discriminate].
    simpl. intros [= <-]. simpl. apply mapM_Ok in Hk.
    pose proof (unique_paras_first_occurrences
                  (tf_paragraphs text_frame) kept [] ∅) as Hu.
    assert (Hrec : Forall2 paragraph_record
                     (first_occurrences [] (tf_paragraphs text_frame))
                     (unique_paras ∅ (concat kept))).
    { apply Hu; [|exact Hk]. intros t. split; intros Ht.
      - now apply not_elem_of_empty in Ht.
      - now apply elem_of_nil in Ht. }
    rewrite (paragraph_records_texts _ _ Hrec).
    rewrite (strip_join _ (first_occurrences_texts _ [])).
    split; [reflexivity|]. intros _.
    repeat (split; [reflexivity|]). now eexists.
  - destruct (shape_text shape) as [|text]; [intros [= <-]; now split|].
    destruct text as [|c text]; intros [= <-]; simpl; [now split|].
    split; [reflexivity|]. intros _. now repeat split.
Qed.

Lemma shape_records_filter shapes sds :
  Forall2 (fun shape sd => pptx_shape_data shape = Ok sd) shapes sds ->
  Forall2 shape_record (List.filter survives shapes)
          (List.filter has_text sds).
Proof.
  induction 1 as [|shape sd shapes sds H _ IH]; simpl; [constructor|].
  apply pptx_shape_data_cases in H as [-> Hrec].
  destruct (survives shape); [|exact IH].
  constructor; [now apply Hrec | exact IH].
Qed.

Lemma existsb_filter {A} (p : A -> bool) (l : list A) :
  existsb p l = match List.filter p l with [] => false | _ => true end.
Proof.
  induction l as [|x l IH]; simpl; [reflexivity|].
  destruct (p x); [reflexivity | exact IH].
Qed.

(** *** Slides *)

Lemma pptx_slide_cases i slide l :
  pptx_slide i slide = Ok l ->
  if has_survivor (i, slide)
  then exists r, l = [r] /\ slide_record (i, slide) r
  else l = [].
Proof.
  unfold pptx_slide, has_survivor, slide_record. simpl.
  destruct (mapM pptx_shape_data (slide_shapes slide)) as [sds|] eqn:Hs;
    [|discriminate].
  simpl. intros [= <-]. apply mapM_Ok, shape_records_filter in Hs.
  rewrite existsb_filter.
  destruct Hs as [|shape sd shapes items Hrec Hrest]; [reflexivity|].
  eexists. split; [reflexivity|]. eexists. split; [reflexivity|].
  now constructor.
Qed.

Lemma slide_records_filter (l : list (nat * Slide)) per_slide :
  Forall2 (fun p records =>
             (let '(i, slide) := p in pptx_slide i slide) = Ok records)
          l per_slide ->
  Forall2 slide_record (List.filter has_survivor l) (concat per_slide).
Proof.
  induction 1 as [|[i slide] records l per_slide H _ IH]; simpl;
    [constructor|].
  apply pptx_slide_cases in H.
  destruct (has_survivor (i, slide)).
  - destruct H as (r & -> & Hr). simpl. now constructor.
  - now subst records.
Qed.

(** *** The deck is read without an exception when its fonts are named *)

Lemma pptx_run_data_total run :
  run_named run -> exists r, pptx_run_data run = Ok r.
Proof.
  unfold run_named, pptx_run_data.
  destruct (run_font run) as [font|]; [|simpl; eauto].
  destruct (font_name font); [congruence|]. simpl. eauto.
Qed.

Lemma pptx_shape_data_total shape :
  shape_named shape -> exists sd, pptx_shape_data shape = Ok sd.
Proof.
  unfold shape_named, pptx_shape_data.
  destruct (shape_text_frame shape) as [|[text_frame|]].
  - destruct (shape_text shape); eauto.
  - intros H.
    destruct (mapM_total pptx_para (tf_paragraphs text_frame)) as [kept ->];
      [|simpl; eauto].
    eapply Forall_impl; [exact H|]. intros para Hruns. unfold pptx_para.
    destruct (mapM_total pptx_run_data (tp_runs para)) as [runs ->];
      [|simpl; eauto].
    eapply Forall_impl; [exact Hruns | apply pptx_run_data_total].
  - destruct (shape_text shape); eauto.
Qed.

Lemma pptx_text_total slides :
  fonts_named slides -> exists out, pptx_text slides = Ok out.
Proof.
  intros H. unfold pptx_text.
  destruct (mapM_total (fun '(i, slide) => pptx_slide i slide)
              (enumerate1 slides)) as [per_slide ->]; [|simpl; eauto].
  apply Forall_forall. intros [i slide] Hi.
  apply elem_of_enumerate1 in Hi.
  unfold fonts_named in H. rewrite Forall_forall in H.
  specialize (H slide Hi). unfold pptx_slide.
  destruct (mapM_total pptx_shape_data (slide_shapes slide)) as [sds ->];
    [|simpl; eauto].
  eapply Forall_impl; [exact H | apply pptx_shape_data_total].
Qed.

End TextFacts.

(** C7: slide-deck text extraction returns for every deck in which
    every font object has a name.  What it returns is one record for
    each slide that has a surviving shape, in slide order and with the
    number of the slide, a slide with no surviving shape having no
    record; the record of a slide lists its surviving shapes in order,
    a shape surviving exactly when the text it resolves to is not empty;
    the record of a shape with a text container has one paragraph record
    for each first occurrence of a non-empty trimmed text, in order,
    with that text, the alignment and the runs of that first occurrence,
    and its text is these texts joined by single spaces; the record of
    another shape has its own trimmed text and no paragraph entry. *)
Theorem slide_text_records (slides : list Slide) :
  match Text.pptx_text slides with
  | Ok out =>
      Forall2 slide_record (List.filter has_survivor (enumerate1 slides)) out
  | Raise _ => ~ fonts_named slides
  end.
Proof.
  destruct (Text.pptx_text slides) as [out|e] eqn:Hout.
  - unfold Text.pptx_text in Hout.
    destruct (mapM _ (enumerate1 slides)) as [per_slide|] eqn:Hm;
      [|discriminate].
    simpl in Hout. injection Hout as <-.
    apply LoopFacts.mapM_Ok in Hm.
    now apply TextFacts.slide_records_filter.
  - intros H. destruct (TextFacts.pptx_text_total slides H) as [out Hout'].
    congruence.
Qed.

(** The deck of the samples is read, and its second slide, which has no
    text, has no record. *)
Example titled_deck_records :
  fonts_named Samples.titled_deck
  /\ exists first last,
      Text.pptx_text Samples.titled_deck
      = Ok [SlideText 1 [first]; SlideText 3 [last]]
      /\ Text.pptx_shape_data Samples.twice_shape = Ok first
      /\ sd_text last = Has "note".
Proof.
  split.
  - unfold fonts_named, shape_named, run_named, Samples.titled_deck.
    repeat (constructor; simpl); discriminate.
  - eexists _, _. repeat split.
Qed.

(** The scenario of the de-duplication: the text that occurs twice gives
    one paragraph record, with the runs of its first occurrence. *)
Example twice_shape_once :
  Text.pptx_shape_data Samples.twice_shape
  = Ok {| sd_shape_id := PyInt 101;
          sd_left := PyInt 100;
          sd_top := PyInt 100;
          sd_width := PyInt 500;
          sd_height := PyInt 200;
          sd_paragraphs :=
            Has [ {| sp_text := "Title"; sp_alignment := PyInt 1;
                     sp_runs :=
                       [ {| rd_text := "Title";
                            rd_font := PyStr "Arial";
                            rd_size := PyNone;
                            rd_bold := PyBool true;
                            rd_italic := PyBool false;
                            rd_underline := PyBool false;
                            rd_color := PyNone;
                            rd_highlight := Missing |} ] |};
                  {| sp_text := "Body"; sp_alignment := PyNone;
                     sp_runs :=
                       [ {| rd_text := "Body";
                            rd_font := PyStr "Arial";
                            rd_size := PyNone;
                            rd_bold := PyBool false;
                            rd_italic := PyBool false;
                            rd_underline := PyBool false;
                            rd_color := PyNone;
                            rd_highlight := Missing |} ] |} ];
          sd_text := Has "Title Body" |}.
Proof. vm_compute. reflexivity. Qed.

(** A flow document with a ragged table and an empty one. *)
Lemma table_records_counts_witness :
  let tables :=
    [ DocTable 1 "DefaultTableStyle" [["a"; "b"; "c"]; ["d"]; []] 3 3;
      DocTable 2 "Grid" [] 0 0 ] in
  Tables.extract_tables Samples.no_backend Samples.ragged_tables = Ok tables
  /\ Forall (table_record_ok Samples.no_backend Samples.ragged_tables)
            tables.
Proof.
  cbv zeta. split; [reflexivity|].
  apply (table_records_counts Samples.no_backend Samples.ragged_tables).
  reflexivity.
Defined.

(** ** Run records *)

(** What flow-document text extraction does hold to: one record per
    paragraph in source order, and in every run record the size 11 when
    the size is absent, false for an unset bold, italic or underline, the
    placeholder font name when the run has no font object or the font no
    [name] attribute, and the placeholder colour when the font, its
    colour or the [rgb] attribute of the colour is missing. *)
Lemma flow_text_defaults (paragraphs : list Paragraph) :
  List.length (Text.docx_text paragraphs) = List.length paragraphs
  /\ forall para run,
      para ∈ paragraphs -> para_runs para = Has (run :: nil) ->
      let r := Text.docx_run_data run in
      Text.docx_text [para]
      = [ParaText {| pd_text := if PyStr.nonempty (para_text para)
                                then PyStr.strip (para_text para) else "";
                     pd_style := match para_style para with
                                 | Has s => Some s
                                 | Missing => None
                                 end;
                     pd_alignment := getattr (para_alignment para) PyNone;
                     pd_runs := [r] |}]
      /\ (set_size run = None -> rd_size r = PyInt 11)
      /\ (run_bold run = PyNone -> rd_bold r = PyBool false)
      /\ (run_italic run = PyNone -> rd_italic r = PyBool false)
      /\ (run_underline run = PyNone -> rd_underline r = PyBool false)
      /\ ((run_font run = None
           \/ exists font, run_font run = Some font /\ font_name font = Missing)
          -> rd_font r = PyStr "DefaultFont")
      /\ (set_color run = None -> rd_color r = PyStr "000000").
Proof.
  split; [apply length_map|].
  intros para run _ Hruns. cbv zeta.
  unfold Text.docx_text, Text.docx_para_data, Text.docx_run_data,
    set_size, set_color. simpl. rewrite Hruns. simpl.
  split; [reflexivity|].
  repeat split.
  - destruct (run_font run) as [font|]; [|reflexivity].
    destruct (font_size font); [|reflexivity].
    destruct (length_truthy _); [discriminate | reflexivity].
  - now intros ->.
  - now intros ->.
  - now intros ->.
  - intros [->|(font & -> & ->)]; reflexivity.
  - destruct (run_font run) as [font|]; [|reflexivity].
    destruct (font_color font) as [color|]; [|reflexivity].
    destruct (rgb color); [reflexivity | discriminate].
Qed.

(** C3: on a run as python-docx presents it when no formatting is set
    (the font is there and its name, size and colour are [None]), flow
    text extraction gives 11 for the size and false for the three flags,
    and [None] for the font name and for the colour: neither placeholder
    is substituted. *)
Theorem flow_run_without_name_keeps_none :
  Text.extract_text Samples.no_backend
    (Samples.flow [Samples.unformatted_paragraph])
  = Ok [ParaText
          {| pd_text := "Hello";
             pd_style := Some "Normal";
             pd_alignment := PyNone;
             pd_runs :=
               [ {| rd_text := "Hello";
                    rd_font := PyNone;
                    rd_size := PyInt 11;
                    rd_bold := PyBool false;
                    rd_italic := PyBool false;
                    rd_underline := PyBool false;
                    rd_color := PyNone;
                    rd_highlight := Has PyNone |} ] |}]
  /\ rd_font (Text.docx_run_data (Samples.unformatted_run "Hello"))
     <> PyStr "DefaultFont"
  /\ Text.pptx_run_data (Samples.unformatted_run "Hello")
     = Ok {| rd_text := "Hello";
             rd_font := PyStr "DefaultFont";
             rd_size := PyNone;
             rd_bold := PyBool false;
             rd_italic := PyBool false;
             rd_underline := PyBool false;
             rd_color := PyNone;
             rd_highlight := Missing |}.
Proof. repeat split. discriminate. Qed.

(** C4 (as stated) fails: for a run in a named font with no size and no
    colour the slide-deck record has [None] where the flow record has 11
    and the placeholder colour, and it has no highlight entry. *)
Lemma run_records_differ :
  Text.pptx_run_data (Samples.arial_run "x" PyNone)
  <> Ok (Text.docx_run_data (Samples.arial_run "x" PyNone))
  /\ (exists r, Text.pptx_run_data (Samples.arial_run "x" PyNone) = Ok r
                /\ rd_size r = PyNone /\ rd_color r = PyNone
                /\ rd_highlight r = Missing)
  /\ rd_size (Text.docx_run_data (Samples.arial_run "x" PyNone)) = PyInt 11
  /\ rd_color (Text.docx_run_data (Samples.arial_run "x" PyNone))
     = PyStr "000000".
Proof.
  split; [discriminate|]. split; [|split; reflexivity].
  eexists. repeat split.
Qed.

(** C4 (amended): for a run the slide-deck path can read, with no font
    object or a font of non-empty name, the slide-deck and the flow
    record have the same text and the same font name; the same size
    when the size is set, and [None] against 11 when it is absent; the
    same colour when the font has a colour exposing [rgb], and [None]
    against the placeholder otherwise; bold, italic and underline
    default to false in both, read from the font of the run in the slide
    deck and from the run itself in the flow document; the slide-deck
    record has no highlight entry. *)
Theorem run_records_compared (run : Run) (slide_run : run_data) :
  Text.pptx_run_data run = Ok slide_run ->
  font_named_or_missing run ->
  let flow_run := Text.docx_run_data run in
  rd_text slide_run = rd_text flow_run
  /\ rd_font slide_run = rd_font flow_run
  /\ match set_size run with
     | Some size => rd_size slide_run = size /\ rd_size flow_run = size
     | None => rd_size slide_run = PyNone /\ rd_size flow_run = PyInt 11
     end
  /\ match set_color run with
     | Some c => rd_color slide_run = c /\ rd_color flow_run = c
     | None => rd_color slide_run = PyNone
               /\ rd_color flow_run = PyStr "000000"
     end
  /\ rd_bold slide_run = if_not_none (font_flag font_bold run) (PyBool false)
  /\ rd_bold flow_run = if_not_none (run_bold run) (PyBool false)
  /\ rd_italic slide_run
     = if_not_none (font_flag font_italic run) (PyBool false)
  /\ rd_italic flow_run = if_not_none (run_italic run) (PyBool false)
  /\ rd_underline slide_run
     = if_not_none (font_flag font_underline run) (PyBool false)
  /\ rd_underline flow_run = if_not_none (run_underline run) (PyBool false)
  /\ rd_highlight slide_run = Missing
  /\ rd_highlight flow_run <> Missing.
Proof.
  unfold Text.pptx_run_data, Text.docx_run_data, font_named_or_missing,
    set_size, set_color, font_flag.
  intros H Hname. cbv zeta.
  destruct (run_font run) as [font|].
  - destruct Hname as (name & Hn & Ht). rewrite Hn in H |- *.
    simpl in H. rewrite Ht in H. injection H as <-. simpl.
    repeat split; try discriminate.
    + destruct (font_size font); [|split; reflexivity].
      destruct (length_truthy _); split; reflexivity.
    + destruct (font_color font) as [color|]; [|split; reflexivity].
      destruct (rgb color); split; reflexivity.
  - simpl in H. injection H as <-. simpl.
    repeat split; discriminate.
Qed.

(** A bold run in a named font, with no size and no colour. *)
Lemma run_records_compared_witness :
  let run := Samples.arial_run "x" (PyBool true) in
  let slide_run :=
    {| rd_text := "x";
       rd_font := PyStr "Arial";
       rd_size := PyNone;
       rd_bold := PyBool true;
       rd_italic := PyBool false;
       rd_underline := PyBool false;
       rd_color := PyNone;
       rd_highlight := Missing |} in
  let flow_run := Text.docx_run_data run in
  Text.pptx_run_data run = Ok slide_run
  /\ font_named_or_missing run
  /\ rd_text slide_run = rd_text flow_run
  /\ rd_font slide_run = rd_font flow_run
  /\ (rd_size slide_run = PyNone /\ rd_size flow_run = PyInt 11)
  /\ (rd_color slide_run = PyNone /\ rd_color flow_run = PyStr "000000")
  /\ rd_bold slide_run = PyBool true
  /\ rd_bold flow_run = PyBool true
  /\ rd_italic slide_run = PyBool false
  /\ rd_italic flow_run = PyBool false
  /\ rd_underline slide_run = PyBool false
  /\ rd_underline flow_run = PyBool false
  /\ rd_highlight slide_run = Missing
  /\ rd_highlight flow_run <> Missing.
Proof.
  cbv zeta.
  assert (Hn : font_named_or_missing (Samples.arial_run "x" (PyBool true)))
    by (exists (PyStr "Arial"); split; reflexivity).
  split; [reflexivity|]. split; [exact Hn|].
  exact (run_records_compared (Samples.arial_run "x" (PyBool true)) _
           eq_refl Hn).
Defined.

(** ** Further properties of the four operations *)

Module DispatchFacts.
Import LoopFacts.

Lemma mapM_Raise {A B} (f : A -> result B) (l : list A) (e : exn) :
  mapM f l = Raise e -> exists x, x ∈ l /\ f x = Raise e.
Proof.
  induction l as [|x l IH]; simpl; [discriminate|].
  destruct (f x) as [y|e'] eqn:Hx; simpl.
  - destruct (mapM f l) as [ys|e'']; simpl; [discriminate|].
    intros [= ->]. destruct (IH eq_refl) as (x' & Hin & Hx').
    exists x'. split; [now right | exact Hx'].
  - intros [= ->]. exists x. split; [left | exact Hx].
Qed.

Lemma getitem_raise document i e :
  Text.getitem document i = Raise e -> exists msg, e = IndexError msg.
Proof.
  unfold Text.getitem. destruct (nth_error _ _); [discriminate|].
  intros [= <-]. eauto.
Qed.

Lemma mupdf_text_raise document n e :
  Text.mupdf_text document n = Raise e -> exists msg, e = IndexError msg.
Proof.
  unfold Text.mupdf_text.
  destruct (mapM _ (seq 0 n)) as [per_page|e'] eqn:Hm; [discriminate|].
  simpl. intros [= ->]. apply mapM_Raise in Hm as (i & _ & Hi).
  destruct (Text.getitem document i) as [page|e''] eqn:Hg; [discriminate|].
  simpl in Hi. injection Hi as ->. now apply getitem_raise in Hg.
Qed.

Lemma pptx_run_data_raise run e :
  Text.pptx_run_data run = Raise e -> exists msg, e = AttributeError msg.
Proof.
  unfold Text.pptx_run_data. destruct (run_font run) as [font|]; simpl;
    [|discriminate].
  destruct (font_name font); simpl; [|discriminate].
  intros [= <-]. eauto.
Qed.

Lemma pptx_para_raise para e :
  Text.pptx_para para = Raise e -> exists msg, e = AttributeError msg.
Proof.
  unfold Text.pptx_para.
  destruct (mapM _ (tp_runs para)) as [runs|e'] eqn:Hm; [discriminate|].
  simpl. intros [= ->]. apply mapM_Raise in Hm as (run & _ & Hr).
  now apply pptx_run_data_raise in Hr.
Qed.

Lemma pptx_shape_data_raise shape e :
  Text.pptx_shape_data shape = Raise e -> exists msg, e = AttributeError msg.
Proof.
  unfold Text.pptx_shape_data.
  destruct (shape_text_frame shape) as [|[text_frame|]].
  - destruct (shape_text shape); discriminate.
  - destruct (mapM _ (tf_paragraphs text_frame)) as [ps|e'] eqn:Hm;
      [discriminate|].
    simpl. intros [= ->]. apply mapM_Raise in Hm as (para & _ & Hp).
    now apply pptx_para_raise in Hp.
  - destruct (shape_text shape); discriminate.
Qed.

Lemma pptx_text_raise slides e :
  Text.pptx_text slides = Raise e -> exists msg, e = AttributeError msg.
Proof.
  unfold Text.pptx_text.
  destruct (mapM _ (enumerate1 slides)) as [l|e'] eqn:Hm; [discriminate|].
  simpl. intros [= ->]. apply mapM_Raise in Hm as ([i slide] & _ & Hs).
  unfold Text.pptx_slide in Hs.
  destruct (mapM _ (slide_shapes slide)) as [sds|e'] eqn:Hm'; [discriminate|].
  simpl in Hs. injection Hs as ->.
  apply mapM_Raise in Hm' as (shape & _ & Hd).
  now apply pptx_shape_data_raise in Hd.
Qed.

Lemma mupdf_pages_raise document indices : forall st e,
  Links.mupdf_pages document indices st = Raise e ->
  exists msg, e = IndexError msg.
Proof.
  induction indices as [|i rest IH]; simpl; intros st e; [discriminate|].
  destruct (Text.getitem document i) as [page|e'] eqn:Hg; simpl.
  - apply IH.
  - intros [= ->]. now apply getitem_raise in Hg.
Qed.

Lemma mupdf_links_raise document n e :
  Links.mupdf_links document n = Raise e -> exists msg, e = IndexError msg.
Proof.
  unfold Links.mupdf_links.
  destruct (Links.mupdf_pages _ _ _) as [st|e'] eqn:Hm; [discriminate|].
  simpl. intros [= ->]. now apply mupdf_pages_raise in Hm.
Qed.

Lemma mupdf_images_raise document n e :
  Images.mupdf_images document n = Raise e -> exists msg, e = IndexError msg.
Proof.
  unfold Images.mupdf_images.
  destruct (mapM _ (seq 0 n)) as [per_page|e'] eqn:Hm; [discriminate|].
  simpl. intros [= ->]. apply mapM_Raise in Hm as (i & _ & Hi).
  destruct (Text.getitem document i) as [page|e''] eqn:Hg; [discriminate|].
  simpl in Hi. injection Hi as ->. now apply getitem_raise in Hg.
Qed.

Lemma pptx_images_raise slides e :
  Images.pptx_images slides = Raise e -> escaped e.
Proof.
  unfold Images.pptx_images.
  destruct (mapM _ (enumerate1 slides)) as [per_slide|e'] eqn:Hm;
    [discriminate|].
  simpl. intros [= ->]. apply mapM_Raise in Hm as ([i slide] & _ & Hi).
  destruct (mapM _ (slide_shapes slide)) as [per_shape|e'] eqn:Hs;
    [discriminate|].
  simpl in Hi. injection Hi as ->.
  apply mapM_Raise in Hs as (shape & _ & Hshape).
  pose proof (ImagesFacts.extract_cases i shape) as Hc.
  rewrite Hshape in Hc. apply Hc.
Qed.

End DispatchFacts.

(** X1: each operation raises its "unsupported file type" error exactly
    when none of the markers it probes is there: an exception coming out
    of a strategy is never that error, and no other outcome stands for a
    handle without marker. *)
Theorem unsupported_exactly_without_marker (env : Env) (document : Document) :
  (Text.extract_text env document = Raise Text.unsupported
   <-> first_match (text_order env document) = None)
  /\ (Links.extract_links env document = Raise Links.unsupported
      <-> first_match (text_order env document) = None)
  /\ (Images.extract_images env document = Raise Images.unsupported
      <-> first_match (images_order env document) = None)
  /\ (Tables.extract_tables env document = Raise Tables.unsupported
      <-> first_match (tables_order document) = None).
Proof.
  unfold Text.extract_text, Links.extract_links, Images.extract_images,
    Tables.extract_tables, text_order, images_order, tables_order.
  repeat split;
    destruct (fitz env), (doc_page_count document) as [|n],
      (doc_pages document), (doc_paragraphs document),
      (doc_inline_shapes document), (doc_tables document),
      (doc_slides document) as [|slides];
    simpl; try reflexivity; try discriminate; intros H; exfalso;
    first
      [ apply DispatchFacts.mupdf_text_raise in H as [? H]; discriminate H
      | apply DispatchFacts.pptx_text_raise in H as [? H]; discriminate H
      | apply DispatchFacts.mupdf_links_raise in H as [? H]; discriminate H
      | apply DispatchFacts.mupdf_images_raise in H as [? H]; discriminate H
      | apply DispatchFacts.pptx_images_raise in H as [? [H|H]];
        discriminate H ].
Qed.

Module MoreTablesFacts.
Import Tables LoopFacts TablesFacts.

Lemma enumerate1_range {A} (l : list A) i x :
  (i, x) ∈ enumerate1 l -> 1 <= i <= List.length l.
Proof.
  unfold enumerate1. rewrite list_elem_of_In. intros H.
  apply in_combine_l, in_seq in H. lia.
Qed.

Lemma indices_snoc (tables : list table_record) r :
  map table_index_of tables = map Some (seq 1 (List.length tables)) ->
  table_index_of r = Some (S (List.length tables)) ->
  map table_index_of (tables ++ [r])
  = map Some (seq 1 (List.length (tables ++ [r]))).
Proof.
  intros Hi Hr. rewrite map_app, length_app. simpl.
  replace (List.length tables + 1) with (S (List.length tables)) by lia.
  rewrite seq_S, map_app, Hi, Hr. reflexivity.
Qed.

(** What the slide loop keeps true of (table_counter, tables). *)
Lemma pptx_shape_step_numbered slides i shape st :
  1 <= i <= List.length slides ->
  (fst st = S (List.length (snd st))
   /\ map table_index_of (snd st)
      = map Some (seq 1 (List.length (snd st)))
   /\ Forall (slide_table_ok slides) (snd st)) ->
  let st' := shape_step i st shape in
  fst st' = S (List.length (snd st'))
  /\ map table_index_of (snd st')
     = map Some (seq 1 (List.length (snd st')))
  /\ Forall (slide_table_ok slides) (snd st').
Proof.
  intros Hi (Hc & Hn & Hok). destruct st as [counter tables].
  simpl in *. subst counter. unfold shape_step.
  destruct (shape_grid shape) as [[|row rows]|]; simpl; auto.
  repeat split.
  - rewrite length_app. simpl. lia.
  - now apply indices_snoc.
  - apply Forall_app. split; [exact Hok|].
    constructor; [|constructor].
    exists (S (List.length tables)), i, (row :: rows).
    rewrite <- columns_first_row_width. repeat split; try lia.
    discriminate.
Qed.

Lemma pptx_tables_numbered slides :
  map table_index_of (pptx_tables slides)
  = map Some (seq 1 (List.length (pptx_tables slides)))
  /\ Forall (slide_table_ok slides) (pptx_tables slides).
Proof.
  unfold pptx_tables.
  pose proof (fold_left_invariant slide_step
    (fun st => fst st = S (List.length (snd st))
               /\ map table_index_of (snd st)
                  = map Some (seq 1 (List.length (snd st)))
               /\ Forall (slide_table_ok slides) (snd st))
    (enumerate1 slides)) as H.
  destruct (H) with (s := (1, @nil table_record)) as (_ & Hn & Hok).
  - intros st [i slide] Hin Hst. unfold slide_step. simpl.
    apply enumerate1_range in Hin.
    apply (fold_left_invariant (shape_step i)
      (fun st => fst st = S (List.length (snd st))
                 /\ map table_index_of (snd st)
                    = map Some (seq 1 (List.length (snd st)))
                 /\ Forall (slide_table_ok slides) (snd st)));
      [|exact Hst].
    intros st' shape _ Hst'.
    now apply (pptx_shape_step_numbered slides i shape st').
  - simpl. repeat split. constructor.
  - split; assumption.
Qed.

Lemma docx_tables_numbered (tables : list Table) :
  Forall2 doc_table_of tables (docx_tables tables)
  /\ map table_index_of (docx_tables tables)
     = map Some (seq 1 (List.length tables)).
Proof.
  unfold docx_tables, enumerate1.
  generalize 1 as start.
  induction tables as [|table tables IH]; intros start; simpl.
  - split; constructor.
  - destruct (IH (S start)) as [IH1 IH2]. split.
    + constructor; [|exact IH1].
      exists start. unfold docx_table, grid.
      rewrite columns_first_row_width, length_map.
      f_equal.
      destruct (table_rows table); simpl; [reflexivity | apply length_map].
    + now rewrite IH2.
Qed.

End MoreTablesFacts.

(** X2: in both container formats the [table_index] values of the
    records are 1, 2, 3, ... in output order.  A flow document gives one
    record per table in source order, an empty table included (0 rows, 0
    columns); a slide deck gives no record for an empty grid and spends
    no index on it, and every record it gives names a slide of the deck
    and the fixed style. *)
Theorem table_indices_consecutive
    (tables : list Table) (slides : list Slide) :
  (Forall2 doc_table_of tables (Tables.docx_tables tables)
   /\ map table_index_of (Tables.docx_tables tables)
      = map Some (seq 1 (List.length tables)))
  /\ (map table_index_of (Tables.pptx_tables slides)
      = map Some (seq 1 (List.length (Tables.pptx_tables slides)))
      /\ Forall (slide_table_ok slides) (Tables.pptx_tables slides)).
Proof.
  split.
  - apply MoreTablesFacts.docx_tables_numbered.
  - apply MoreTablesFacts.pptx_tables_numbered.
Qed.

Module PageTablesFacts.
Import Tables TablesFacts.

(** The loop over the pages of pdfplumber, numbered from [i + 1]: it
    reads the pages before the first failure and keeps their grids. *)
Lemma plumber_tables_read pages : forall i,
  exists k,
    k <= List.length pages
    /\ Forall (fun page => exists grid, pl_table page = Ok grid)
              (firstn k pages)
    /\ Forall2 page_table_record
               (List.filter has_grid
                            (combine (seq (i + 1) k) (firstn k pages)))
               (fst (plumber_tables i pages))
    /\ match nth_error pages k with
       | None => snd (plumber_tables i pages) = None
       | Some page =>
           exists e, pl_table page = Raise e
                     /\ snd (plumber_tables i pages) = Some e
       end.
Proof.
  induction pages as [|page rest IH]; intros i.
  - exists 0. simpl. split; [lia|]. repeat split; constructor.
  - simpl. destruct (pl_table page) as [table_data|e] eqn:Hp.
    + destruct (IH (S i)) as (k & Hk & Hread & Htabs & Hend).
      destruct (plumber_tables (S i) rest) as [recs raised].
      simpl in Htabs, Hend. exists (S k). simpl.
      split; [lia|]. split; [constructor; eauto|]. split; [|exact Hend].
      replace (S (i + 1)) with (S i + 1) by lia.
      assert (Hg : page_grid page
                   = match table_data with
                     | Some (row :: rows) => Some (row :: rows)
                     | _ => None
                     end) by (unfold page_grid; now rewrite Hp).
      unfold has_grid at 1. simpl. rewrite Hg.
      destruct table_data as [[|row rows]|]; simpl; try exact Htabs.
      constructor; [|exact Htabs].
      exists (row :: rows). split; [exact Hg|].
      now rewrite <- columns_first_row_width.
    + exists 0. simpl. split; [lia|]. split; [constructor|].
      split; [constructor|]. now exists e.
Qed.

Lemma pdf_tables_answer env :
  exists tables warnings,
    pdf_tables env = tables ++ warnings
    /\ page_stream_answer env tables warnings.
Proof.
  unfold pdf_tables, page_stream_answer.
  destruct (pdfplumber env) as [[pages|e]|].
  - destruct (plumber_tables_read pages 0) as (k & Hk & Hread & Htabs & Hend).
    assert (Htables : tables_of_pages pages k (fst (plumber_tables 0 pages))).
    { unfold tables_of_pages, enumerate1.
      now rewrite length_firstn, Nat.min_l by exact Hk. }
    clear Htabs. destruct (plumber_tables 0 pages) as [recs raised].
    simpl in *. destruct (nth_error pages k) as [page|] eqn:Hn.
    + destruct Hend as (e & Hp & ->).
      exists recs, [error_warning e].
      split; [now destruct recs|]. exists k. rewrite Hn.
      split; [exact Hk|]. split; [exact Hread|]. split; [exact Htables|].
      now exists e.
    + subst raised. destruct recs as [|r recs].
      * exists [], [Warning "No tables found with pdfplumber."].
        split; [reflexivity|]. exists k. rewrite Hn. auto.
      * exists (r :: recs), []. rewrite app_nil_r.
        split; [reflexivity|]. exists k. rewrite Hn. auto.
  - exists [], [error_warning e]. now split.
  - eexists [], [_]. split; [reflexivity|]. now split.
Qed.

Lemma answer_nonempty env tables warnings :
  page_stream_answer env tables warnings -> tables ++ warnings <> [].
Proof.
  unfold page_stream_answer.
  destruct (pdfplumber env) as [[pages|e]|].
  - intros (k & _ & _ & _ & H).
    destruct (nth_error pages k) as [page|].
    + destruct H as (e & _ & ->). intros Heq.
      now apply app_eq_nil in Heq as [_ Heq].
    + destruct tables; [now subst warnings | discriminate].
  - now intros [-> ->].
  - now intros [-> ->].
Qed.

End PageTablesFacts.

(** X3: for a handle that table extraction takes for a page-stream
    document the result is never an exception.  It is the table records
    of the pages pdfplumber read before its first failure, one for each
    page with a grid that is not empty, in page order and with the
    number of the page, followed by the warnings: the error warning with
    the text of the exception when pdfplumber failed on a page or could
    not open the file, the no-tables warning when every page was read
    and none had a grid, the not-installed warning alone when pdfplumber
    is missing, and no warning when every page was read and a table was
    found. *)
Theorem page_stream_tables_or_warning (env : Env) (document : Document) :
  first_match (tables_order document) = Some PageStream ->
  exists tables warnings,
    Tables.extract_tables env document = Ok (tables ++ warnings)
    /\ page_stream_answer env tables warnings
    /\ tables ++ warnings <> [].
Proof.
  unfold tables_order, Tables.extract_tables. simpl. intros H.
  destruct (doc_tables document); [|discriminate H].
  destruct (doc_slides document); [|discriminate H].
  destruct (hasattr (doc_page_count document)); [|discriminate H].
  destruct (PageTablesFacts.pdf_tables_answer env)
    as (tables & warnings & -> & Hanswer).
  exists tables, warnings. split; [reflexivity|]. split; [exact Hanswer|].
  now apply PageTablesFacts.answer_nonempty in Hanswer.
Qed.

(** pdfplumber fails on the third page after a table on the second. *)
Lemma page_stream_tables_or_warning_witness :
  let document := MoreSamples.mupdf [MoreSamples.blank_page 0] in
  first_match (tables_order document) = Some PageStream
  /\ exists tables warnings,
      Tables.extract_tables MoreSamples.plumber_fails_late document
      = Ok (tables ++ warnings)
      /\ page_stream_answer MoreSamples.plumber_fails_late tables warnings
      /\ tables ++ warnings <> [].
Proof.
  cbv zeta. split; [reflexivity|].
  apply (page_stream_tables_or_warning MoreSamples.plumber_fails_late
           (MoreSamples.mupdf [MoreSamples.blank_page 0])).
  reflexivity.
Defined.

(** What the sample gives: the table of the second page, then the
    warning for the failure on the third. *)
Example page_stream_tables_sample :
  Tables.extract_tables MoreSamples.plumber_fails_late
    (MoreSamples.mupdf [MoreSamples.blank_page 0])
  = Ok [PageTable 2 "N/A" [[Some "a"; None]; [Some "b"]] 2 2;
        Warning "Error extracting tables with pdfplumber: bad page"].
Proof. reflexivity. Qed.

(** ** Strings: substrings, whitespace and trimming *)

Module PyTextFacts.
Import PyStr PyStrFacts PyText.

Lemma append_assoc (a b c : string) : (a +:+ b) +:+ c = a +:+ b +:+ c.
Proof.
  induction a as [|x a IH]; [reflexivity|].
  change (String x ((a +:+ b) +:+ c) = String x (a +:+ b +:+ c)).
  now f_equal.
Qed.

Lemma append_nil_r (a : string) : a +:+ "" = a.
Proof.
  induction a as [|x a IH]; [reflexivity|].
  change (String x (a +:+ "") = String x a). now f_equal.
Qed.

Lemma prefix_spec p s :
  String.prefix p s = true <-> exists after, s = p +:+ after.
Proof.
  revert s. induction p as [|a p IH]; intros s.
  - split; [intros _; now exists s | intros _; now destruct s].
  - destruct s as [|b s]; simpl.
    + split; [discriminate | intros [x Hx]; discriminate].
    + destruct (ascii_dec a b) as [->|Hne].
      * rewrite IH. split; intros [after H]; exists after; [now rewrite H|].
        now injection H.
      * split; [discriminate|]. intros [after [= H _]]. congruence.
Qed.

Lemma is_substring_cons needle c s :
  is_substring needle s -> is_substring needle (String c s).
Proof. intros (before & after & ->). now exists (String c before), after. Qed.

(** [needle in s] of Python is the substring relation. *)
Lemma contains_spec needle s :
  contains needle s = true <-> is_substring needle s.
Proof.
  induction s as [|c s IH]; cbn [contains].
  - rewrite orb_false_r, prefix_spec. split.
    + intros [after H]. now exists "", after.
    + intros ([|x before] & after & H); [now exists after | discriminate].
  - rewrite orb_true_iff, prefix_spec, IH. split.
    + intros [[after H]|H]; [now exists "", after | now apply is_substring_cons].
    + intros ([|x before] & after & H).
      * left. now exists after.
      * right. injection H as _ H. now exists before, after.
Qed.

Lemma all_chars_app test a b :
  all_chars test (a +:+ b) = all_chars test a && all_chars test b.
Proof.
  induction a as [|c a IH]; simpl; [reflexivity|].
  now rewrite IH, andb_assoc.
Qed.

Lemma rstrip_cons_nonspace c r :
  isspace c = false -> rstrip (String c r) = String c (rstrip r).
Proof. intros H. simpl. rewrite H. now destruct (rstrip r). Qed.

Lemma rstrip_nonspace_app n p :
  no_space n = true -> rstrip (n +:+ p) = n +:+ rstrip p.
Proof.
  unfold no_space. induction n as [|c n IH]; simpl; [reflexivity|].
  intros H. apply andb_true_iff in H as [Hc Hn].
  apply negb_true_iff in Hc.
  change (rstrip (String c (n +:+ p)) = String c (n +:+ rstrip p)).
  rewrite rstrip_cons_nonspace by exact Hc. now rewrite IH.
Qed.

Lemma rstrip_app_nonempty a b :
  rstrip b <> "" -> rstrip (a +:+ b) = a +:+ rstrip b.
Proof.
  intros Hb. induction a as [|c r IH]; [reflexivity|].
  change (rstrip (String c (r +:+ b)) = String c (r +:+ rstrip b)).
  cbn [rstrip]. rewrite IH.
  destruct (r +:+ rstrip b) eqn:E; [|reflexivity].
  exfalso. apply (app_nonempty_r r (rstrip b) Hb E).
Qed.

Lemma lstrip_app_head a c r :
  isspace c = false -> lstrip (a +:+ String c r) = lstrip a +:+ String c r.
Proof.
  intros Hc. induction a as [|x a IH]; simpl; [now rewrite Hc|].
  destruct (isspace x); [exact IH | reflexivity].
Qed.

(** Trimming keeps an occurrence of a word without whitespace. *)
Lemma strip_keeps_substring needle s :
  needle <> "" -> no_space needle = true ->
  is_substring needle s -> is_substring needle (strip s).
Proof.
  intros Hne Hns (before & after & ->). unfold strip.
  assert (Hr : rstrip (needle +:+ after) = needle +:+ rstrip after)
    by now apply rstrip_nonspace_app.
  rewrite rstrip_app_nonempty, Hr.
  - destruct needle as [|c n]; [congruence|].
    unfold no_space in Hns. simpl in Hns.
    apply andb_true_iff in Hns as [Hc _]. apply negb_true_iff in Hc.
    change (String c n +:+ rstrip after) with (String c (n +:+ rstrip after)).
    rewrite lstrip_app_head by exact Hc.
    now exists (lstrip before), (rstrip after).
  - rewrite Hr. destruct needle; [congruence | discriminate].
Qed.

End PyTextFacts.

Module MoreLinksFacts.
Import PyStr PyStrFacts PyText PyTextFacts Links LoopFacts.

Lemma strip_prefix_spec p s r : strip_prefix p s = Some r -> s = p +:+ r.
Proof.
  revert s. induction p as [|a p IH]; intros [|b s]; simpl;
    try discriminate; try (now intros [= <-]).
  destruct (Ascii.eqb a b) eqn:E; [|discriminate].
  apply Ascii.eqb_eq in E. subst b. intros H. now rewrite (IH _ H).
Qed.

Lemma span_nonspace_spec s :
  s = fst (span_nonspace s) +:+ snd (span_nonspace s)
  /\ no_space (fst (span_nonspace s)) = true.
Proof.
  unfold no_space. induction s as [|c s [IH1 IH2]]; [split; reflexivity|].
  cbn [span_nonspace]. destruct (isspace c) eqn:Ec; [split; reflexivity|].
  destruct (span_nonspace s) as [m rest]. cbn [fst snd] in *. split.
  - change (String c s = String c (m +:+ rest)). now f_equal.
  - cbn [all_chars]. now rewrite Ec, IH2.
Qed.

Lemma url_here_spec s url :
  url_here s = Some url -> is_url url /\ exists after, s = url +:+ after.
Proof.
  unfold url_here.
  assert (Hscheme : forall scheme r,
    no_space scheme = true ->
    (scheme = "http://" \/ scheme = "https://") ->
    strip_prefix scheme s = Some r ->
    nonempty (fst (span_nonspace r)) = true ->
    is_url (scheme +:+ fst (span_nonspace r))
    /\ exists after, s = (scheme +:+ fst (span_nonspace r)) +:+ after).
  { intros scheme r Hns Hs Hp Hm.
    apply strip_prefix_spec in Hp.
    destruct (span_nonspace_spec r) as [Hr Hmns]. split.
    - split.
      + exists (fst (span_nonspace r)). split; [now apply nonempty_true|].
        destruct Hs as [->| ->]; auto.
      + unfold no_space in *. now rewrite all_chars_app, Hns, Hmns.
    - exists (snd (span_nonspace r)). now rewrite append_assoc, <- Hr. }
  destruct (strip_prefix "https://" s) as [r|] eqn:Hs.
  - destruct (nonempty (fst (span_nonspace r))) eqn:Hm.
    + intros [= <-]. now apply (Hscheme "https://" r); auto.
    + destruct (strip_prefix "http://" s) as [r'|] eqn:Hs'; [|discriminate].
      destruct (nonempty (fst (span_nonspace r'))) eqn:Hm'; [|discriminate].
      intros [= <-]. now apply (Hscheme "http://" r'); auto.
  - destruct (strip_prefix "http://" s) as [r'|] eqn:Hs'; [|discriminate].
    destruct (nonempty (fst (span_nonspace r'))) eqn:Hm'; [|discriminate].
    intros [= <-]. now apply (Hscheme "http://" r'); auto.
Qed.

(** Every match is a web address that occurs in the text. *)
Lemma findall_from_spec s : forall skip,
  Forall (fun url => is_url url /\ is_substring url s) (findall_from skip s).
Proof.
  induction s as [|c s IH]; intros skip; simpl; [constructor|].
  assert (Htail : forall k,
    Forall (fun url => is_url url /\ is_substring url (String c s))
           (findall_from k s)).
  { intros k. eapply Forall_impl; [apply IH|]. simpl.
    intros url [Hu Hs]. split; [exact Hu | now apply is_substring_cons]. }
  destruct skip as [|k]; [|apply Htail].
  destruct (url_here (String c s)) as [url|] eqn:Hu; [|apply Htail].
  constructor; [|apply Htail].
  apply url_here_spec in Hu as [Hurl [after Hafter]].
  split; [exact Hurl|]. exists "", after. exact Hafter.
Qed.

End MoreLinksFacts.

Module AlternateLinksFacts.
Import PyStr PyStrFacts PyText PyTextFacts Links LoopFacts MoreLinksFacts.

Lemma combine_seq_nth {A} (l : list A) : forall start i x,
  In (i, x) (combine (seq start (List.length l)) l) ->
  start <= i /\ nth_error l (i - start) = Some x.
Proof.
  induction l as [|y l IH]; simpl; intros start i x H; [contradiction|].
  destruct H as [H|H].
  - injection H as <- <-. split; [lia|]. now rewrite Nat.sub_diag.
  - apply IH in H as [Hle Hn]. split; [lia|].
    replace (i - start) with (S (i - S start)) by lia. exact Hn.
Qed.

Lemma enumerate1_nth {A} (l : list A) i x :
  (i, x) ∈ enumerate1 l -> 1 <= i /\ nth_error l (i - 1) = Some x.
Proof.
  unfold enumerate1. rewrite list_elem_of_In. apply combine_seq_nth.
Qed.

Lemma url_records_spec page text :
  Forall (fun r => exists uri, r = PageUrl page uri ""
                               /\ is_url uri /\ is_substring uri text)
         (url_records page text).
Proof.
  unfold url_records, findall_urls. apply Forall_map.
  eapply Forall_impl; [apply findall_from_spec|].
  simpl. intros url [Hu Hs]. eauto.
Qed.

Lemma raw_links_ok env pages :
  pdfplumber env = None ->
  Forall (page_url_ok env pages)
         (flat_map (fun '(i, page) => raw_page_links i page) (enumerate1 pages)).
Proof.
  intros He. apply Forall_flat_map, Forall_forall. intros [i page] Hin.
  apply enumerate1_nth in Hin as [Hi Hn].
  unfold raw_page_links.
  assert (Hok : forall text,
    match pp_extract_text page with
    | Missing => text = Reflow.merge_lines ""
    | Has (Ok raw_text) => text = Reflow.merge_lines raw_text
    | Has (Raise _) => False
    end ->
    Forall (page_url_ok env pages) (url_records i text)).
  { intros text Ht. eapply Forall_impl; [apply url_records_spec|].
    simpl. intros r (uri & -> & Hu & Hs).
    exists i, uri. split; [reflexivity|]. split; [exact Hu|].
    split; [exact Hi|].
    exists text. split; [|exact Hs].
    unfold scanned_text. rewrite He. now exists page. }
  destruct (pp_extract_text page) as [|[raw_text|e]]; [| |constructor];
    now apply Hok.
Qed.

Lemma plumber_links_ok env pages all_pages suffix : forall i,
  pdfplumber env = Some (Ok all_pages) ->
  (forall k p, nth_error suffix k = Some p ->
               nth_error all_pages (i + k) = Some p) ->
  Forall (page_url_ok env pages) (plumber_links i suffix).
Proof.
  induction suffix as [|page rest IH]; intros i He Hsuffix; simpl;
    [constructor|].
  destruct (pl_text_layout page) as [layout|e] eqn:Hl; [|constructor].
  apply Forall_app. split.
  - eapply Forall_impl; [apply url_records_spec|].
    simpl. intros r (uri & -> & Hu & Hs).
    exists (i + 1), uri. split; [reflexivity|]. split; [exact Hu|].
    split; [lia|].
    exists (default "" layout). split; [|exact Hs].
    unfold scanned_text. rewrite He. exists page, layout.
    split; [|split; [exact Hl | reflexivity]].
    replace (i + 1 - 1) with (i + 0) by lia. now apply Hsuffix.
  - apply IH; [exact He|]. intros k p Hk.
    replace (S i + k) with (i + S k) by lia. now apply Hsuffix.
Qed.

Lemma plain_links_ok env pages :
  Forall (page_url_ok env pages) (plain_links env pages).
Proof.
  unfold plain_links.
  destruct (pdfplumber env) as [[pdf_pages|e]|] eqn:He.
  - now apply (plumber_links_ok env pages pdf_pages pdf_pages 0).
  - constructor.
  - now apply raw_links_ok.
Qed.

Lemma docx_links_ok paragraphs :
  Forall (para_link_ok paragraphs) (docx_links paragraphs)
  /\ List.length (docx_links paragraphs)
     = List.length
         (List.filter (fun para => contains "http" (para_text para))
                      paragraphs).
Proof.
  unfold docx_links. split.
  - apply Forall_flat_map, Forall_forall. intros para Hin.
    destruct (contains "http" (para_text para)) eqn:Hc; [|constructor].
    constructor; [|constructor]. exists para.
    split; [exact Hin|]. split; [reflexivity|].
    apply strip_keeps_substring; [discriminate | reflexivity|].
    now apply contains_spec.
  - induction paragraphs as [|para paragraphs IH]; simpl; [reflexivity|].
    destruct (contains "http" (para_text para)); simpl; now rewrite IH.
Qed.

End AlternateLinksFacts.

(** X4: for a handle that link extraction routes to the alternate
    page-stream backend, the result is never an exception and every
    record has an empty [contents], a page number from 1 and a [uri]
    that starts with [http://] or [https://], has at least one further
    character and no whitespace, and occurs in the text that was scanned
    for that page. *)
Theorem alternate_links_are_urls (env : Env) (document : Document) :
  first_match (text_order env document) = Some AlternatePageStream ->
  exists pages links,
    doc_pages document = Has pages
    /\ Links.extract_links env document = Ok links
    /\ Forall (page_url_ok env pages) links.
Proof.
  unfold text_order, Links.extract_links. simpl. intros H.
  destruct (fitz env && hasattr (doc_page_count document)); [discriminate H|].
  destruct (doc_pages document) as [|pages].
  - simpl in H. destruct (hasattr (doc_paragraphs document));
      [discriminate H|].
    destruct (hasattr (doc_slides document)); discriminate H.
  - exists pages, (Links.plain_links env pages).
    split; [reflexivity|]. split; [reflexivity|].
    apply AlternateLinksFacts.plain_links_ok.
Qed.

(** A page naming one address in running text. *)
Lemma alternate_links_are_urls_witness :
  let document := Samples.one_plain_page "see http://a.b/c now" in
  first_match (text_order Samples.no_backend document)
  = Some AlternatePageStream
  /\ exists pages links,
      doc_pages document = Has pages
      /\ Links.extract_links Samples.no_backend document = Ok links
      /\ Forall (page_url_ok Samples.no_backend pages) links.
Proof.
  cbv zeta. split; [reflexivity|].
  apply (alternate_links_are_urls Samples.no_backend
           (Samples.one_plain_page "see http://a.b/c now")).
  reflexivity.
Defined.

(** X5: link extraction on the paragraphs of a flow document gives, in
    source order, exactly one record for each paragraph whose text
    contains [http], without de-duplication; the text and the URL of a
    record are the same string, the trimmed text of the whole paragraph,
    and it still contains [http]. *)
Theorem flow_links_are_paragraphs (paragraphs : list Paragraph) :
  Links.docx_links paragraphs
  = map (fun para => ParaLink (PyStr.strip (para_text para))
                              (PyStr.strip (para_text para)))
        (List.filter (fun para => PyStr.contains "http" (para_text para))
                     paragraphs)
  /\ Forall (fun para =>
               PyText.is_substring "http" (PyStr.strip (para_text para)))
            (List.filter (fun para => PyStr.contains "http" (para_text para))
                         paragraphs).
Proof.
  split.
  - unfold Links.docx_links.
    induction paragraphs as [|para rest IH]; simpl; [reflexivity|].
    destruct (PyStr.contains "http" (para_text para)); simpl; now rewrite IH.
  - apply Forall_forall. intros para Hin.
    apply list_elem_of_In, filter_In in Hin as [_ Hc].
    apply PyTextFacts.strip_keeps_substring; [discriminate | reflexivity|].
    now apply PyTextFacts.contains_spec.
Qed.

(** A paragraph that occurs twice gives two records. *)
Example flow_links_repeat :
  Links.docx_links
    [ {| para_text := " see http://a.b "; para_style := Missing;
         para_alignment := Missing; para_runs := Missing |};
      {| para_text := "no link"; para_style := Missing;
         para_alignment := Missing; para_runs := Missing |};
      {| para_text := " see http://a.b "; para_style := Missing;
         para_alignment := Missing; para_runs := Missing |} ]
  = [ ParaLink "see http://a.b" "see http://a.b";
      ParaLink "see http://a.b" "see http://a.b" ].
Proof. vm_compute. reflexivity. Qed.

Module PdfLinksFacts.
Import PyStr PyStrFacts Links LoopFacts.

Lemma link_step_kept n i st link :
  i < n -> pdf_links_kept n st ->
  let st' := link_step i st link in
  pdf_links_kept n st'
  /\ (forall key, key ∈ fst st -> key ∈ fst st')
  /\ (forall r, r ∈ snd st -> r ∈ snd st')
  /\ (forall uri, link_uri link = Some uri -> uri <> "" ->
                  (i, uri) ∈ fst st').
Proof.
  intros Hi Hst. destruct st as [seen links]. cbv zeta.
  assert (Hsame :
    (forall uri, link_uri link = Some uri -> uri <> "" -> (i, uri) ∈ seen) ->
    pdf_links_kept n (seen, links)
    /\ (forall key, key ∈ fst (seen, links) -> key ∈ fst (seen, links))
    /\ (forall r, r ∈ snd (seen, links) -> r ∈ snd (seen, links))
    /\ (forall uri, link_uri link = Some uri -> uri <> "" ->
                    (i, uri) ∈ fst (seen, links))) by (intros H; auto).
  unfold link_step.
  destruct (nonempty (default "" (link_uri link))) eqn:Hn.
  - destruct (decide ((i, default "" (link_uri link)) ∈ seen)) as [Hin|Hin].
    + apply Hsame. intros uri Hu _. now rewrite Hu in Hin.
    + destruct Hst as [Hok Hseen]. simpl in Hok, Hseen.
      split; [split|split; [|split]]; simpl.
      * apply Forall_app. split; [exact Hok|]. constructor; [|constructor].
        exists (i + 1), (default "" (link_uri link)),
          (default [] (link_from link)),
          (default (PyStr "") (link_kind link)).
        split; [reflexivity|]. split; [now apply nonempty_true | lia].
      * intros j u Hj. apply elem_of_union in Hj as [Hj|Hj].
        -- apply elem_of_singleton in Hj. injection Hj as -> ->.
           eexists _, _. apply elem_of_app. right. left.
        -- destruct (Hseen j u Hj) as (rect & kind & Hr).
           exists rect, kind. apply elem_of_app. now left.
      * intros key Hk. apply elem_of_union. now right.
      * intros r Hr. apply elem_of_app. now left.
      * intros u Hu _. rewrite Hu. simpl. apply elem_of_union. left.
        now apply elem_of_singleton.
  - apply Hsame. intros uri Hu Hne. rewrite Hu in Hn. simpl in Hn.
    apply nonempty_true in Hne. congruence.
Qed.

Lemma link_loop_kept n i links : forall st,
  i < n -> pdf_links_kept n st ->
  let st' := fold_left (link_step i) links st in
  pdf_links_kept n st'
  /\ (forall key, key ∈ fst st -> key ∈ fst st')
  /\ (forall r, r ∈ snd st -> r ∈ snd st')
  /\ (forall link uri, link ∈ links -> link_uri link = Some uri ->
                       uri <> "" -> (i, uri) ∈ fst st').
Proof.
  induction links as [|link links IH]; intros st Hi Hst; cbv zeta; simpl.
  - split; [exact Hst|]. split; [auto|]. split; [auto|].
    intros ? ? Hin. now apply elem_of_nil in Hin.
  - destruct (link_step_kept n i st link Hi Hst) as (Hk & Hs & Hr & Hnew).
    destruct (IH _ Hi Hk) as (Hk' & Hs' & Hr' & Hnew').
    split; [exact Hk'|]. split; [auto|]. split; [auto|].
    intros l uri Hin Hu Hne. apply elem_of_cons in Hin as [->|Hin].
    + apply Hs'. now apply Hnew.
    + now apply (Hnew' l).
Qed.

Lemma mupdf_pages_kept document n indices : forall st st',
  (forall i, i ∈ indices -> i < n) ->
  pdf_links_kept n st ->
  mupdf_pages document indices st = Ok st' ->
  pdf_links_kept n st'
  /\ (forall key, key ∈ fst st -> key ∈ fst st')
  /\ (forall i page link uri,
         i ∈ indices -> nth_error (doc_getitem document) i = Some page ->
         link ∈ page_links page -> link_uri link = Some uri -> uri <> "" ->
         (i, uri) ∈ fst st').
Proof.
  induction indices as [|i rest IH]; simpl; intros st st' Hlt Hst H.
  - injection H as <-. split; [exact Hst|]. split; [auto|].
    intros ? ? ? ? Hin. now apply elem_of_nil in Hin.
  - unfold Text.getitem in H.
    destruct (nth_error (doc_getitem document) i) as [page|] eqn:Hp;
      [|discriminate H].
    simpl in H.
    assert (Hi : i < n) by (apply Hlt; left).
    destruct (link_loop_kept n i (page_links page) st Hi Hst)
      as (Hk & Hs & _ & Hnew).
    destruct (IH _ _ (fun j Hj => Hlt j (list_elem_of_further _ _ _ Hj)) Hk H)
      as (Hk' & Hs' & Hnew').
    split; [exact Hk'|]. split; [auto|].
    intros j page' link uri Hj Hp' Hin Hu Hne.
    apply elem_of_cons in Hj as [->|Hj].
    + apply Hs'. rewrite Hp in Hp'. injection Hp' as <-.
      now apply (Hnew link).
    + now apply (Hnew' j page' link).
Qed.

End PdfLinksFacts.

(** X6: on a PyMuPDF document of [page_count] pages, every link record
    has a non-empty [uri] and a page number from 1 to [page_count] (a
    link without [uri], or with an empty one, gives no record), and no
    address is lost: every link of page [i] (counted from 0) with a
    non-empty [uri] has a record with that [uri] and page [i + 1]. *)
Theorem pdf_links_sound_and_complete
    (env : Env) (document : Document) (page_count : nat)
    (links : list link_record) :
  fitz env = true ->
  doc_page_count document = Has page_count ->
  Links.extract_links env document = Ok links ->
  Forall (pdf_link_ok page_count) links
  /\ forall i page link uri,
      i < page_count ->
      nth_error (doc_getitem document) i = Some page ->
      link ∈ page_links page ->
      link_uri link = Some uri -> uri <> "" ->
      exists rect kind, PdfLink (i + 1) uri rect kind ∈ links.
Proof.
  unfold Links.extract_links. intros -> ->. simpl. unfold Links.mupdf_links.
  destruct (Links.mupdf_pages document (seq 0 page_count) (∅, []))
    as [st|e] eqn:Hm; [|discriminate].
  simpl. intros [= <-].
  destruct (PdfLinksFacts.mupdf_pages_kept document page_count
              (seq 0 page_count) (∅, []) st) as ([Hok Hseen] & _ & Hnew).
  - intros i Hi. apply list_elem_of_In, in_seq in Hi. lia.
  - split; simpl; [constructor|]. intros i uri Hin.
    now apply not_elem_of_empty in Hin.
  - exact Hm.
  - split; [exact Hok|].
    intros i page link uri Hi Hp Hin Hu Hne.
    apply Hseen, (Hnew i page link); try assumption.
    apply list_elem_of_In, in_seq. lia.
Qed.

(** Two pages naming one address three times. *)
Lemma pdf_links_sound_and_complete_witness :
  let links := [ PdfLink 1 "http://a.b" [PyInt 0; PyInt 0] (PyStr "");
                 PdfLink 2 "http://a.b" [PyInt 0; PyInt 0] (PyStr "") ] in
  fitz Samples.fitz_only = true
  /\ doc_page_count LinkSamples.linked_pdf = Has 2
  /\ Links.extract_links Samples.fitz_only LinkSamples.linked_pdf = Ok links
  /\ Forall (pdf_link_ok 2) links
  /\ forall i page link uri,
      i < 2 ->
      nth_error (doc_getitem LinkSamples.linked_pdf) i = Some page ->
      link ∈ page_links page ->
      link_uri link = Some uri -> uri <> "" ->
      exists rect kind, PdfLink (i + 1) uri rect kind ∈ links.
Proof.
  cbv zeta. split; [reflexivity|]. split; [reflexivity|].
  split; [vm_compute; reflexivity|].
  apply (pdf_links_sound_and_complete Samples.fitz_only
           LinkSamples.linked_pdf 2);
    [reflexivity | reflexivity | vm_compute; reflexivity].
Defined.

Module SlideLinksFacts.
Import PyStr PyStrFacts Links LoopFacts.

Lemma trimmed_empty : trimmed "".
Proof. split; reflexivity. Qed.

Lemma shape_link_trimmed shape url text :
  shape_link shape = Some (url, text) -> trimmed url /\ trimmed text.
Proof.
  unfold shape_link.
  destruct (shape_click_action shape) as [[|[click_action|]]|]; try discriminate.
  destruct (truthy _); [|discriminate].
  intros [= <- <-]. split; [apply strip_trimmed|].
  destruct (shape_text shape) as [|t]; [apply trimmed_empty|].
  destruct (nonempty t); [apply strip_trimmed | apply trimmed_empty].
Qed.

Lemma slide_links_kept_weaken b b' st :
  b <= b' -> slide_links_kept b st -> slide_links_kept b' st.
Proof.
  intros Hb [Hok Hseen]. split; [|exact Hseen].
  eapply Forall_impl; [exact Hok|]. simpl.
  intros r (slide & text & url & -> & Hu & Htu & Htt & Hs).
  exists slide, text, url. split; [reflexivity|]. split; [exact Hu|].
  split; [exact Htu|]. split; [exact Htt | lia].
Qed.

Lemma shape_step_kept i st shape :
  1 <= i -> slide_links_kept (S i) st ->
  let st' := shape_step i st shape in
  slide_links_kept (S i) st'
  /\ (forall key, key ∈ fst st -> key ∈ fst st')
  /\ (forall r, r ∈ snd st -> r ∈ snd st')
  /\ (forall url text, shape_link shape = Some (url, text) -> url <> "" ->
                       (url, text) ∈ fst st').
Proof.
  intros Hi Hst. destruct st as [seen links]. cbv zeta.
  assert (Hsame :
    (forall url text, shape_link shape = Some (url, text) -> url <> "" ->
                      (url, text) ∈ seen) ->
    slide_links_kept (S i) (seen, links)
    /\ (forall key, key ∈ fst (seen, links) -> key ∈ fst (seen, links))
    /\ (forall r, r ∈ snd (seen, links) -> r ∈ snd (seen, links))
    /\ (forall url text, shape_link shape = Some (url, text) -> url <> "" ->
                         (url, text) ∈ fst (seen, links)))
    by (intros H; auto).
  unfold shape_step.
  destruct (shape_link shape) as [[url text]|] eqn:Hl;
    [|apply Hsame; discriminate].
  destruct (nonempty url) eqn:Hn; simpl.
  - destruct (bool_decide ((url, text) ∈ seen)) eqn:Hin; simpl.
    + apply bool_decide_eq_true in Hin.
      apply Hsame. now intros ? ? [= <- <-] _.
    + destruct Hst as [Hok Hseen]. simpl in Hok, Hseen.
      destruct (shape_link_trimmed _ _ _ Hl) as [Htu Htt].
      split; [split|split; [|split]]; simpl.
      * apply Forall_app. split; [exact Hok|]. constructor; [|constructor].
        exists i, text, url. split; [reflexivity|].
        split; [now apply nonempty_true|].
        split; [exact Htu|]. split; [exact Htt | lia].
      * intros u t Hk. apply elem_of_union in Hk as [Hk|Hk].
        -- apply elem_of_singleton in Hk. injection Hk as -> ->.
           exists i. apply elem_of_app. right. left.
        -- destruct (Hseen u t Hk) as [slide Hr].
           exists slide. apply elem_of_app. now left.
      * intros key Hk. apply elem_of_union. now right.
      * intros r Hr. apply elem_of_app. now left.
      * intros u t [= <- <-] _. apply elem_of_union. left.
        now apply elem_of_singleton.
  - apply Hsame. intros u t [= <- <-] Hne.
    apply nonempty_true in Hne. congruence.
Qed.

Lemma shape_loop_kept i shapes : forall st,
  1 <= i -> slide_links_kept (S i) st ->
  let st' := fold_left (shape_step i) shapes st in
  slide_links_kept (S i) st'
  /\ (forall key, key ∈ fst st -> key ∈ fst st')
  /\ (forall r, r ∈ snd st -> r ∈ snd st')
  /\ (forall shape url text,
         shape ∈ shapes -> shape_link shape = Some (url, text) ->
         url <> "" -> (url, text) ∈ fst st').
Proof.
  induction shapes as [|shape shapes IH]; intros st Hi Hst; cbv zeta; simpl.
  - split; [exact Hst|]. split; [auto|]. split; [auto|].
    intros ? ? ? Hin. now apply elem_of_nil in Hin.
  - destruct (shape_step_kept i st shape Hi Hst) as (Hk & Hs & Hr & Hnew).
    destruct (IH _ Hi Hk) as (Hk' & Hs' & Hr' & Hnew').
    split; [exact Hk'|]. split; [auto|]. split; [auto|].
    intros sh url text Hin Hl Hne. apply elem_of_cons in Hin as [->|Hin].
    + apply Hs'. now apply Hnew.
    + now apply (Hnew' sh).
Qed.

(** The loop over the slides, numbered from [start]. *)
Lemma slide_loop_kept slides : forall start st,
  1 <= start -> slide_links_kept start st ->
  let st' := fold_left slide_step
               (combine (seq start (List.length slides)) slides) st in
  slide_links_kept (start + List.length slides) st'
  /\ (forall r, r ∈ snd st -> r ∈ snd st')
  /\ (forall k slide shape url text,
         nth_error slides k = Some slide -> shape ∈ slide_shapes slide ->
         shape_link shape = Some (url, text) -> url <> "" ->
         exists j, j <= start + k /\ SlideLink j text url ∈ snd st').
Proof.
  induction slides as [|slide slides IH]; intros start st Hs Hst;
    cbv zeta; simpl.
  - rewrite Nat.add_0_r. split; [exact Hst|]. split; [auto|].
    intros [|k]; discriminate.
  - unfold slide_step at 2. simpl.
    assert (Hst' : slide_links_kept (S start) st)
      by (apply (slide_links_kept_weaken start); [lia | exact Hst]).
    assert (Hs' : 1 <= S start) by lia.
    destruct (shape_loop_kept start (slide_shapes slide) st Hs Hst')
      as (Hk & _ & Hr & Hnew).
    destruct (IH (S start) _ Hs' Hk) as (Hk' & Hr' & Hnew').
    replace (start + S (List.length slides))
      with (S start + List.length slides) by lia.
    split; [exact Hk'|]. split; [auto|].
    intros [|k] sl shape url text Hn Hin Hl Hne; simpl in Hn.
    + injection Hn as <-.
      destruct Hk as [Hok Hseen].
      destruct (Hseen url text (Hnew shape url text Hin Hl Hne)) as [j Hj].
      exists j. split; [|now apply Hr'].
      rewrite Forall_forall in Hok.
      destruct (Hok _ Hj) as (j' & t' & u' & Heq & _ & _ & _ & Hlt).
      injection Heq as -> _ _. lia.
    + destruct (Hnew' k sl shape url text Hn Hin Hl Hne) as (j & Hj & Hr'').
      exists j. split; [lia | exact Hr''].
Qed.

End SlideLinksFacts.

(** X7: every link record of a slide deck has a non-empty trimmed URL,
    a trimmed text and the number of a slide of the deck; and no
    hyperlink is lost to the de-duplication: a shape of the slide at
    position [k] (counted from 0) whose click action has a hyperlink of
    non-empty URL is represented by a record with its URL and text on
    that slide or an earlier one. *)
Theorem slide_links_sound_and_complete (slides : list Slide) :
  Forall (slide_link_below (S (List.length slides))) (Links.pptx_links slides)
  /\ forall k slide shape url text,
      nth_error slides k = Some slide -> shape ∈ slide_shapes slide ->
      Links.shape_link shape = Some (url, text) -> url <> "" ->
      exists j, j <= k + 1 /\ SlideLink j text url ∈ Links.pptx_links slides.
Proof.
  unfold Links.pptx_links, enumerate1.
  destruct (SlideLinksFacts.slide_loop_kept slides 1 (∅, []))
    as ([Hok _] & _ & Hnew); [lia | |].
  - split; simpl; [constructor|]. intros url text Hin.
    now apply not_elem_of_empty in Hin.
  - split; [exact Hok|].
    intros k slide shape url text Hn Hin Hl Hne.
    destruct (Hnew k slide shape url text Hn Hin Hl Hne) as (j & Hj & Hr).
    exists j. split; [lia | exact Hr].
Qed.

Module MoreImagesFacts.
Import PyStr Images LoopFacts AlternateLinksFacts.






End MoreImagesFacts.


Module FlowImagesFacts.
Import PyStr Images LoopFacts.

(** A loop that appends at most one record per element, under a [try]:
    its records are those of the elements that resolve, in order. *)
Lemma try_loop_filter {A} (f : nat * A -> list image_record)
    (resolves : nat * A -> bool) (R : nat * A -> image_record -> Prop)
    (l : list (nat * A)) :
  (forall p, resolves p = true -> exists r, f p = [r] /\ R p r) ->
  (forall p, resolves p = false -> f p = []) ->
  Forall2 R (List.filter resolves l) (flat_map f l).
Proof.
  intros Hyes Hno. induction l as [|p l IH]; simpl; [constructor|].
  destruct (resolves p) eqn:Hp.
  - destruct (Hyes p Hp) as (r & -> & Hr). simpl. now constructor.
  - now rewrite (Hno p Hp).
Qed.

Lemma inline_images_resolved inline_shapes :
  Forall2 inline_record
          (List.filter (fun p => bool_decide (is_Some (inline_payload (snd p))))
                       (enumerate1 inline_shapes))
          (flat_map (fun '(i, shape) => inline_image i shape)
                    (enumerate1 inline_shapes)).
Proof.
  apply try_loop_filter.
  - intros [i shape] H. apply bool_decide_eq_true in H as [image_blob H].
    simpl in H. unfold inline_image, inline_record, inline_payload in *.
    simpl. destruct (is_embed shape) as [embed|]; [|discriminate H].
    simpl. rewrite H. simpl. eexists. split; [reflexivity|].
    exists image_blob. now split.
  - intros [i shape] H. apply bool_decide_eq_false in H. simpl in H.
    unfold inline_image, inline_payload in *.
    destruct (is_embed shape) as [embed|]; [|reflexivity]. simpl.
    destruct (is_related_parts shape !! embed); [|reflexivity].
    exfalso. apply H. eauto.
Qed.

Lemma floating_images_resolved document drawings :
  Forall2 (floating_record document)
          (List.filter (fun p => bool_decide
                                   (is_Some (floating_payload document
                                                              (snd p))))
                       (enumerate1 drawings))
          (flat_map (fun '(i, drawing) => floating_image document i drawing)
                    (enumerate1 drawings)).
Proof.
  apply try_loop_filter.
  - intros [i drawing] H. apply bool_decide_eq_true in H as [[rId blob] H].
    simpl in H. unfold floating_image, floating_record, floating_payload in *.
    simpl. destruct (dr_blips drawing) as [|[rId'|] blips];
      try discriminate H.
    destruct (doc_related_parts document !! rId') as [blob'|];
      [|discriminate H].
    injection H as -> ->. simpl. eexists. split; [reflexivity|].
    exists rId, blob. now split.
  - intros [i drawing] H. apply bool_decide_eq_false in H. simpl in H.
    unfold floating_image, floating_payload in *.
    destruct (dr_blips drawing) as [|[rId|] blips]; try reflexivity.
    destruct (doc_related_parts document !! rId); [|reflexivity].
    exfalso. apply H. eauto.
Qed.

End FlowImagesFacts.

(** X9: image extraction on a flow document gives first the records of
    the inline pictures and then those of the floating pictures.  The
    inline records are, in order, one for each inline shape whose blip
    resolves to a related part, with the place of the shape among all
    inline shapes (counted from 1) as index, so that a picture that
    cannot be resolved is skipped and leaves a gap, and with the encoded
    bytes of that part.  The floating records are the same for the
    drawings of the document, and there is none when the drawings
    cannot be listed. *)
Theorem flow_images_resolved
    (document : Document) (inline_shapes : list InlineShape) :
  exists inline floating,
    Images.docx_images document inline_shapes = inline ++ floating
    /\ Forall2 inline_record
               (List.filter
                  (fun p => bool_decide (is_Some (inline_payload (snd p))))
                  (enumerate1 inline_shapes))
               inline
    /\ match doc_drawings document with
       | Has (Ok drawings) =>
           Forall2 (floating_record document)
                   (List.filter
                      (fun p => bool_decide
                                  (is_Some (floating_payload document
                                                             (snd p))))
                      (enumerate1 drawings))
                   floating
       | _ => floating = []
       end.
Proof.
  unfold Images.docx_images.
  eexists _, _. split; [reflexivity|]. split.
  - apply FlowImagesFacts.inline_images_resolved.
  - destruct (doc_drawings document) as [|[drawings|e]]; simpl;
      try reflexivity.
    apply FlowImagesFacts.floating_images_resolved.
Qed.

(** Three inline shapes, the second of which does not resolve. *)
Example flow_images_gap :
  Images.docx_images (Samples.flow [])
    [ ImageSamples.inline (Some "a.png") (Ok "rId1");
      ImageSamples.inline None (Ok "rId9");
      ImageSamples.inline None (Ok "rId1") ]
  = [ InlineImage 1 "a.png" "TWFu" (PyInt 10) (PyInt 20);
      InlineImage 3 "Image3" "TWFu" (PyInt 10) (PyInt 20) ].
Proof. vm_compute. reflexivity. Qed.

Module Base64Facts.
Import Base64.

Lemma in_sextets n : (n < 64)%N -> In n (map N.of_nat (seq 0 64)).
Proof.
  intros H. rewrite <- (N2Nat.id n). apply in_map, in_seq. lia.
Qed.

Lemma digit_inj n m :
  (n < 64)%N -> (m < 64)%N -> digit n = digit m -> n = m.
Proof.
  intros Hn Hm H.
  assert (Hall :
    forallb (fun n => forallb (fun m =>
      implb (Ascii.eqb (digit n) (digit m)) (N.eqb n m))
      (map N.of_nat (seq 0 64))) (map N.of_nat (seq 0 64))
    = true) by (vm_compute; reflexivity).
  rewrite forallb_forall in Hall. specialize (Hall n (in_sextets n Hn)).
  rewrite forallb_forall in Hall. specialize (Hall m (in_sextets m Hm)).
  rewrite H, Ascii.eqb_refl in Hall. simpl in Hall. now apply N.eqb_eq.
Qed.

Lemma digit_not_pad n : (n < 64)%N -> digit n <> "="%char.
Proof.
  intros Hn H.
  assert (Hall :
    forallb (fun n => negb (Ascii.eqb (digit n) "="))
            (map N.of_nat (seq 0 64)) = true)
    by (vm_compute; reflexivity).
  rewrite forallb_forall in Hall. specialize (Hall n (in_sextets n Hn)).
  rewrite H in Hall. discriminate Hall.
Qed.

Lemma list_ind3 {A} (P : list A -> Prop) :
  P [] -> (forall a, P [a]) -> (forall a b, P [a; b]) ->
  (forall a b c r, P r -> P (a :: b :: c :: r)) ->
  forall l, P l.
Proof.
  intros H0 H1 H2 H3 l.
  enough (P l /\ (forall a, P (a :: l)) /\ (forall a b, P (a :: b :: l)))
    by tauto.
  induction l as [|x l (IH0 & IH1 & IH2)]; auto.
Qed.

Lemma to_N_inj a b : Byte.to_N a = Byte.to_N b -> a = b.
Proof.
  intros H. apply (f_equal Byte.of_N) in H.
  rewrite !Byte.of_to_N in H. now injection H.
Qed.

Lemma to_N_lt a : (Byte.to_N a < 256)%N.
Proof. pose proof (Byte.to_N_bounded a). lia. Qed.

Ltac div_lia := zify; Z.to_euclidean_division_equations; lia.

(** A group of 8, 16 or 24 bits is the sum of its sextets. *)
Lemma sextets_8 (n : N) : (n = n / 4 * 4 + n mod 4)%N.
Proof. div_lia. Qed.

Lemma sextets_16 (n : N) :
  (n = n / 1024 * 1024 + (n / 16) mod 64 * 16 + n mod 16)%N.
Proof. div_lia. Qed.

Lemma sextets_24 (n : N) :
  (n = n / 262144 * 262144 + (n / 4096) mod 64 * 4096
       + (n / 64) mod 64 * 64 + n mod 64)%N.
Proof. div_lia. Qed.

Ltac sextet_lt :=
  match goal with
  | |- (_ mod 64 < 64)%N => apply N.mod_lt; discriminate
  | |- (?n mod ?k * _ < 64)%N =>
      pose proof (N.mod_lt n k ltac:(discriminate)); lia
  | |- (_ / _ < 64)%N => apply N.Div0.div_lt_upper_bound; lia
  end.

Lemma b64encode_inj bs : forall bs',
  b64encode bs = b64encode bs' -> bs = bs'.
Proof.
  induction bs as [|a|a b|a b c r IH] using list_ind3;
    intros [|a' [|b' [|c' r']]] H; cbn [b64encode] in H; cbv zeta in H;
    try discriminate H; try reflexivity.
  all: pose proof (to_N_lt a) as Ha; try pose proof (to_N_lt a') as Ha'.
  all: try pose proof (to_N_lt b) as Hb; try pose proof (to_N_lt b') as Hb'.
  all: try pose proof (to_N_lt c) as Hc; try pose proof (to_N_lt c') as Hc'.
  all: injection H; clear H; intros.
  all: try (exfalso;
            match goal with
            | H : digit ?x = "="%char |- _ =>
                apply (digit_not_pad x); [sextet_lt | exact H]
            | H : "="%char = digit ?x |- _ =>
                apply (digit_not_pad x); [sextet_lt | symmetry; exact H]
            end; fail).
  all: repeat match goal with
              | H : digit ?x = digit ?y |- _ =>
                  apply digit_inj in H; [|sextet_lt|sextet_lt]
              end.
  - pose proof (sextets_8 (Byte.to_N a)).
    pose proof (sextets_8 (Byte.to_N a')).
    f_equal. apply to_N_inj. lia.
  - match goal with
    | H : (?n / 1024 = ?m / 1024)%N |- _ =>
        pose proof (sextets_16 n); pose proof (sextets_16 m)
    end.
    f_equal; [|f_equal]; apply to_N_inj; lia.
  - match goal with
    | H : (?n / 262144 = ?m / 262144)%N |- _ =>
        pose proof (sextets_24 n); pose proof (sextets_24 m)
    end.
    f_equal; [|f_equal; [|f_equal]]; try (apply to_N_inj; lia).
    now apply IH.
Qed.

Lemma b64encode_length bs :
  String.length (b64encode bs) = 4 * ((List.length bs + 2) / 3).
Proof.
  induction bs as [|a|a b|a b c r IH] using list_ind3; try reflexivity.
  cbn [b64encode List.length String.length]. rewrite IH.
  replace (S (S (S (List.length r))) + 2) with (List.length r + 2 + 1 * 3)
    by lia.
  rewrite Nat.div_add by lia. lia.
Qed.

End Base64Facts.

Module PdfImagesFacts.
Import PyStr Images LoopFacts.

Lemma pdf_image_blob i img :
  pdf_image i img
  = PdfImage (i + 1) (pi_xref img) (pi_ext img) (pi_width img)
             (pi_height img) (Base64.b64encode (default [] (pi_image img))).
Proof. unfold pdf_image. now destruct (pi_image img). Qed.

Lemma skipn_nth_error {A} (l : list A) : forall i x,
  nth_error l i = Some x -> skipn i l = x :: skipn (S i) l.
Proof.
  induction l as [|y l IH]; intros [|i] x H; try discriminate H.
  - now injection H as ->.
  - simpl in H. change (skipn i l = x :: skipn (S i) l). now apply IH.
Qed.

(** What one page contributes, as a relation. *)
Lemma page_images_lengths document len : forall start per_page,
  Forall2 (fun i images =>
             (let! page := Text.getitem document i in
              Ok (map (pdf_image i) (page_images page))) = Ok images)
          (seq start len) per_page ->
  map (@List.length _) per_page
  = map (fun page => List.length (page_images page))
        (firstn len (skipn start (doc_getitem document))).
Proof.
  induction len as [|len IH]; intros start per_page H; simpl in H.
  - inversion H. reflexivity.
  - inversion H as [|i images idx rest Hi Hrest]; subst.
    unfold Text.getitem in Hi.
    destruct (nth_error (doc_getitem document) start) as [page|] eqn:Hp;
      [|discriminate Hi].
    simpl in Hi. injection Hi as <-.
    rewrite (skipn_nth_error _ _ _ Hp). simpl.
    rewrite length_map. f_equal. now apply IH.
Qed.

Lemma length_concat {A} (ls : list (list A)) :
  List.length (concat ls) = list_sum (map (@List.length _) ls).
Proof.
  induction ls as [|l ls IH]; simpl; [reflexivity|].
  rewrite length_app. now rewrite IH.
Qed.

End PdfImagesFacts.

(** X10: with PyMuPDF, image extraction that returns has read a page for
    every index below the page count and gives one record for every
    image reference of every such page, repeated references included:
    the number of records is the sum of the numbers of references.  Each
    record carries the number of its page and the encoded bytes, the
    empty text when the reference has no bytes. *)
Theorem pdf_images_one_per_reference
    (env : Env) (document : Document) (page_count : nat)
    (images : list image_record) :
  fitz env = true ->
  doc_page_count document = Has page_count ->
  Images.extract_images env document = Ok images ->
  page_count <= List.length (doc_getitem document)
  /\ Forall (pdf_image_ok document page_count) images
  /\ List.length images
     = list_sum (map (fun page => List.length (page_images page))
                     (firstn page_count (doc_getitem document)))
  /\ forall i page img,
       i < page_count ->
       nth_error (doc_getitem document) i = Some page ->
       img ∈ page_images page ->
       Images.pdf_image i img ∈ images.
Proof.
  unfold Images.extract_images. intros -> ->. simpl.
  unfold Images.mupdf_images.
  destruct (mapM _ (seq 0 page_count)) as [per_page|e] eqn:Hm;
    [|discriminate].
  simpl. intros [= <-]. apply LoopFacts.mapM_Ok in Hm.
  assert (Hpage : forall i images,
            i < page_count -> per_page !! i = Some images ->
            exists page, nth_error (doc_getitem document) i = Some page
                         /\ images = map (Images.pdf_image i)
                                         (page_images page)).
  { intros i images Hi Hl.
    destruct (Forall2_lookup_r _ _ _ _ _ Hm Hl) as (j & Hj & Hp).
    apply lookup_seq in Hj as [-> _]. simpl in Hp.
    unfold Text.getitem in Hp.
    destruct (nth_error (doc_getitem document) i) as [page|];
      [|discriminate Hp].
    simpl in Hp. injection Hp as <-. now exists page. }
  assert (Hread : forall i, i < page_count ->
            exists images, per_page !! i = Some images).
  { intros i Hi.
    destruct (Forall2_lookup_l _ _ _ i i Hm) as (images & Hl & _);
      [apply lookup_seq; lia | now exists images]. }
  split; [|split; [|split]].
  - destruct page_count as [|k]; [lia|].
    destruct (Hread k) as (images & Hl); [lia|].
    destruct (Hpage k images) as (page & Hp & _); [lia | exact Hl |].
    assert (k < List.length (doc_getitem document)); [|lia].
    apply nth_error_Some. congruence.
  - apply Forall_forall. intros r Hr.
    apply LoopFacts.elem_of_concat in Hr as (images & Hr & Hin).
    apply list_elem_of_lookup in Hin as [i Hl].
    assert (Hi : i < page_count).
    { destruct (Forall2_lookup_r _ _ _ _ _ Hm Hl) as (j & Hj & _).
      apply lookup_seq in Hj. lia. }
    destruct (Hpage i images Hi Hl) as (page & Hp & ->).
    apply list_elem_of_fmap in Hr as (img & -> & Himg).
    exists i, page, img. rewrite PdfImagesFacts.pdf_image_blob. auto.
  - rewrite PdfImagesFacts.length_concat.
    now rewrite (PdfImagesFacts.page_images_lengths document page_count 0).
  - intros i page img Hi Hp Himg.
    destruct (Hread i Hi) as (images & Hl).
    destruct (Hpage i images Hi Hl) as (page' & Hp' & ->).
    rewrite Hp in Hp'. injection Hp' as <-.
    apply LoopFacts.elem_of_concat.
    exists (map (Images.pdf_image i) (page_images page)).
    split; [apply list_elem_of_fmap; now exists img|].
    apply list_elem_of_lookup. now exists i.
Qed.

(** Two pages; the second repeats a reference of the first, and one
    reference has no bytes. *)
Lemma pdf_images_one_per_reference_witness :
  let document :=
    MoreSamples.mupdf
      [ ImageSamples.page_with
          [ ImageSamples.picture 7 (Some [Byte.x4d; Byte.x61; Byte.x6e]);
            ImageSamples.picture 8 None ];
        ImageSamples.page_with
          [ ImageSamples.picture 7 (Some [Byte.x4d; Byte.x61; Byte.x6e]) ] ]
  in
  let images :=
    [ PdfImage 1 (PyInt 7) (PyStr "png") (PyInt 1) (PyInt 1) "TWFu";
      PdfImage 1 (PyInt 8) (PyStr "png") (PyInt 1) (PyInt 1) "";
      PdfImage 2 (PyInt 7) (PyStr "png") (PyInt 1) (PyInt 1) "TWFu" ] in
  fitz Samples.fitz_only = true
  /\ doc_page_count document = Has 2
  /\ Images.extract_images Samples.fitz_only document = Ok images
  /\ 2 <= List.length (doc_getitem document)
  /\ Forall (pdf_image_ok document 2) images
  /\ List.length images
     = list_sum (map (fun page => List.length (page_images page))
                     (firstn 2 (doc_getitem document)))
  /\ forall i page img,
       i < 2 ->
       nth_error (doc_getitem document) i = Some page ->
       img ∈ page_images page ->
       Images.pdf_image i img ∈ images.
Proof.
  cbv zeta. split; [reflexivity|]. split; [reflexivity|].
  split; [vm_compute; reflexivity|].
  apply (pdf_images_one_per_reference Samples.fitz_only);
    [reflexivity | reflexivity | vm_compute; reflexivity].
Defined.

(** X11: the payload of an image record determines the bytes it was made
    from.  The encoding is injective, it turns every started group of
    three bytes into four characters, and the payload of a PyMuPDF record
    is the encoding of the bytes of its reference, a reference without
    bytes counting as one with none: two such records carry the same
    payload exactly when their references hold the same bytes. *)
Theorem image_payload_faithful :
  (forall bs bs',
      Base64.b64encode bs = Base64.b64encode bs' -> bs = bs')
  /\ (forall bs,
         String.length (Base64.b64encode bs)
         = 4 * ((List.length bs + 2) / 3))
  /\ (forall i j a b,
         image_blob (Images.pdf_image i a) = image_blob (Images.pdf_image j b)
         <-> default [] (pi_image a) = default [] (pi_image b)).
Proof.
  split; [exact Base64Facts.b64encode_inj|].
  split; [exact Base64Facts.b64encode_length|].
  intros i j a b. rewrite !PdfImagesFacts.pdf_image_blob. simpl. split.
  - apply Base64Facts.b64encode_inj.
  - now intros ->.
Qed.

Module PyNormFacts.
Import PyStr PyStrFacts PyText PyNorm.

Lemma visible_app a b : visible (a +:+ b) = visible a +:+ visible b.
Proof.
  induction a as [|c r IH]; [reflexivity|].
  change (String c r +:+ b) with (String c (r +:+ b)). simpl.
  destruct (isspace c); [exact IH|].
  change (String c (visible r) +:+ visible b)
    with (String c (visible r +:+ visible b)).
  now rewrite IH.
Qed.

Lemma visible_lstrip s : visible (lstrip s) = visible s.
Proof.
  induction s as [|c r IH]; simpl; [reflexivity|].
  destruct (isspace c) eqn:Ec; [exact IH|]. simpl. now rewrite Ec.
Qed.

Lemma visible_rstrip s : visible (rstrip s) = visible s.
Proof.
  induction s as [|c r IH]; simpl; [reflexivity|].
  destruct (rstrip r) as [|d r'] eqn:Er.
  - simpl in IH. destruct (isspace c) eqn:Ec; simpl; rewrite ?Ec; now rewrite <- IH.
  - change (visible (String c (String d r')))
      with (if isspace c then visible (String d r')
            else String c (visible (String d r'))).
    now rewrite IH.
Qed.

Lemma visible_strip s : visible (strip s) = visible s.
Proof. unfold strip. now rewrite visible_lstrip, visible_rstrip. Qed.

Lemma visible_collapse_ws s : visible (collapse_ws s) = visible s.
Proof.
  induction s as [|c r IH]; [reflexivity|].
  cbn [collapse_ws visible]. destruct (isspace c) eqn:Ec.
  - destruct r as [|d r']; [reflexivity|].
    destruct (isspace d) eqn:Ed; [exact IH|].
    cbn [visible]. change (isspace " ") with true. cbv iota. exact IH.
  - cbn [visible]. rewrite Ec. now rewrite IH.
Qed.

Lemma visible_join (sep : string) (l : list string) :
  visible sep = "" -> visible (join sep l) = visible (join "" l).
Proof.
  intros Hsep. induction l as [|x [|y l] IH]; try reflexivity.
  change (join sep (x :: y :: l)) with (x +:+ sep +:+ join sep (y :: l)).
  change (join "" (x :: y :: l)) with (x +:+ "" +:+ join "" (y :: l)).
  rewrite !visible_app, Hsep, IH. reflexivity.
Qed.

Lemma visible_join_map (f : string -> string) (l : list string) :
  (forall s, visible (f s) = visible s) ->
  visible (join "" (map f l)) = visible (join "" l).
Proof.
  intros Hf. induction l as [|x [|y l] IH]; [reflexivity|apply Hf|].
  change (visible (f x +:+ "" +:+ join "" (map f (y :: l)))
          = visible (x +:+ "" +:+ join "" (y :: l))).
  rewrite !visible_app, Hf, IH. reflexivity.
Qed.

Lemma single_spaced_tail c r :
  single_spaced (String c r) = true -> single_spaced r = true.
Proof. cbn [single_spaced]. intros H. now apply andb_true_iff in H. Qed.

Lemma single_spaced_collapse s : single_spaced (collapse_ws s) = true.
Proof.
  induction s as [|c r IH]; [reflexivity|].
  cbn [collapse_ws]. destruct (isspace c) eqn:Ec.
  - destruct r as [|d r']; [reflexivity|].
    destruct (isspace d) eqn:Ed; [exact IH|].
    revert IH. cbn [collapse_ws]. rewrite Ed. intros IH.
    cbn [single_spaced] in *. change (isspace " ") with true. cbv iota.
    rewrite Ed in IH |- *. exact IH.
  - cbn [single_spaced]. rewrite Ec. exact IH.
Qed.

Lemma single_spaced_lstrip s :
  single_spaced s = true -> single_spaced (lstrip s) = true.
Proof.
  induction s as [|c r IH]; [auto|]. intros H. simpl lstrip.
  destruct (isspace c); [|exact H].
  apply IH. now apply single_spaced_tail in H.
Qed.

Lemma rstrip_head d r d' r' : rstrip (String d r) = String d' r' -> d' = d.
Proof.
  simpl. destruct (rstrip r); [destruct (isspace d)|]; congruence.
Qed.

Lemma single_spaced_rstrip s :
  single_spaced s = true -> single_spaced (rstrip s) = true.
Proof.
  induction s as [|c r IH]; [auto|]. intros H.
  pose proof (single_spaced_tail _ _ H) as Hr. specialize (IH Hr).
  simpl rstrip. destruct (rstrip r) as [|d r'] eqn:Er.
  - destruct (isspace c) eqn:Ec; [reflexivity|].
    cbn [single_spaced]. now rewrite Ec.
  - cbn [single_spaced] in H |- *. cbn [single_spaced] in IH.
    apply andb_true_iff in H as [Hc _]. rewrite IH, andb_true_r.
    destruct (isspace c); [|reflexivity].
    destruct r as [|d0 r0]; [discriminate Er|].
    apply rstrip_head in Er as ->. exact Hc.
Qed.

(** The normal form of the two page-stream text paths. *)
Lemma normalise_spec s :
  normalised (strip (collapse_ws s))
  /\ visible (strip (collapse_ws s)) = visible s.
Proof.
  split; [split|].
  - apply strip_trimmed.
  - apply single_spaced_lstrip, single_spaced_rstrip, single_spaced_collapse.
  - now rewrite visible_strip, visible_collapse_ws.
Qed.

End PyNormFacts.

Module MuTextFacts.
Import PyStr PyStrFacts PyText PyNorm Text LoopFacts.

Lemma line_records_ok document n i page block line :
  i < n -> nth_error (doc_getitem document) i = Some page ->
  block ∈ default [] (page_blocks page) ->
  block_type block = Some (PyInt 0)
  \/ block_type block = Some (PyBool false) ->
  line ∈ default [] (block_lines block) ->
  Forall (pdf_line_ok document n) (line_records page line).
Proof.
  intros Hi Hp Hb Ht Hl. unfold line_records. cbv zeta.
  set (spans := default [] (line_spans line)).
  set (text := strip (collapse_ws (join " " (map _ spans)))).
  destruct (nonempty text) eqn:Hn; simpl; constructor; [|constructor].
  exists i, page, block, line, text. cbv zeta. fold spans.
  destruct (PyNormFacts.normalise_spec
              (join " " (map (fun span => strip (default "" (span_text span)))
                             spans))) as [Hnorm Hvis].
  fold text in Hnorm, Hvis.
  split; [exact Hi|]. split; [exact Hp|]. split; [exact Hb|].
  split; [exact Ht|]. split; [exact Hl|]. split; [reflexivity|].
  split; [now apply nonempty_true|]. split; [exact Hnorm|].
  rewrite Hvis, (PyNormFacts.visible_join " ") by reflexivity.
  rewrite <- (map_map (fun span => default "" (span_text span)) strip).
  apply PyNormFacts.visible_join_map, PyNormFacts.visible_strip.
Qed.

Lemma page_records_ok document n i page :
  i < n -> nth_error (doc_getitem document) i = Some page ->
  Forall (pdf_line_ok document n) (page_records page).
Proof.
  intros Hi Hp. unfold page_records.
  apply Forall_flat_map, Forall_forall. intros block Hb.
  unfold block_records.
  destruct (block_type block) as [[| [|] |z| |]|] eqn:Ht; try constructor.
  - apply Forall_flat_map, Forall_forall. intros line Hl.
    apply (line_records_ok document n i page block); auto.
  - destruct z; try constructor.
    apply Forall_flat_map, Forall_forall. intros line Hl.
    apply (line_records_ok document n i page block); auto.
Qed.

End MuTextFacts.

(** X12: with PyMuPDF, text extraction that returns gives the document
    metadata first and then only line records.  Each is a line of a text
    block of one of the first [page_count] pages and carries that page's
    own number plus one; its text is not empty, has no whitespace at
    either end and none inside but single spaces, and has exactly the
    visible characters of the texts of the line's spans in order; there
    is one span record for each span. *)
Theorem pdf_text_lines_normalised
    (env : Env) (document : Document) (page_count : nat)
    (records : list text_record) :
  fitz env = true ->
  doc_page_count document = Has page_count ->
  Text.extract_text env document = Ok records ->
  exists lines,
    records = DocumentMetadata (doc_metadata document) :: lines
    /\ Forall (pdf_line_ok document page_count) lines.
Proof.
  unfold Text.extract_text. intros -> ->. simpl. unfold Text.mupdf_text.
  destruct (mapM _ (seq 0 page_count)) as [per_page|e] eqn:Hm;
    [|discriminate].
  simpl. intros [= <-]. eexists. split; [reflexivity|].
  apply LoopFacts.mapM_Ok in Hm.
  apply Forall_forall. intros r Hr.
  apply LoopFacts.elem_of_concat in Hr as (recs & Hr & Hin).
  apply list_elem_of_lookup in Hin as [j Hl].
  destruct (Forall2_lookup_r _ _ _ _ _ Hm Hl) as (i & Hi & Hp).
  apply lookup_seq in Hi as [-> Hi]. simpl in Hp, Hi.
  unfold Text.getitem in Hp.
  destruct (nth_error (doc_getitem document) j) as [page|] eqn:Hpage;
    [|discriminate Hp].
  simpl in Hp. injection Hp as <-.
  pose proof (MuTextFacts.page_records_ok document page_count j page Hi Hpage)
    as Hall.
  rewrite Forall_forall in Hall. now apply Hall.
Qed.

(** A page whose one text block has a line of two spans and a line of
    blanks. *)
Lemma pdf_text_lines_normalised_witness :
  let document := MoreSamples.mupdf [TextSamples.text_page] in
  let records :=
    [ DocumentMetadata [("title", "Fake PDF")];
      PdfLine 1 (PyInt 0) [PyInt 0; PyInt 0; PyInt 612; PyInt 792]
              "Hello, wide world"
              (map Text.span_record
                   [ TextSamples.span " Hello," "Times-Bold";
                     TextSamples.span "  wide   world " "Times" ]) ] in
  fitz Samples.fitz_only = true
  /\ doc_page_count document = Has 1
  /\ Text.extract_text Samples.fitz_only document = Ok records
  /\ exists lines,
      records = DocumentMetadata (doc_metadata document) :: lines
      /\ Forall (pdf_line_ok document 1) lines.
Proof.
  cbv zeta. split; [reflexivity|]. split; [reflexivity|].
  split; [vm_compute; reflexivity|].
  apply (pdf_text_lines_normalised Samples.fitz_only);
    [reflexivity | reflexivity | vm_compute; reflexivity].
Defined.

Module PlainTextFacts.
Import PyStr PyStrFacts PyText PyNorm Text LoopFacts.



End PlainTextFacts.



Module ReflowUnitsFacts.
Import PyStr PyStrFacts PyText PyTextFacts PyNormFacts Reflow ReflowUnits.

Lemma merge_lines_units raw_text :
  merge_lines raw_text = join (nl +:+ nl) (units_of raw_text).
Proof.
  unfold merge_lines, units_of, lines_of.
  now destruct (fold_left merge_step _ _).
Qed.

Lemma linebreak_is_space c : is_linebreak c = true -> isspace c = true.
Proof.
  destruct c as [[] [] [] [] [] [] [] []]; vm_compute; congruence.
Qed.

(** *** Lines *)

(** Induction along [splitlines]: a boundary (one character, or CR LF)
    opens a line, any other character goes to the first line of the
    rest. *)
Lemma splitlines_ind (P : string -> list string -> Prop) :
  P "" [] ->
  (forall c r, is_linebreak c = true -> P r (splitlines r) ->
               P (String c r) ("" :: splitlines r)) ->
  (forall r, P r (splitlines r) ->
            P (String (chr 13) (String (chr 10) r)) ("" :: splitlines r)) ->
  (forall c r, is_linebreak c = false -> P r (splitlines r) ->
               P (String c r)
                 match splitlines r with
                 | [] => [String c ""]
                 | l :: ls => String c l :: ls
                 end) ->
  forall s, P s (splitlines s).
Proof.
  intros Hnil Hbreak Hcrlf Hchar s.
  enough (P s (splitlines s)
          /\ match s with
             | String _ r => P r (splitlines r)
             | EmptyString => True
             end) by tauto.
  induction s as [|c r [IH IH']]; [now split|].
  split; [|exact IH].
  cbn [splitlines]. destruct (is_linebreak c) eqn:Ec.
  - destruct r as [|d r'].
    + apply (Hbreak c ""); assumption.
    + destruct ((nat_of_ascii c =? 13)%nat && (nat_of_ascii d =? 10)%nat)
        eqn:Ecr.
      * apply andb_true_iff in Ecr as [Hc Hd].
        apply Nat.eqb_eq in Hc, Hd.
        assert (c = chr 13) as ->
          by (rewrite <- (ascii_nat_embedding c), Hc; reflexivity).
        assert (d = chr 10) as ->
          by (rewrite <- (ascii_nat_embedding d), Hd; reflexivity).
        now apply Hcrlf.
      * now apply (Hbreak c (String d r')).
  - now apply Hchar.
Qed.

Lemma splitlines_no_linebreak s :
  Forall (fun l => no_linebreak l = true) (splitlines s).
Proof.
  apply (splitlines_ind (fun _ ls => Forall (fun l => no_linebreak l = true) ls)).
  - constructor.
  - intros c r _ H. now constructor.
  - intros r H. now constructor.
  - intros c r Hc H. unfold no_linebreak in *.
    destruct (splitlines r) as [|l ls].
    + repeat constructor. simpl. now rewrite Hc.
    + apply Forall_cons in H as [Hl Hls]. constructor; [|exact Hls].
      simpl. now rewrite Hc.
Qed.

Lemma visible_join_cons x l :
  visible (join "" (x :: l)) = visible x +:+ visible (join "" l).
Proof.
  destruct l as [|y l].
  - simpl. now rewrite append_nil_r.
  - change (join "" (x :: y :: l)) with (x +:+ "" +:+ join "" (y :: l)).
    now rewrite !visible_app.
Qed.

Lemma visible_join_app l l' :
  visible (join "" (l ++ l'))
  = visible (join "" l) +:+ visible (join "" l').
Proof.
  induction l as [|x l IH]; [reflexivity|].
  change ((x :: l) ++ l') with (x :: (l ++ l')).
  now rewrite !visible_join_cons, IH, append_assoc.
Qed.

Lemma visible_splitlines s : visible (join "" (splitlines s)) = visible s.
Proof.
  apply (splitlines_ind (fun s ls => visible (join "" ls) = visible s)).
  - reflexivity.
  - intros c r Hc H. rewrite visible_join_cons. simpl.
    now rewrite (linebreak_is_space c Hc).
  - intros r H. rewrite visible_join_cons. exact H.
  - intros c r Hc H. destruct (splitlines r) as [|l ls].
    + simpl in H |- *. rewrite <- H. now destruct (isspace c).
    + rewrite visible_join_cons in H |- *. simpl. rewrite <- H.
      now destruct (isspace c).
Qed.

Lemma visible_lines_of s : visible (join "" (lines_of s)) = visible s.
Proof.
  rewrite <- (visible_splitlines s). unfold lines_of.
  induction (splitlines s) as [|l ls IH]; [reflexivity|].
  cbn [List.filter]. destruct (nonempty (strip l)) eqn:Hl.
  - cbn [map]. now rewrite !visible_join_cons, IH, visible_strip.
  - apply nonempty_false in Hl. rewrite visible_join_cons, IH.
    now rewrite <- (visible_strip l), Hl.
Qed.

Lemma all_chars_lstrip test s :
  all_chars test s = true -> all_chars test (lstrip s) = true.
Proof.
  induction s as [|c r IH]; simpl; [auto|]. intros H.
  destruct (isspace c); [|exact H].
  apply IH. now apply andb_true_iff in H.
Qed.

Lemma all_chars_rstrip test s :
  all_chars test s = true -> all_chars test (rstrip s) = true.
Proof.
  induction s as [|c r IH]; simpl; [auto|]. intros H.
  apply andb_true_iff in H as [Hc Hr]. specialize (IH Hr).
  destruct (rstrip r) as [|d r'].
  - destruct (isspace c); simpl; [reflexivity | now rewrite Hc].
  - cbn [all_chars] in IH |- *. now rewrite Hc, IH.
Qed.

Lemma lines_of_good s : Forall good_line (lines_of s).
Proof.
  unfold lines_of. pose proof (splitlines_no_linebreak s) as H.
  induction H as [|l ls Hl Hls IH]; [constructor|].
  cbn [List.filter]. destruct (nonempty (strip l)) eqn:Hn; [|exact IH].
  constructor; [|exact IH]. split; [now apply nonempty_true|].
  split; [apply strip_trimmed|].
  now apply all_chars_lstrip, all_chars_rstrip.
Qed.

(** *** The loop *)

Lemma merge_step_kept st line :
  good_line line -> units_kept st -> units_kept (merge_step st line).
Proof.
  destruct st as [m b]. intros Hline (Hm & Ht & Hb & He).
  simpl in Hm, Ht, Hb, He. unfold merge_step.
  destruct (nonempty b) eqn:Hn; simpl.
  - apply nonempty_true in Hn. destruct Hb as [Hb|Hb]; [congruence|].
    destruct (re_search_terminal b) eqn:Hs.
    + split; [|split; [|split]]; simpl.
      * apply Forall_app. split; [exact Hm | now constructor].
      * apply Forall_app. split; [exact Ht | now constructor].
      * now right.
      * destruct Hline as [Hne _]. congruence.
    + split; [exact Hm|]. split; [exact Ht|]. split; simpl.
      * right. destruct Hb as (_ & [Hbl Hbr] & Hbn).
        destruct Hline as (Hne & [Hll Hlr] & Hln).
        split; [|split; [split|]].
        -- destruct b; [congruence | discriminate].
        -- now apply lstrip_app.
        -- apply rstrip_app; [now apply (app_nonempty_r " ")|].
           now apply (rstrip_app " ").
        -- unfold no_linebreak in *.
           rewrite !all_chars_app, Hbn, Hln. reflexivity.
      * intros H. destruct b; [congruence | discriminate H].
  - apply nonempty_false in Hn. subst b.
    rewrite (He eq_refl). split; [constructor|]. split; [constructor|].
    split; [now right|]. reflexivity.
Qed.

Lemma merge_step_visible st line :
  let st' := merge_step st line in
  visible (join "" (fst st')) +:+ visible (snd st')
  = (visible (join "" (fst st)) +:+ visible (snd st)) +:+ visible line.
Proof.
  destruct st as [m b]. cbv zeta. unfold merge_step.
  destruct (nonempty b) eqn:Hn; simpl.
  - destruct (re_search_terminal b); simpl.
    + rewrite visible_join_app. simpl. reflexivity.
    + rewrite !visible_app. simpl. now rewrite append_assoc.
  - apply nonempty_false in Hn. subst b. simpl. now rewrite append_nil_r.
Qed.

Lemma merge_loop_visible lines : forall st,
  let st' := fold_left merge_step lines st in
  visible (join "" (fst st')) +:+ visible (snd st')
  = (visible (join "" (fst st)) +:+ visible (snd st))
    +:+ visible (join "" lines).
Proof.
  induction lines as [|line lines IH]; intros st; cbv zeta.
  - simpl. now rewrite append_nil_r.
  - cbn [fold_left]. specialize (IH (merge_step st line)). cbv zeta in IH.
    rewrite IH, merge_step_visible, visible_join_cons.
    now rewrite append_assoc.
Qed.

Lemma units_of_visible s : visible (join "" (units_of s)) = visible s.
Proof.
  rewrite <- (visible_lines_of s). unfold units_of.
  assert (H : visible (join "" (fst (fold_left merge_step (lines_of s)
                                                  ([], ""))))
              +:+ visible (snd (fold_left merge_step (lines_of s) ([], "")))
              = visible (join "" (lines_of s)))
    by apply (merge_loop_visible (lines_of s) ([], "")).
  destruct (fold_left merge_step (lines_of s) ([], "")) as [m b].
  simpl in H. rewrite <- H.
  destruct (nonempty b) eqn:Hn.
  - rewrite visible_join_app. reflexivity.
  - apply nonempty_false in Hn. subst b. simpl. now rewrite append_nil_r.
Qed.

Lemma units_of_good s :
  Forall good_line (units_of s)
  /\ Forall (fun u => re_search_terminal u = true) (removelast (units_of s)).
Proof.
  unfold units_of.
  assert (H : units_kept (fold_left merge_step (lines_of s) ([], ""))).
  { pose proof (lines_of_good s) as Hl. rewrite Forall_forall in Hl.
    apply LoopFacts.fold_left_invariant.
    - intros st line Hin. apply merge_step_kept, Hl, Hin.
    - split; [constructor|]. split; [constructor|]. split; [now left|].
      reflexivity. }
  destruct (fold_left merge_step (lines_of s) ([], "")) as [m b].
  destruct H as (Hm & Ht & Hb & He). simpl in Hm, Ht, Hb, He.
  destruct (nonempty b) eqn:Hn.
  - apply nonempty_true in Hn. destruct Hb as [Hb|Hb]; [congruence|].
    split; [apply Forall_app; split; [exact Hm | now constructor]|].
    now rewrite removelast_last.
  - apply nonempty_false in Hn. rewrite (He Hn). split; constructor.
Qed.

(** *** The result *)

Lemma join_sep_trimmed sep (l : list string) :
  Forall (fun t => trimmed t /\ t <> "") l -> trimmed (join sep l).
Proof.
  induction 1 as [|x l [[Hl Hr] Hx] Hrest IH]; [split; reflexivity|].
  destruct l as [|y l]; [split; assumption|].
  change (join sep (x :: y :: l)) with (x +:+ sep +:+ join sep (y :: l)).
  assert (Hne : join sep (y :: l) <> "").
  { apply Forall_cons in Hrest as [[_ Hy] _].
    destruct l; simpl; [exact Hy|].
    destruct y; [congruence | discriminate]. }
  destruct IH as [_ IHr]. split.
  - now apply lstrip_app.
  - apply rstrip_app.
    + apply (app_nonempty_r sep _ Hne).
    + now apply (rstrip_app sep).
Qed.

Lemma trimmed_visible_empty t : trimmed t -> visible t = "" -> t = "".
Proof.
  destruct t as [|c r]; [reflexivity|]. intros [Hl _] H.
  apply lstrip_fixed_head in Hl. simpl in H. rewrite Hl in H. discriminate H.
Qed.


(** *** Reading the result again *)

Lemma splitlines_unit u r :
  no_linebreak u = true -> splitlines (u +:+ nl +:+ r) = u :: splitlines r.
Proof.
  unfold no_linebreak. induction u as [|c u IH]; intros H.
  - change ("" +:+ nl +:+ r) with (String (chr 10) r).
    now destruct r.
  - simpl in H. apply andb_true_iff in H as [Hc Hu].
    apply negb_true_iff in Hc.
    change (String c u +:+ nl +:+ r) with (String c (u +:+ nl +:+ r)).
    cbn [splitlines]. rewrite Hc, (IH Hu). reflexivity.
Qed.

Lemma splitlines_single u :
  no_linebreak u = true -> u <> "" -> splitlines u = [u].
Proof.
  unfold no_linebreak. induction u as [|c u IH]; intros H Hne; [congruence|].
  simpl in H. apply andb_true_iff in H as [Hc Hu].
  apply negb_true_iff in Hc. cbn [splitlines]. rewrite Hc.
  destruct u as [|d u]; [reflexivity|].
  rewrite (IH Hu) by discriminate. reflexivity.
Qed.

Lemma lines_of_join units :
  Forall good_line units -> lines_of (join (nl +:+ nl) units) = units.
Proof.
  induction 1 as [|u units (Hne & Ht & Hn) Hrest IH]; [reflexivity|].
  assert (Hs : strip u = u) by now apply trimmed_strip.
  assert (Hk : nonempty (strip u) = true)
    by (rewrite Hs; now apply nonempty_true).
  destruct units as [|v units].
  - unfold lines_of. cbn [join]. rewrite (splitlines_single u Hn Hne).
    cbn [List.filter]. rewrite Hk. cbn [map]. now rewrite Hs.
  - change (join (nl +:+ nl) (u :: v :: units))
      with (u +:+ nl +:+ ("" +:+ nl +:+ join (nl +:+ nl) (v :: units))).
    unfold lines_of in IH |- *.
    rewrite (splitlines_unit u _ Hn), (splitlines_unit "") by reflexivity.
    cbn [List.filter]. rewrite Hk. cbn [map].
    change (nonempty (strip "")) with false. cbv iota.
    now rewrite Hs, IH.
Qed.

Lemma last_cons {A} (l : list A) (x d : A) :
  List.last (x :: l) d = List.last l x.
Proof.
  revert x d. induction l as [|y l IH]; intros x d; [reflexivity|].
  change (List.last (x :: y :: l) d) with (List.last (y :: l) d).
  now rewrite (IH y d), (IH y x).
Qed.

(** On units, the loop closes every buffer when the next unit comes. *)
Lemma merge_loop_units units : forall m b,
  b <> "" -> Forall (fun u => u <> "") units ->
  Forall (fun u => re_search_terminal u = true) (removelast (b :: units)) ->
  fold_left merge_step units (m, b)
  = (m ++ removelast (b :: units), List.last units b).
Proof.
  induction units as [|v units IH]; intros m b Hb Hne Ht.
  - simpl. now rewrite app_nil_r.
  - change (removelast (b :: v :: units))
      with (b :: removelast (v :: units)) in Ht |- *.
    apply Forall_cons in Ht as [Hbt Ht].
    apply Forall_cons in Hne as [Hv Hne].
    cbn [fold_left merge_step].
    apply nonempty_true in Hb. rewrite Hb, Hbt. simpl negb. cbv iota.
    rewrite (IH (m ++ [b]) v Hv Hne Ht).
    rewrite <- app_assoc. simpl app. now rewrite last_cons.
Qed.

Lemma units_of_join units :
  Forall good_line units ->
  Forall (fun u => re_search_terminal u = true) (removelast units) ->
  units_of (join (nl +:+ nl) units) = units.
Proof.
  intros Hgood Ht. unfold units_of. rewrite (lines_of_join units Hgood).
  destruct units as [|u units]; [reflexivity|].
  assert (Hne : Forall (fun u => u <> "") (u :: units))
    by (eapply Forall_impl; [exact Hgood|]; now intros ? [? _]).
  apply Forall_cons in Hne as [Hu Hne].
  cbn [fold_left merge_step]. simpl negb. cbv iota.
  rewrite (merge_loop_units units [] u Hu Hne Ht). simpl app.
  assert (Hlast : List.last units u <> "").
  { rewrite <- (last_cons units u ""). rewrite Forall_forall in Hgood.
    destruct (Hgood (List.last (u :: units) "")) as [H _]; [|exact H].
    rewrite (app_removelast_last "" (l := u :: units)) at 2 by discriminate.
    apply elem_of_app. right. left. }
  apply nonempty_true in Hlast. rewrite Hlast.
  rewrite <- (last_cons units u "").
  symmetry. apply app_removelast_last. discriminate.
Qed.

End ReflowUnitsFacts.

(** X14: [merge_lines] neither loses nor adds nor reorders a character
    that is not whitespace; its result has no whitespace at either end,
    and it is empty exactly when the input has no such character. *)
Theorem merge_lines_keeps_visible (raw_text : string) :
  PyText.visible (Reflow.merge_lines raw_text) = PyText.visible raw_text
  /\ PyStr.trimmed (Reflow.merge_lines raw_text)
  /\ (Reflow.merge_lines raw_text = "" <-> PyText.visible raw_text = "").
Proof.
  assert (Hv : PyText.visible (Reflow.merge_lines raw_text)
               = PyText.visible raw_text).
  { rewrite ReflowUnitsFacts.merge_lines_units.
    rewrite PyNormFacts.visible_join by reflexivity.
    apply ReflowUnitsFacts.units_of_visible. }
  assert (Ht : PyStr.trimmed (Reflow.merge_lines raw_text)).
  { rewrite ReflowUnitsFacts.merge_lines_units.
    apply ReflowUnitsFacts.join_sep_trimmed.
    destruct (ReflowUnitsFacts.units_of_good raw_text) as [Hgood _].
    eapply Forall_impl; [exact Hgood|].
    now intros u (Hne & Htrim & _). }
  split; [exact Hv|]. split; [exact Ht|]. split.
  - intros H. now rewrite <- Hv, H.
  - intros H. apply ReflowUnitsFacts.trimmed_visible_empty; [exact Ht|].
    now rewrite Hv.
Qed.

(** X15: the result of [merge_lines] is a list of units joined by blank
    lines.  No unit is empty, has whitespace at an end or contains a
    line boundary, and every unit but the last ends in one of the
    terminal punctuation characters: a paragraph break is only put after
    such a character. *)
Theorem merge_lines_units_end_terminal (raw_text : string) :
  exists units,
    Reflow.merge_lines raw_text = PyStr.join (PyStr.nl +:+ PyStr.nl) units
    /\ Forall ReflowUnits.good_line units
    /\ Forall (fun u => Reflow.ends_terminal u = true) (removelast units).
Proof.
  exists (ReflowUnits.units_of raw_text).
  split; [apply ReflowUnitsFacts.merge_lines_units|].
  destruct (ReflowUnitsFacts.units_of_good raw_text) as [Hgood Ht].
  split; [exact Hgood|].
  eapply Forall_impl; [exact Ht|].
  intros u Hu. now rewrite <- ReflowFacts.re_search_ends_terminal.
Qed.

(** X16: [merge_lines] is idempotent: text that has been reflowed is
    left as it is by a second pass. *)
Theorem merge_lines_idempotent (raw_text : string) :
  Reflow.merge_lines (Reflow.merge_lines raw_text)
  = Reflow.merge_lines raw_text.
Proof.
  rewrite (ReflowUnitsFacts.merge_lines_units raw_text).
  rewrite ReflowUnitsFacts.merge_lines_units.
  destruct (ReflowUnitsFacts.units_of_good raw_text) as [Hgood Ht].
  now rewrite ReflowUnitsFacts.units_of_join.
Qed.

(** X17: [infer_font_style] reports bold exactly when the font name has
    [Bold] in it and italic exactly when it has [Italic] or [Oblique] in
    it, with these capitals; the test for an empty name changes nothing.
    In a span record both flags are false when the span has no font
    name. *)
Theorem font_style_by_substring (font_name : string) :
  (fst (infer_font_style font_name) = true
   <-> PyText.is_substring "Bold" font_name)
  /\ (snd (infer_font_style font_name) = true
      <-> PyText.is_substring "Italic" font_name
          \/ PyText.is_substring "Oblique" font_name)
  /\ forall span,
      span_font span = None ->
      sm_bold (Text.span_record span) = false
      /\ sm_italic (Text.span_record span) = false.
Proof.
  split; [|split].
  - unfold infer_font_style. destruct font_name as [|c r].
    + simpl. split; [discriminate|].
      intros ([|x before] & after & H); discriminate H.
    + cbn [PyStr.nonempty negb fst]. apply PyTextFacts.contains_spec.
  - unfold infer_font_style. destruct font_name as [|c r].
    + simpl. split; [discriminate|].
      intros [([|x before] & after & H)|([|x before] & after & H)];
        discriminate H.
    + cbn [PyStr.nonempty negb snd]. rewrite orb_true_iff.
      now rewrite !PyTextFacts.contains_spec.
  - intros span H. unfold Text.span_record. rewrite H. now split.
Qed.

Module LoaderFacts.
Import PyPath Loader.

Lemma endswith_disjoint suffix1 suffix2 :
  endswith suffix1 suffix2 = false -> endswith suffix2 suffix1 = false ->
  forall s, endswith s suffix1 = true -> endswith s suffix2 = true -> False.
Proof.
  intros H12 H21. induction s as [|c r IH]; cbn [endswith]; intros H1 H2.
  - rewrite orb_false_r in H1, H2.
    apply String.eqb_eq in H1, H2. subst suffix1 suffix2. discriminate H12.
  - apply orb_true_iff in H1 as [H1|H1].
    + apply String.eqb_eq in H1. subst suffix1.
      cbn [endswith] in H12. now rewrite H2 in H12.
    + apply orb_true_iff in H2 as [H2|H2]; [|now apply IH].
      apply String.eqb_eq in H2. subst suffix2.
      cbn [endswith] in H21. rewrite H1, orb_true_r in H21. discriminate H21.
Qed.

Lemma lower_char_idempotent c : lower_char (lower_char c) = lower_char c.
Proof. destruct c as [[] [] [] [] [] [] [] []]; reflexivity. Qed.

Lemma lower_idempotent s : lower (lower s) = lower s.
Proof.
  induction s as [|c r IH]; simpl; [reflexivity|].
  now rewrite lower_char_idempotent, IH.
Qed.

End LoaderFacts.

(** X18: the three loaders accept disjoint sets of paths, whatever the
    case of the letters, and [process_file] constructs the one loader
    that accepts the path: its [load_file] never raises the invalid file
    type error, it raises file-not-found when the path does not exist
    and otherwise opens the document.  [process_file] raises its own
    unsupported file type error exactly for the paths no loader
    accepts. *)
Theorem process_file_loader_accepts
    (path_exists : string -> bool)
    (open_document : Loader.loader -> string -> result Document)
    (filepath : string) :
  (forall l, Loader.validate_file l (PyPath.lower filepath)
             = Loader.validate_file l filepath)
  /\ match Loader.choose_loader filepath with
     | Ok l =>
         Loader.validate_file l filepath = true
         /\ (forall l', Loader.validate_file l' filepath = true -> l' = l)
         /\ Loader.load_file path_exists open_document l filepath
            = if path_exists filepath then open_document l filepath
              else Raise (Loader.not_found filepath)
     | Raise e =>
         e = ValueError "Unsupported file type."
         /\ forall l,
             Loader.validate_file l filepath = false
             /\ Loader.load_file path_exists open_document l filepath
                = Raise (Loader.invalid_type l)
     end.
Proof.
  split.
  { intros l. unfold Loader.validate_file.
    now rewrite LoaderFacts.lower_idempotent. }
  pose proof (LoaderFacts.endswith_disjoint ".pdf" ".docx" eq_refl eq_refl
                (PyPath.lower filepath)) as Hpd.
  pose proof (LoaderFacts.endswith_disjoint ".pdf" ".ppt" eq_refl eq_refl
                (PyPath.lower filepath)) as Hpp.
  pose proof (LoaderFacts.endswith_disjoint ".pdf" ".pptx" eq_refl eq_refl
                (PyPath.lower filepath)) as Hpx.
  pose proof (LoaderFacts.endswith_disjoint ".docx" ".ppt" eq_refl eq_refl
                (PyPath.lower filepath)) as Hdp.
  pose proof (LoaderFacts.endswith_disjoint ".docx" ".pptx" eq_refl eq_refl
                (PyPath.lower filepath)) as Hdx.
  unfold Loader.choose_loader, Loader.load_file, Loader.validate_file.
  destruct (PyPath.endswith (PyPath.lower filepath) ".pdf") eqn:Epdf;
    destruct (PyPath.endswith (PyPath.lower filepath) ".docx") eqn:Edocx;
    destruct (PyPath.endswith (PyPath.lower filepath) ".ppt") eqn:Eppt;
    destruct (PyPath.endswith (PyPath.lower filepath) ".pptx") eqn:Epptx;
    try (exfalso; auto; fail); simpl.
  all: try (split; [reflexivity|]; split;
            [intros [| |]; rewrite ?Epdf, ?Edocx, ?Eppt, ?Epptx;
             simpl; congruence
            | now destruct (path_exists filepath)]).
  split; [reflexivity|].
  intros [| |]; rewrite ?Epdf, ?Edocx, ?Eppt, ?Epptx; now split.
Qed.

(** Capitals are accepted, a longer extension decides, and a trailing
    blank spoils the extension. *)
Example choose_loader_sample :
  Loader.choose_loader "Report.PDF" = Ok Loader.PDFLoader
  /\ Loader.choose_loader "notes.pdf.docx" = Ok Loader.DOCXLoader
  /\ Loader.choose_loader "Test Slides.pptx" = Ok Loader.PPTLoader
  /\ Loader.choose_loader "a.pdf " = Raise (ValueError "Unsupported file type.").
Proof. repeat split; reflexivity. Qed.

Module SqlFacts.
Import PyStr PyStrFacts PyText Links.

Lemma is_url_nonempty uri : is_url uri -> uri <> "".
Proof. intros [(rest & _ & [->| ->]) _]; discriminate. Qed.

Lemma is_substring_nonempty needle s :
  needle <> "" -> is_substring needle s -> s <> "".
Proof.
  intros Hn (before & after & ->). destruct before; simpl.
  - destruct needle; [congruence | discriminate].
  - discriminate.
Qed.

Lemma extract_links_addressed env document links :
  extract_links env document = Ok links -> Forall link_addressed links.
Proof.
  unfold extract_links.
  destruct (fitz env && hasattr (doc_page_count document)).
  - destruct (doc_page_count document) as [|page_count]; [discriminate|].
    simpl. unfold mupdf_links.
    destruct (mupdf_pages document (seq 0 page_count) (∅, []))
      as [st|e] eqn:Hm; [|discriminate].
    simpl. intros [= <-].
    destruct (PdfLinksFacts.mupdf_pages_kept document page_count
                (seq 0 page_count) (∅, []) st) as ([Hok _] & _).
    + intros i Hi. apply list_elem_of_In, in_seq in Hi. lia.
    + split; simpl; [constructor|]. intros i uri Hin.
      now apply not_elem_of_empty in Hin.
    + exact Hm.
    + eapply Forall_impl; [exact Hok|].
      intros r (page & uri & rect & kind & -> & Hu & Hp). simpl.
      split; [lia | exact Hu].
  - destruct (doc_pages document) as [|pages].
    + destruct (doc_paragraphs document) as [|paragraphs].
      * destruct (doc_slides document) as [|slides]; [discriminate|].
        intros [= <-]. unfold pptx_links, enumerate1.
        destruct (SlideLinksFacts.slide_loop_kept slides 1 (∅, []))
          as ([Hok _] & _); [lia | |].
        -- split; simpl; [constructor|]. intros url text Hin.
           now apply not_elem_of_empty in Hin.
        -- eapply Forall_impl; [exact Hok|].
           intros r (slide & text & url & -> & Hu & _ & _ & Hs). simpl.
           split; [lia | exact Hu].
      * intros [= <-].
        eapply Forall_impl;
          [apply (AlternateLinksFacts.docx_links_ok paragraphs)|].
        intros r (para & _ & -> & Hsub). simpl. split; [|reflexivity].
        eapply is_substring_nonempty; [|exact Hsub]. discriminate.
    + intros [= <-].
      eapply Forall_impl; [apply (AlternateLinksFacts.plain_links_ok env)|].
      intros r (page & uri & -> & Hurl & Hp & _). simpl.
      split; [exact Hp|]. split; [|reflexivity].
      now apply is_url_nonempty.
Qed.

Lemma int_truthy n : 1 <= n -> Sql.field_truthy (Sql.int n) = true.
Proof.
  intros H. unfold Sql.int, Sql.field_truthy, truthy.
  apply negb_true_iff, Z.eqb_neq. lia.
Qed.

Lemma str_truthy s : s <> "" -> Sql.field_truthy (Sql.str s) = true.
Proof. intros H. now apply nonempty_true. Qed.

Lemma py_or_truthy a b : Sql.field_truthy a = true -> Sql.py_or a b = a.
Proof. unfold Sql.py_or. now intros ->. Qed.

Lemma link_row_addressed r :
  link_addressed r -> link_row_ok r (Sql.link_row (Sql.link_dict r)).
Proof.
  destruct r as [page uri rect kind|page uri contents|text url
                |slide text url]; simpl; unfold Sql.link_row;
    cbn [Sql.link_dict Sql.get String.eqb Ascii.eqb Bool.eqb].
  - intros [Hp Hu].
    rewrite !(py_or_truthy (Sql.int page)) by now apply int_truthy.
    now repeat split.
  - intros (Hp & Hu & ->).
    rewrite !(py_or_truthy (Sql.int page)) by now apply int_truthy.
    now repeat split.
  - intros [Hu ->].
    rewrite !(py_or_truthy (Sql.str url)) by now apply str_truthy.
    now repeat split.
  - intros [Hs Hu].
    rewrite !(py_or_truthy (Sql.int slide)) by now apply int_truthy.
    rewrite (py_or_truthy (Sql.str url)) by now apply str_truthy.
    split; [|now split]. now destruct text.
Qed.

Lemma docx_images_flow document inline_shapes :
  Forall (fun r => match r with
                   | InlineImage _ _ _ _ _ | FloatingImage _ _ _ => True
                   | _ => False
                   end)
         (Images.docx_images document inline_shapes).
Proof.
  unfold Images.docx_images. apply Forall_app. split.
  - apply Forall_flat_map, Forall_forall. intros [i shape] _.
    unfold Images.inline_image.
    destruct (is_embed shape) as [embed|]; simpl; [|constructor].
    destruct (is_related_parts shape !! embed); simpl; repeat constructor.
  - destruct (doc_drawings document) as [|[drawings|e]]; simpl;
      try constructor.
    apply Forall_flat_map, Forall_forall. intros [i drawing] _.
    unfold Images.floating_image.
    destruct (dr_blips drawing) as [|[rId|] blips]; simpl; try constructor.
    destruct (doc_related_parts document !! rId); simpl; repeat constructor.
Qed.

End SqlFacts.

(** X19: whatever the document, the SQL storage inserts one row for
    each link record that link extraction returns, in order.  The row
    holds the page or slide number of the record, which is at least 1,
    and NULL for the links of a flow document; the text of the record,
    which is empty for page-stream links; and the address of the record,
    which is never empty. *)
Theorem stored_links_have_url
    (env : Env) (document : Document) (links : list link_record) :
  Links.extract_links env document = Ok links ->
  Forall2 link_row_ok links (Sql.link_rows links).
Proof.
  intros H. apply SqlFacts.extract_links_addressed in H.
  unfold Sql.link_rows. induction H as [|r links Hr _ IH]; simpl;
    constructor; [|exact IH].
  now apply SqlFacts.link_row_addressed.
Qed.

(** Two pages naming one address. *)
Lemma stored_links_have_url_witness :
  let links := [ PdfLink 1 "http://a.b" [PyInt 0; PyInt 0] (PyStr "");
                 PdfLink 2 "http://a.b" [PyInt 0; PyInt 0] (PyStr "") ] in
  Links.extract_links Samples.fitz_only LinkSamples.linked_pdf = Ok links
  /\ Sql.link_rows links
     = [ (Sql.int 1, Sql.str "", Sql.str "http://a.b");
         (Sql.int 2, Sql.str "", Sql.str "http://a.b") ]
  /\ Forall2 link_row_ok links (Sql.link_rows links).
Proof.
  cbv zeta. split; [vm_compute; reflexivity|]. split; [reflexivity|].
  apply (stored_links_have_url Samples.fitz_only LinkSamples.linked_pdf).
  vm_compute. reflexivity.
Defined.

(** X20: the SQL storage keeps nothing that identifies an image of a
    flow document: in the row of every image record of such a document
    page_or_slide, name and format are NULL (the file name and the
    index are stored under keys the storage does not read), and only
    width and height are kept, both NULL for a floating picture.  No
    row of any image record holds the payload. *)
Theorem flow_image_rows_anonymous
    (document : Document) (inline_shapes : list InlineShape) :
  Forall (fun r =>
            exists width height,
              Sql.image_row (Sql.image_dict r)
              = (Sql.none, Sql.none, Sql.none, width, height)
              /\ match r with
                 | InlineImage _ _ _ w h =>
                     width = Sql.Scalar w /\ height = Sql.Scalar h
                 | _ => width = Sql.none /\ height = Sql.none
                 end)
         (Images.docx_images document inline_shapes)
  /\ forall r blob,
       Sql.image_row (Sql.image_dict r)
       = Sql.image_row
           (Sql.image_dict
              match r with
              | PdfImage p x f w h _ => PdfImage p x f w h blob
              | InlineImage i n _ w h => InlineImage i n blob w h
              | FloatingImage i rId _ => FloatingImage i rId blob
              | SlideImage s i _ f w h => SlideImage s i blob f w h
              | RelImage s rId f _ => RelImage s rId f blob
              end).
Proof.
  split.
  - eapply Forall_impl; [apply SqlFacts.docx_images_flow|].
    intros [| i n b w h | i rId b | |]; try contradiction; intros _.
    + exists (Sql.Scalar w), (Sql.Scalar h). now split.
    + exists Sql.none, Sql.none. now split.
  - now intros [].
Qed.

(** X21: text extraction on a flow document gives one record for each
    paragraph, in order, empty paragraphs included, with the trimmed
    text of the paragraph; and the link records agree with it: the text
    and the URL of every link record are the text of the record of one
    of the paragraphs. *)
Theorem flow_text_agrees_with_links (paragraphs : list Paragraph) :
  omap para_record_text (Text.docx_text paragraphs)
  = map (fun para => PyStr.strip (para_text para)) paragraphs
  /\ List.length (Text.docx_text paragraphs) = List.length paragraphs
  /\ Forall (fun link =>
               exists p,
                 ParaText p ∈ Text.docx_text paragraphs
                 /\ link = ParaLink (pd_text p) (pd_text p))
            (Links.docx_links paragraphs).
Proof.
  assert (Htext : forall para,
            pd_text (Text.docx_para_data para)
            = PyStr.strip (para_text para)).
  { intros para. simpl. now destruct (para_text para). }
  split; [|split].
  - unfold Text.docx_text.
    induction paragraphs as [|para rest IH]; [reflexivity|].
    cbn [map omap list_omap para_record_text]. rewrite Htext.
    f_equal. exact IH.
  - apply length_map.
  - unfold Links.docx_links.
    apply Forall_flat_map, Forall_forall. intros para Hin.
    destruct (PyStr.contains "http" (para_text para)); [|constructor].
    constructor; [|constructor].
    exists (Text.docx_para_data para). rewrite Htext. split; [|reflexivity].
    unfold Text.docx_text. apply list_elem_of_fmap. now exists para.
Qed.
